(** * yura-backend: the report schema and the document renderer of [app.py]

    The development embeds the schema classes ([Paciente] ... [InformeGeriatrico]),
    the renderer [generar_docx_desde_json] with its helpers, and the request
    handler [procesar_informe] of [src/app.py], and states the properties of
    the specification over them.

    Conventions.
    - [data] is the value [json.loads] returns: a [json] tree with Python's
      dynamic semantics ([.get], truthiness, [str()], iteration), written out
      in the [Py] module.  A dict is its list of items in insertion order.
    - A [str] is a Rocq [string] holding its UTF-8 bytes.
    - A raised exception is the [Raise] case of [res]; [try/except Exception]
      is a [match] on it.
    - python-docx is modelled by the content it records: a document is a list
      of tables and paragraphs, a paragraph a list of runs.  A call
      [paragraph.add_run] appends a run, or raises [ValueError] when lxml
      refuses the text; the mutated paragraph is threaded through the code as
      an explicit state.
    - Files and the calls to the collaborators are the [world] a request
      runs in; whether an operation of the operating system fails is decided
      by the environment. *)

From stdpp Require Import base list strings gmap.
From Stdlib Require Import ZArith String Ascii Lia DecimalString DecimalZ.

Set Warnings "-register-all".
Open Scope string_scope.
Open Scope Z_scope.

(* ------------------------------------------------------------------ *)
(** * Values, exceptions, results                                       *)
(* ------------------------------------------------------------------ *)

(** A Python value as [json.loads] builds it.  A float is kept as the two
    observations the program can make of it: whether it is non-zero
    ([bool(x)]) and its text ([str(x)]); every other use of a float in the
    program is a type error. *)
Inductive json : Type :=
| JNull
| JBool (b : bool)
| JInt (n : Z)
| JFloat (nonzero : bool) (text : string)
| JStr (s : string)
| JList (l : list json)
| JObj (items : list (string * json)).

Inductive exn : Type :=
| AttributeError
| TypeError
| ValueError
| KeyError
| ExternalError (name : string).   (* raised by a collaborator, by class name *)

Definition exn_name (e : exn) : string :=
  match e with
  | AttributeError => "AttributeError"
  | TypeError => "TypeError"
  | ValueError => "ValueError"
  | KeyError => "KeyError"
  | ExternalError name => name
  end.

Inductive res (A : Type) : Type :=
| Ok (a : A)
| Raise (e : exn).
Arguments Ok {A} a.
Arguments Raise {A} e.

Definition bind {A B : Type} (m : res A) (k : A -> res B) : res B :=
  match m with
  | Ok a => k a
  | Raise e => Raise e
  end.

Notation "x <- m ;; k" := (bind m (fun x => k))
  (at level 100, m at next level, right associativity).

(** [for x in l: s = body(x, s)] with a body that may raise. *)
Fixpoint for_each {A S : Type} (l : list A) (body : A -> S -> res S) (s : S) : res S :=
  match l with
  | [] => Ok s
  | x :: l' => s' <- body x s ;; for_each l' body s'
  end.

(* ------------------------------------------------------------------ *)
(** * datetime                                                          *)
(* ------------------------------------------------------------------ *)

Record datetime : Type := mkdatetime {
  year : Z; month : Z; day : Z; hour : Z; minute : Z; second : Z
}.

Module DateTime.

Definition is_leap (y : Z) : bool :=
  (y mod 4 =? 0) && (negb (y mod 100 =? 0) || (y mod 400 =? 0)).

Definition days_before_year (y : Z) : Z :=
  let y1 := y - 1 in y1 * 365 + y1 / 4 - y1 / 100 + y1 / 400.

Definition days_in_month (y m : Z) : Z :=
  if m =? 2 then (if is_leap y then 29 else 28)
  else if (m =? 4) || (m =? 6) || (m =? 9) || (m =? 11) then 30
  else 31.

Definition days_before_month (y m : Z) : Z :=
  nth (Z.to_nat m) [0; 0; 31; 59; 90; 120; 151; 181; 212; 243; 273; 304; 334] 0
  + (if (2 <? m) && is_leap y then 1 else 0).

Definition toordinal (dt : datetime) : Z :=
  days_before_year (year dt) + days_before_month (year dt) (month dt) + day dt.

(** [dt.weekday()]: Monday is 0. *)
Definition weekday (dt : datetime) : Z := (toordinal dt + 6) mod 7.

Definition pad2 (n : Z) : string :=
  let s := NilZero.string_of_int (Z.to_int n) in
  if n <? 10 then "0" ++ s else s.

(** [dt.strftime("%A")] in the C locale. *)
Definition strftime_A (dt : datetime) : string :=
  nth (Z.to_nat (weekday dt))
      ["Monday"; "Tuesday"; "Wednesday"; "Thursday"; "Friday"; "Saturday"; "Sunday"] "".

(** [dt.strftime("%d/%m/%y")]. *)
Definition strftime_dmy (dt : datetime) : string :=
  pad2 (day dt) ++ "/" ++ pad2 (month dt) ++ "/" ++ pad2 (year dt mod 100).

(** [dt.strftime("%H:%M")]. *)
Definition strftime_HM (dt : datetime) : string :=
  pad2 (hour dt) ++ ":" ++ pad2 (minute dt).

Definition digit (c : ascii) : option Z :=
  let n := Z.of_nat (nat_of_ascii c) in
  if (48 <=? n) && (n <=? 57) then Some (n - 48) else None.

Definition digits2 (a b : ascii) : option Z :=
  match digit a, digit b with
  | Some x, Some y => Some (10 * x + y)
  | _, _ => None
  end.

Definition digits4 (a b c d : ascii) : option Z :=
  match digits2 a b, digits2 c d with
  | Some x, Some y => Some (100 * x + y)
  | _, _ => None
  end.

Definition valid (dt : datetime) : bool :=
  (1 <=? year dt) && (year dt <=? 9999)
  && (1 <=? month dt) && (month dt <=? 12)
  && (1 <=? day dt) && (day dt <=? days_in_month (year dt) (month dt))
  && (0 <=? hour dt) && (hour dt <=? 23)
  && (0 <=? minute dt) && (minute dt <=? 59)
  && (0 <=? second dt) && (second dt <=? 59).

(** The form [YYYY-MM-DDTHH:MM:SS] (separator [T] or a space), which every
    version of [datetime.fromisoformat] reads the same way. *)
Definition parse_basic (s : string) : option datetime :=
  match list_ascii_of_string s with
  | [y1; y2; y3; y4; "-"; m1; m2; "-"; d1; d2; sep; h1; h2; ":"; n1; n2; ":"; s1; s2]%char =>
      if (Ascii.eqb sep "T" || Ascii.eqb sep " ")%char then
        match digits4 y1 y2 y3 y4, digits2 m1 m2, digits2 d1 d2,
              digits2 h1 h2, digits2 n1 n2, digits2 s1 s2 with
        | Some y, Some m, Some d, Some h, Some n, Some sec =>
            let dt := mkdatetime y m d h n sec in
            if valid dt then Some dt else None
        | _, _, _, _, _, _ => None
        end
      else None
  | _ => None
  end.

End DateTime.

(* ------------------------------------------------------------------ *)
(** * The Python runtime the program relies on                          *)
(* ------------------------------------------------------------------ *)

(** Tables and library behaviour that are not part of the repository and are
    left open: every statement below holds for all of them. *)
Class PyRuntime : Type := {
  (** [str.upper] on a string with a character beyond U+00FF (the Unicode
      case tables). *)
  unicode_upper : string -> string;
  (** [datetime.fromisoformat] on a non-empty string that is not of the basic
      form of [DateTime.parse_basic]; [None] is [ValueError]. *)
  fromisoformat_ext : string -> option datetime;
  (** [repr] of a [str] (quoting and escapes). *)
  repr_str : string -> string;
  (** [paragraph.add_run(text)] called with a truthy [text] that is not a
      [str], outside the documented contract of python-docx: the run's text,
      or the exception. *)
  add_run_other : json -> res string
}.

(* ------------------------------------------------------------------ *)
(** * Python operations on values                                       *)
(* ------------------------------------------------------------------ *)

Module Py.
Section Ops.
Context {RT : PyRuntime}.

(** [bool(v)]. *)
Definition truthy (v : json) : bool :=
  match v with
  | JNull => false
  | JBool b => b
  | JInt n => negb (n =? 0)
  | JFloat nz _ => nz
  | JStr s => negb (String.eqb s "")
  | JList l => match l with [] => false | _ => true end
  | JObj kvs => match kvs with [] => false | _ => true end
  end.

(** The value stored under key [k], if any. *)
Fixpoint lookup (k : string) (kvs : list (string * json)) : option json :=
  match kvs with
  | [] => None
  | (k', v) :: rest => if String.eqb k k' then Some v else lookup k rest
  end.

(** [d.get(k, default)]; only a dict has the method. *)
Definition get (d : json) (k : string) (default : json) : res json :=
  match d with
  | JObj kvs => Ok (match lookup k kvs with Some v => v | None => default end)
  | _ => Raise AttributeError
  end.

(** [d[k]]. *)
Definition getitem (d : json) (k : string) : res json :=
  match d with
  | JObj kvs => match lookup k kvs with Some v => Ok v | None => Raise KeyError end
  | _ => Raise TypeError
  end.

(** [d.values()] and [d.items()]. *)
Definition values (d : json) : res (list json) :=
  match d with
  | JObj kvs => Ok (map snd kvs)
  | _ => Raise AttributeError
  end.

Definition items (d : json) : res (list (string * json)) :=
  match d with
  | JObj kvs => Ok kvs
  | _ => Raise AttributeError
  end.

(** [any(l)]. *)
Definition any (l : list json) : bool := existsb truthy l.

Definition str_of_Z (n : Z) : string := NilZero.string_of_int (Z.to_int n).

Fixpoint join (sep : string) (l : list string) : string :=
  match l with
  | [] => ""
  | [s] => s
  | s :: rest => s ++ sep ++ join sep rest
  end.

(** [repr(v)]. *)
Fixpoint repr (v : json) : string :=
  match v with
  | JNull => "None"
  | JBool true => "True"
  | JBool false => "False"
  | JInt n => str_of_Z n
  | JFloat _ t => t
  | JStr s => repr_str s
  | JList l => "[" ++ join ", " (map repr l) ++ "]"
  | JObj kvs =>
      "{" ++ join ", " (map (fun kv => repr_str (fst kv) ++ ": " ++ repr (snd kv)) kvs) ++ "}"
  end.

(** [str(v)], which is also what an f-string field [{v}] inserts. *)
Definition str (v : json) : string :=
  match v with
  | JStr s => s
  | _ => repr v
  end.

(** The value of a byte. *)
Definition byte (c : ascii) : Z := Z.of_nat (nat_of_ascii c).

(** A continuation byte of UTF-8, [10xxxxxx]. *)
Definition is_continuation (c : ascii) : bool :=
  (128 <=? byte c) && (byte c <? 192).

(** The characters of a [str], as iterating over it yields them: a byte that
    is not a continuation byte starts a character, the continuation bytes
    that follow it belong to it. *)
Fixpoint chars (s : string) : list string :=
  match s with
  | EmptyString => []
  | String c rest =>
      match rest with
      | String d _ =>
          if is_continuation d then
            match chars rest with
            | x :: l => String c x :: l
            | [] => [String c ""]
            end
          else String c "" :: chars rest
      | EmptyString => [String c ""]
      end
  end.

(** The elements a [for] loop over [v] visits. *)
Definition iter (v : json) : res (list json) :=
  match v with
  | JList l => Ok l
  | JStr s => Ok (map JStr (chars s))
  | JObj kvs => Ok (map (fun kv => JStr (fst kv)) kvs)
  | _ => Raise TypeError
  end.

Definition is_ascii (s : string) : bool :=
  forallb (fun c => Nat.ltb (nat_of_ascii c) 128) (list_ascii_of_string s).

Definition ascii_upper (c : ascii) : ascii :=
  let n := nat_of_ascii c in
  if Nat.leb 97 n && Nat.leb n 122 then ascii_of_nat (n - 32) else c.

Fixpoint map_string (f : ascii -> ascii) (s : string) : string :=
  match s with
  | EmptyString => EmptyString
  | String c s' => String (f c) (map_string f s')
  end.

(** [s.upper()] on a string whose characters are all below U+0100 (ASCII and
    Latin-1, which covers Spanish text); [None] when another character
    occurs.  [a]-[z] and the letters U+00E0-U+00FE become the letter 32
    places before; the sharp s becomes [SS], the y with diaeresis U+0178, the
    micro sign U+039C; every other character stays. *)
Fixpoint upper_latin1 (s : string) : option string :=
  match s with
  | EmptyString => Some EmptyString
  | String c rest =>
      let n := nat_of_ascii c in
      if Nat.ltb n 128 then option_map (String (ascii_upper c)) (upper_latin1 rest)
      else
        match rest with
        | String d rest' =>
            let m := nat_of_ascii d in
            if negb (Nat.leb 128 m && Nat.leb m 191) then None
            else if Nat.eqb n 195 then
              if Nat.eqb m 159 then option_map (append "SS") (upper_latin1 rest')
              else if Nat.eqb m 191 then
                option_map (fun u => String (ascii_of_nat 197) (String (ascii_of_nat 184) u))
                           (upper_latin1 rest')
              else if Nat.leb 160 m && negb (Nat.eqb m 183) then
                option_map (fun u => String c (String (ascii_of_nat (m - 32)) u))
                           (upper_latin1 rest')
              else option_map (fun u => String c (String d u)) (upper_latin1 rest')
            else if Nat.eqb n 194 then
              if Nat.eqb m 181 then
                option_map (fun u => String (ascii_of_nat 206) (String (ascii_of_nat 156) u))
                           (upper_latin1 rest')
              else option_map (fun u => String c (String d u)) (upper_latin1 rest')
            else None
        | EmptyString => None
        end
  end.

(** [s.upper()]. *)
Definition str_upper (s : string) : string :=
  match upper_latin1 s with
  | Some u => u
  | None => unicode_upper s
  end.

(** [v.upper()]; only a [str] has the method. *)
Definition upper (v : json) : res string :=
  match v with
  | JStr s => Ok (str_upper s)
  | _ => Raise AttributeError
  end.

(** [v + s] for a [str] literal [s]. *)
Definition add_str (v : json) (s : string) : res string :=
  match v with
  | JStr a => Ok (a ++ s)
  | _ => Raise TypeError
  end.

(** [sep.join(l)]: every item has to be a [str]. *)
Fixpoint strs (l : list json) : res (list string) :=
  match l with
  | [] => Ok []
  | JStr s :: rest => ss <- strs rest ;; Ok (s :: ss)
  | _ :: _ => Raise TypeError
  end.

Definition str_join (sep : string) (l : list json) : res string :=
  ss <- strs l ;; Ok (join sep ss).

(** [datetime.fromisoformat(v)]; [None] stands for the exception
    ([TypeError] for a value that is not a [str], [ValueError] otherwise),
    which the caller catches without looking at it. *)
Definition fromisoformat (v : json) : option datetime :=
  match v with
  | JStr s =>
      match DateTime.parse_basic s with
      | Some dt => Some dt
      | None => if String.eqb s "" then None else fromisoformat_ext s
      end
  | _ => None
  end.

End Ops.
End Py.
(* ------------------------------------------------------------------ *)
(** * The document python-docx records                                  *)
(* ------------------------------------------------------------------ *)

Record run : Type := mkrun {
  run_text : string;
  run_bold : bool;
  run_font : string;
  run_size : Z          (* points *)
}.

Inductive alignment : Type := CENTER.

Record paragraph : Type := mkparagraph {
  p_alignment : option alignment;
  p_runs : list run
}.

Record cell : Type := mkcell { paragraphs : list paragraph }.

(** Widths and margins are kept in hundredths of an inch ([Inches(1.5)] is
    150). *)
Record table : Type := mktable {
  t_style : string;
  t_autofit : bool;
  t_widths : list Z;
  t_rows : list (list cell)
}.

Inductive block : Type :=
| BTable (t : table)
| BParagraph (p : paragraph).

Record document : Type := mkdocument {
  margins : Z * Z * Z * Z;   (* top, bottom, left, right *)
  body : list block
}.

Definition LF : string := String "010"%char "".

Definition new_paragraph : paragraph := mkparagraph None [].

(** [XML compatible] as lxml tests the text of a run before storing it
    ([_is_valid_xml_utf8] on the UTF-8 bytes): no NUL byte and no control
    character other than tab, line feed and carriage return (which
    python-docx turns into elements of their own), no UTF-16 surrogate
    (U+D800-U+DFFF, bytes [ED A0 80]-[ED BF BF]) and neither U+FFFE nor
    U+FFFF (bytes [EF BF BE] and [EF BF BF]). *)
Definition xml_char (n : Z) : bool :=
  (n =? 9) || (n =? 10) || (n =? 13) || (32 <=? n).

Fixpoint xml_compatible (s : string) : bool :=
  match s with
  | EmptyString => true
  | String c rest =>
      (if Py.byte c <? 128 then xml_char (Py.byte c)
       else match rest with
            | String c1 (String c2 _) =>
                let next3 := Py.byte c * 65536 + Py.byte c1 * 256 + Py.byte c2 in
                negb ((next3 =? 15712190) || (next3 =? 15712191)
                      || ((15573120 <=? next3) && (next3 <=? 15581119)))
            | _ => true
            end)
      && xml_compatible rest
  end.

(** The paragraph with one more run. *)
Definition append_run (p : paragraph) (r : run) : paragraph :=
  mkparagraph (p_alignment p) (p_runs p ++ [r]).

(** [run = paragraph.add_run(text)] with the style the caller sets on [run]
    right after: lxml raises [ValueError] for a text that is not XML
    compatible, and the paragraph then stays as it was. *)
Definition add_run (p : paragraph) (r : run) : res paragraph :=
  if xml_compatible (run_text r) then Ok (append_run p r) else Raise ValueError.


Definition centered (p : paragraph) : paragraph :=
  mkparagraph (Some CENTER) (p_runs p).

Definition nonempty (s : string) : bool := negb (String.eqb s "").

Fixpoint enumerate_from {A : Type} (i : Z) (l : list A) : list (Z * A) :=
  match l with
  | [] => []
  | x :: l' => (i, x) :: enumerate_from (i + 1) l'
  end.

(* ------------------------------------------------------------------ *)
(** * app.py: helpers and the renderer                                  *)
(* ------------------------------------------------------------------ *)

Definition dias : list (string * string) :=
  [("Monday", "Lunes"); ("Tuesday", "Martes"); ("Wednesday", "Miércoles");
   ("Thursday", "Jueves"); ("Friday", "Viernes"); ("Saturday", "Sábado");
   ("Sunday", "Domingo")].

Fixpoint assoc (k : string) (l : list (string * string)) : option string :=
  match l with
  | [] => None
  | (k', v) :: rest => if String.eqb k k' then Some v else assoc k rest
  end.

(** [dias.get(dia_en, dia_en)]. *)
Definition traducir_dia (dia_en : string) : string :=
  match assoc dia_en dias with
  | Some d => d
  | None => dia_en
  end.

Definition agregar_texto_negrita (p : paragraph) (texto : string) (fuente : Z)
  : res paragraph :=
  add_run p (mkrun texto true "Arial" fuente).

Definition agregar_texto (p : paragraph) (texto : string) (fuente : Z)
  : res paragraph :=
  add_run p (mkrun texto false "Arial" fuente).

Definition encabezado_paciente : list string :=
  ["AP PATERNO"; "AP MATERNO"; "NOMBRES"; "HISTORIA CLÍNICA"; "NO CAMA"].

Definition anchos_paciente : list Z := [150; 150; 180; 124; 124].

Definition encabezados : list string :=
  ["FECHA Y HORA"; "NOTAS DE EVOLUCIÓN"; "ÓRDENES MÉDICAS"].

Definition anchos_principal : list Z := [180; 380; 168].

Definition campos_fisicos : list (string * string) :=
  [("cuello", "Cuello"); ("torax_anterior", "Tórax anterior");
   ("torax_posterior", "Tórax posterior"); ("abdomen", "Abdomen");
   ("genitourinario", "Genitourinario"); ("extremidades", "Extremidades")].

Definition claves_signos : list string := ["PA"; "FC"; "FR"; "O2"].

(** Lines 140-144 and 177-180: the header row of a table, each cell with its
    first paragraph centred and the title in bold at 9pt. *)
Definition fila_encabezado (titulos : list string) : res (list cell) :=
  for_each titulos
    (fun titulo (cells : list cell) =>
       p <- agregar_texto_negrita (centered new_paragraph) titulo 9 ;;
       Ok (cells ++ [mkcell [p]])%list)
    [].

Section Renderer.
Context {RT : PyRuntime}.

(** [agregar_texto(p, dato, fuente)] for a value of any type: python-docx
    stores no text for a falsy value; a [str] goes through [add_run]. *)
Definition agregar_dato (p : paragraph) (dato : json) (fuente : Z) : res paragraph :=
  match dato with
  | JStr s => agregar_texto p s fuente
  | _ =>
      if Py.truthy dato
      then t <- add_run_other dato ;; Ok (append_run p (mkrun t false "Arial" fuente))
      else Ok (append_run p (mkrun "" false "Arial" fuente))
  end.

(** Lines 128-159: the patient table. *)
Definition tabla_paciente (data : json) : res table :=
  hdr_cells <- fila_encabezado encabezado_paciente ;;
  paciente <- Py.get data "paciente" (JObj []) ;;
  ap <- Py.get paciente "apellido_paterno" (JStr "") ;;
  am <- Py.get paciente "apellido_materno" (JStr "") ;;
  nombres <- Py.get paciente "nombres" (JStr "") ;;
  n_historia <- Py.get paciente "n_historia" (JStr "") ;;
  n_cama <- Py.get paciente "n_cama" (JStr "") ;;
  let datos_paciente :=
    [ap; am; nombres; JStr (Py.str n_historia); JStr (Py.str n_cama)] in
  row_cells <- for_each datos_paciente
    (fun dato (cells : list cell) =>
       p <- agregar_dato (centered new_paragraph) dato 9 ;;
       Ok (cells ++ [mkcell [p]])%list)
    [] ;;
  Ok (mktable "Table Grid" false anchos_paciente [hdr_cells; row_cells]).

(** Lines 210-214: one bold label and one value per truthy vital sign. *)
Definition bloque_signos (signos_vitales : json) (p : paragraph) : res paragraph :=
  for_each claves_signos
    (fun key p =>
       valor <- Py.get signos_vitales key JNull ;;
       if Py.truthy valor
       then p <- agregar_texto_negrita p (key ++ ": ") 8 ;;
            agregar_texto p (Py.str valor ++ LF) 8
       else Ok p)
    p.

(** Lines 188-214: column 1, the date and the vital signs, written into
    [p]. *)
Definition columna_fecha (data : json) (p : paragraph) : res paragraph :=
  fecha_iso <- Py.get data "fecha_hora" (JStr "") ;;
  let '(dia_semana, fecha_formateada, hora) :=
    match Py.fromisoformat fecha_iso with
    | Some dt => (traducir_dia (DateTime.strftime_A dt),
                  DateTime.strftime_dmy dt, DateTime.strftime_HM dt)
    | None => ("", "", "")
    end in
  signos_vitales <- Py.get data "signos_vitales" (JObj []) ;;
  p <- (if nonempty dia_semana
        then agregar_texto_negrita p (dia_semana ++ LF) 8 else Ok p) ;;
  p <- (if nonempty fecha_formateada
        then agregar_texto p (fecha_formateada ++ LF) 8 else Ok p) ;;
  p <- (if nonempty hora
        then agregar_texto p (hora ++ LF ++ LF) 8 else Ok p) ;;
  bloque_signos signos_vitales p.

(** Lines 228-232: the diagnoses. *)
Definition bloque_diagnosticos (diagnosticos : json) (p_notas : paragraph)
  : res paragraph :=
  if Py.truthy diagnosticos then
    p <- agregar_texto_negrita p_notas ("DIAGNÓSTICOS:" ++ LF) 8 ;;
    ds <- Py.iter diagnosticos ;;
    p <- for_each ds
           (fun diag p =>
              u <- Py.upper diag ;;
              agregar_texto p ("• " ++ u ++ LF) 8)
           p ;;
    agregar_texto p LF 8
  else Ok p_notas.

(** Lines 248-252: the regional findings, in the order of the table
    [campos_fisicos]. *)
Definition bloque_fisico (evolucion : json) (p_notas : paragraph) : res paragraph :=
  for_each campos_fisicos
    (fun '(key, label) p =>
       valor <- Py.get evolucion key JNull ;;
       if Py.truthy valor
       then p <- agregar_texto_negrita p (label ++ ": ") 8 ;;
            agregar_texto p (Py.str valor ++ LF) 8
       else Ok p)
    p_notas.

(** Lines 259-272: the neurological line. *)
Definition bloque_neurologico (evolucion : json) (p_notas : paragraph)
  : res paragraph :=
  neurologico <- Py.get evolucion "neurologico" (JObj []) ;;
  if Py.truthy neurologico then
    vs <- Py.values neurologico ;;
    if Py.any vs then
      let enb_texto : list json := [] in
      estado <- Py.get neurologico "estado" JNull ;;
      enb_texto <- (if Py.truthy estado
                    then v <- Py.getitem neurologico "estado" ;;
                         Ok (enb_texto ++ [v])%list
                    else Ok enb_texto) ;;
      foco_motor <- Py.get neurologico "foco_motor" JNull ;;
      enb_texto <- (if Py.truthy foco_motor
                    then v <- Py.getitem neurologico "foco_motor" ;;
                         Ok (enb_texto ++ [v])%list
                    else Ok enb_texto) ;;
      glasgow <- Py.get neurologico "glasgow" JNull ;;
      enb_texto <- (if Py.truthy glasgow
                    then v <- Py.getitem neurologico "glasgow" ;;
                         Ok (enb_texto ++ [JStr ("Glasgow " ++ Py.str v)])%list
                    else Ok enb_texto) ;;
      match enb_texto with
      | [] => Ok p_notas
      | _ :: _ =>
          p <- agregar_texto_negrita p_notas (LF ++ "ENB: ") 8 ;;
          t <- Py.str_join ", " enb_texto ;;
          agregar_texto p (t ++ LF) 8
      end
    else Ok p_notas
  else Ok p_notas.

(** Lines 219-282: column 2, the evolution notes. *)
Definition columna_notas (data : json) (p_notas : paragraph) : res paragraph :=
  descripcion <- Py.get data "descripcion_paciente" (JStr "") ;;
  diagnosticos <- Py.get data "diagnosticos" (JList []) ;;
  evolucion <- Py.get data "evolucion" (JObj []) ;;
  p_notas <- (if Py.truthy descripcion
              then t <- Py.add_str descripcion (LF ++ LF) ;;
                   agregar_texto p_notas t 8
              else Ok p_notas) ;;
  p_notas <- bloque_diagnosticos diagnosticos p_notas ;;
  estado_general <- Py.get evolucion "estado_general" JNull ;;
  p_notas <- (if Py.truthy estado_general
              then p <- agregar_texto_negrita p_notas "S: " 8 ;;
                   v <- Py.getitem evolucion "estado_general" ;;
                   agregar_texto p (Py.str v ++ LF ++ LF) 8
              else Ok p_notas) ;;
  p_notas <- bloque_fisico evolucion p_notas ;;
  efg <- Py.get evolucion "EFG" JNull ;;
  p_notas <- (if Py.truthy efg
              then p <- agregar_texto_negrita p_notas (LF ++ "EFG: ") 8 ;;
                   v <- Py.getitem evolucion "EFG" ;;
                   agregar_texto p (Py.str v ++ LF) 8
              else Ok p_notas) ;;
  p_notas <- bloque_neurologico evolucion p_notas ;;
  bh <- Py.get data "BH" (JStr "") ;;
  rd <- Py.get data "RD" (JStr "") ;;
  p_notas <- (if Py.truthy bh
              then p <- agregar_texto_negrita p_notas (LF ++ "BH: ") 8 ;;
                   agregar_texto p (Py.str bh ++ LF) 8
              else Ok p_notas) ;;
  p_notas <- (if Py.truthy rd
              then p <- agregar_texto_negrita p_notas (LF ++ "RD: ") 8 ;;
                   agregar_texto p (Py.str rd ++ LF) 8
              else Ok p_notas) ;;
  Ok p_notas.

(** Lines 291-294: the numbered orders. *)
Definition bloque_ordenes (ordenes : json) (p_ordenes : paragraph) : res paragraph :=
  os <- Py.iter ordenes ;;
  for_each (enumerate_from 0 os)
    (fun '(i, orden) p =>
       let orden_text := Py.str_of_Z (i + 1) ++ ". " ++ Py.str orden in
       agregar_texto p (orden_text ++ LF) 8)
    p_ordenes.

(** Lines 303-307 and 309-313: one section of the fluid balance, the title
    and a line per truthy value; the source writes the same loop twice. *)
Definition seccion_balance (titulo : string) (d : json) (p : paragraph)
  : res paragraph :=
  vs <- Py.values d ;;
  if Py.any vs then
    p <- agregar_texto_negrita p titulo 8 ;;
    its <- Py.items d ;;
    for_each its
      (fun '(key, val) p =>
         if Py.truthy val
         then agregar_texto p (key ++ ": " ++ Py.str val ++ LF) 8
         else Ok p)
      p
  else Ok p.

(** Lines 297-313: the fluid balance. *)
Definition bloque_balance (ingresos egresos : json) (p_ordenes : paragraph)
  : res paragraph :=
  vi <- Py.values ingresos ;;
  alguno <- (if Py.any vi then Ok true
             else ve <- Py.values egresos ;; Ok (Py.any ve)) ;;
  if alguno : bool then
    p <- agregar_texto p_ordenes LF 8 ;;
    p <- seccion_balance ("INGRESOS:" ++ LF) ingresos p ;;
    seccion_balance (LF ++ "EGRESOS:" ++ LF) egresos p
  else Ok p_ordenes.

(** Lines 287-313: column 3, the orders and the fluid balance. *)
Definition columna_ordenes (data : json) (p_ordenes : paragraph) : res paragraph :=
  ordenes <- Py.get data "ordenes_medicas" (JList []) ;;
  p_ordenes <- bloque_ordenes ordenes p_ordenes ;;
  ingresos <- Py.get data "ingresos" (JObj []) ;;
  egresos <- Py.get data "egresos" (JObj []) ;;
  bloque_balance ingresos egresos p_ordenes.

(** Lines 115-313: the document as it is in memory when [doc.save] is
    reached: the margins, the patient table, the empty paragraph, and the
    main table with its header row and its three content cells. *)
Definition construir_documento (data : json) : res document :=
  t1 <- tabla_paciente data ;;
  hdr <- fila_encabezado encabezados ;;
  c1 <- columna_fecha data new_paragraph ;;
  c2 <- columna_notas data new_paragraph ;;
  c3 <- columna_ordenes data new_paragraph ;;
  Ok (mkdocument (39, 39, 39, 39)
        [BTable t1; BParagraph new_paragraph;
         BTable (mktable "Table Grid" false anchos_principal
                   [hdr; [mkcell [c1]; mkcell [c2]; mkcell [c3]]])]).

End Renderer.

(* ------------------------------------------------------------------ *)
(** * app.py: the schema classes                                        *)
(* ------------------------------------------------------------------ *)

(** The annotation of a field.  A field holds its name, its type and its
    default; [None] is [Field(...)] or a bare annotation: the field is
    required. *)
Inductive tipo : Type :=
| TStr                                   (* str *)
| TInt                                   (* int *)
| TOptStr                                (* Optional[str] *)
| TListStr                               (* List[str] *)
| TEnum (valores : list string)          (* a str Enum *)
| TModel (campos : list (string * tipo * option json)).   (* a BaseModel *)

Definition campo : Type := (string * tipo * option json)%type.

Definition requerido (nombre : string) (t : tipo) : campo := (nombre, t, None).

Definition TipoInforme : tipo := TEnum ["EVOLUCION_GERIATRICA"].

Definition Paciente : tipo := TModel
  [requerido "apellido_paterno" TStr; requerido "apellido_materno" TStr;
   requerido "nombres" TStr; requerido "edad" TInt; requerido "sexo" TStr;
   requerido "n_cama" TInt; requerido "n_historia" TInt].

Definition SignosVitales : tipo := TModel
  [requerido "PA" TStr; requerido "FC" TInt; requerido "FR" TInt;
   requerido "O2" TInt].

Definition Neurologico : tipo := TModel
  [requerido "estado" TStr; requerido "glasgow" TStr;
   requerido "foco_motor" TStr].

Definition Evolucion : tipo := TModel
  [requerido "estado_general" TStr; requerido "EFG" TStr;
   ("EFR", TOptStr, Some (JStr ""));
   requerido "cuello" TStr; requerido "torax_anterior" TStr;
   requerido "torax_posterior" TStr; requerido "abdomen" TStr;
   requerido "genitourinario" TStr; requerido "extremidades" TStr;
   requerido "neurologico" Neurologico].

Definition Ingresos : tipo := TModel
  [requerido "VO" TInt; requerido "VP" TInt; requerido "AM" TInt;
   requerido "OTROS" TInt; requerido "TOTAL" TInt].

Definition Egresos : tipo := TModel
  [requerido "D" TInt; requerido "C" TInt; requerido "PI" TInt;
   requerido "OTROS" TInt; requerido "TOTAL" TInt].

Definition InformeGeriatrico : tipo := TModel
  [requerido "tipo_informe" TipoInforme; requerido "paciente" Paciente;
   requerido "fecha_hora" TStr; requerido "signos_vitales" SignosVitales;
   requerido "diagnosticos" TListStr; requerido "evolucion" Evolucion;
   requerido "ingresos" Ingresos; requerido "egresos" Egresos;
   requerido "ordenes_medicas" TListStr; requerido "BH" TStr;
   requerido "RD" TStr; requerido "descripcion_paciente" TStr].

Definition is_str (v : json) : bool :=
  match v with JStr _ => true | _ => false end.

Fixpoint nodup_keys (kvs : list (string * json)) : bool :=
  match kvs with
  | [] => true
  | (k, _) :: rest =>
      negb (existsb (fun kv => String.eqb k (fst kv)) rest) && nodup_keys rest
  end.

Definition declared (campos : list campo) (k : string) : bool :=
  existsb (fun c => String.eqb k (fst (fst c))) campos.

(** [has_shape completo t v]: the value [v] has the shape the annotation [t]
    declares: the primitive types as written, an enum value among the
    declared ones, and for a model a dict whose keys are declared fields,
    each holding a value of its field's shape.  With [completo] every
    required field has to be present (a valid Report); without it any field
    may be missing (a Report with absent fields). *)
Fixpoint has_shape (completo : bool) (t : tipo) (v : json) {struct t} : bool :=
  match t with
  | TStr => is_str v
  | TInt => match v with JInt _ => true | _ => false end
  | TOptStr => match v with JStr _ | JNull => true | _ => false end
  | TListStr => match v with JList l => forallb is_str l | _ => false end
  | TEnum valores =>
      match v with JStr s => existsb (String.eqb s) valores | _ => false end
  | TModel campos =>
      match v with
      | JObj kvs =>
          nodup_keys kvs
          && forallb (fun kv => declared campos (fst kv)) kvs
          && (fix each (cs : list campo) : bool :=
                match cs with
                | [] => true
                | (nombre, t', def) :: cs' =>
                    match Py.lookup nombre kvs with
                    | Some v' => has_shape completo t' v'
                    | None => match def with
                              | Some _ => true
                              | None => negb completo
                              end
                    end && each cs'
                end) campos
      | _ => false
      end
  end.

(** A valid Report, and a Report in which any fields may be absent. *)
Definition valid_report (data : json) : Prop :=
  has_shape true InformeGeriatrico data = true.

Definition partial_report (data : json) : Prop :=
  has_shape false InformeGeriatrico data = true.

(* ------------------------------------------------------------------ *)
(** * app.py: the request handler                                       *)
(* ------------------------------------------------------------------ *)

(** An operation of the handler on the file system or the standard
    output. *)
Inductive operacion : Type :=
| OpGuardarAudio (path : string)     (* audio.save(filepath) *)
| OpBorrar (path : string)           (* os.remove(filepath) *)
| OpGuardarDocx (path : string)      (* doc.save(nombre_archivo) *)
| OpImprimir (texto : string)        (* print(texto) *)
| OpLeer (path : string).            (* open(file_path, "rb").read() *)

(** The collaborators of the handler, which are not part of the
    repository. *)
Class Colaboradores : Type := {
  (** [werkzeug.utils.secure_filename]. *)
  secure_filename : string -> string;
  (** [model_whisper.transcribe(filepath)["text"]] on the bytes of the file. *)
  transcribe : string -> res string;
  (** [client.models.generate_content(...).text] for a prompt, constrained to
      the schema [InformeGeriatrico]. *)
  generate_content : string -> tipo -> res string;
  (** [json.loads]. *)
  json_loads : string -> res json;
  (** the bytes [doc.save] writes, read back and base64-encoded. *)
  docx_base64 : document -> string;
  (** [str(e)]. *)
  str_exn : exn -> string;
  (** The operating system: the exception an operation raises, if it does (no
      permission, a full disk, a standard output that cannot encode the
      text). *)
  io_falla : operacion -> option exn;
  (** Whether a write that fails had already opened its file, which is then
      left cut short, or fails before (the file stays as it was). *)
  io_trunca : operacion -> bool
}.

Record upload : Type := mkupload { filename : string; contents : string }.

(** [request.files.get('audio')] and [request.form.get('tipo_informe')]. *)
Record request : Type := mkrequest {
  files_audio : option upload;
  form_tipo_informe : option string
}.

(** The body of an answer: the JSON objects the handler builds, and the page
    Flask itself sends for an exception the handler does not catch. *)
Inductive cuerpo : Type :=
| CError (error : string)
| CExito (json_generado : json) (documento_base64 : string)
| CInterno.

Record response : Type := mkresponse { status : Z; payload : cuerpo }.

Inductive file : Type :=
| FAudio (bytes : string)
| FDocx (doc : document)
| FParcial.                         (* what a write that failed has left *)

(** What a request does outside the handler, in order. *)
Inductive event : Type :=
| EvSave (path : string)            (* audio.save *)
| EvTranscribe (path : string)      (* model_whisper.transcribe *)
| EvRemove (path : string)          (* os.remove *)
| EvGenerate (prompt : string)      (* client.models.generate_content *)
| EvRender (data : json)            (* generar_docx_desde_json *)
| EvDocSave (path : string)         (* doc.save *)
| EvRead (path : string).           (* open(file_path, "rb").read() *)

Record world : Type := mkworld {
  fs : gmap string file;
  log : list event
}.

Definition write_file (path : string) (f : file) (ev : event) (w : world) : world :=
  mkworld (<[path := f]> (fs w)) (log w ++ [ev]).

Definition remove_file (path : string) (w : world) : world :=
  mkworld (delete path (fs w)) (log w ++ [EvRemove path]).

Definition record (ev : event) (w : world) : world :=
  mkworld (fs w) (log w ++ [ev]).

(** A write to [path] that has raised. *)
Definition escritura_fallida (trunca : bool) (path : string) (w : world) : world :=
  if trunca then mkworld (<[path := FParcial]> (fs w)) (log w) else w.

Definition UPLOAD_FOLDER : string := "uploads".

(** [TipoInforme(valor)]: the member with that value, if any. *)
Inductive TipoInforme_enum : Type := EVOLUCION_GERIATRICA.

Definition TipoInforme_value (t : TipoInforme_enum) : string :=
  match t with EVOLUCION_GERIATRICA => "EVOLUCION_GERIATRICA" end.

Definition TipoInforme_of (valor : string) : option TipoInforme_enum :=
  if String.eqb valor "EVOLUCION_GERIATRICA" then Some EVOLUCION_GERIATRICA
  else None.

Definition DQ : string := String "034"%char "".

Definition q (s : string) : string := DQ ++ s ++ DQ.

(** Lines 346-363: the prompt. *)
Definition prompt_de (tipo_enum : TipoInforme_enum) (texto_crudo : string) : string :=
  Py.join LF
    [""; "Quiero que estructures este texto clínico en formato JSON. El tipo de informe es "
           ++ q (TipoInforme_value tipo_enum) ++ ".";
     "";
     "Usa la siguiente lógica:";
     "- Extrae los datos del paciente y colócalos en el campo " ++ q "paciente" ++ ".";
     "- Organiza signos vitales en el campo " ++ q "signos_vitales" ++ ".";
     "- Coloca los diagnósticos como una lista en " ++ q "diagnosticos" ++ ".";
     "- Llena " ++ q "evolucion" ++ ", " ++ q "ingresos" ++ ", " ++ q "egresos"
       ++ " y " ++ q "ordenes_medicas" ++ " según el contenido médico.";
     "- Usa el formato de fecha ISO 8601 para el campo " ++ q "fecha_hora" ++ ".";
     "- No inventes información: si algún campo no está presente, devuélvelo vacío (ej: "
       ++ q "" ++ " o 0).";
     "- A partir del sexo, edad y día de internación del paciente, construye un campo llamado "
       ++ q "descripcion_paciente" ++ " con esta estructura:";
     "  " ++ q "Paciente de sexo {sexo} de {edad} años de edad en su {dia_internacion} día de internación con los diagnósticos de:";
     "";
     "Texto del informe:";
     DQ ++ DQ ++ DQ ++ texto_crudo ++ DQ ++ DQ ++ DQ;
     "";
     "Genera una salida JSON estructurada según el esquema del tipo de informe.";
     ""].

(** Line 319: the line the renderer prints after saving. *)
Definition aviso_guardado (nombre_archivo : string) : string :=
  "✅ Documento guardado como: " ++ nombre_archivo.

Section Handler.
Context {RT : PyRuntime} {CO : Colaboradores}.

(** [generar_docx_desde_json(data, nombre_archivo)]: the document is built
    (lines 115-313), saved under [nombre_archivo] (line 318), and a line is
    printed (line 319).  Each step may raise; an exception of the [print]
    leaves the document in the file. *)
Definition generar_docx_desde_json (data : json) (nombre_archivo : string)
    (w : world) : res unit * world :=
  match construir_documento data with
  | Raise e => (Raise e, w)
  | Ok doc =>
      match io_falla (OpGuardarDocx nombre_archivo) with
      | Some e =>
          (Raise e,
           escritura_fallida (io_trunca (OpGuardarDocx nombre_archivo)) nombre_archivo w)
      | None =>
          let w := write_file nombre_archivo (FDocx doc) (EvDocSave nombre_archivo) w in
          match io_falla (OpImprimir (aviso_guardado nombre_archivo)) with
          | Some e => (Raise e, w)
          | None => (Ok tt, w)
          end
      end
  end.

(** Lines 365-391: structure the transcript, render it, read the document
    back.  Any exception in the block is answered with status 500. *)
Definition estructurar_y_generar (tipo_enum : TipoInforme_enum)
    (texto_crudo : string) (w : world) : response * world :=
  let prompt := prompt_de tipo_enum texto_crudo in
  let falla (e : exn) (w : world) :=
    (mkresponse 500 (CError ("Error al generar respuesta con Gemini: " ++ str_exn e)), w) in
  let w := record (EvGenerate prompt) w in
  match generate_content prompt InformeGeriatrico with
  | Raise e => falla e w
  | Ok text =>
      match json_loads text with
      | Raise e => falla e w
      | Ok data_json =>
          let file_path := "informe.docx" in
          let w := record (EvRender data_json) w in
          match generar_docx_desde_json data_json file_path w with
          | (Raise e, w) => falla e w
          | (Ok _, w) =>
              match io_falla (OpLeer file_path) with
              | Some e => falla e w
              | None =>
                  match fs w !! file_path with
                  | Some (FDocx doc) =>
                      let w := record (EvRead file_path) w in
                      (mkresponse 200 (CExito data_json (docx_base64 doc)), w)
                  | _ => falla (ExternalError "FileNotFoundError") w
                  end
              end
          end
      end
  end.

(** [audio.save(filepath)], line 337: the exception it raises, if it does,
    and whether the file had been opened by then.  An upload whose name
    [secure_filename] maps to the empty string is saved to the path of the
    upload folder itself, which is a directory and cannot be opened. *)
Definition audio_save_falla (filename filepath : string) : option (exn * bool) :=
  if String.eqb filename "" then Some (ExternalError "IsADirectoryError", false)
  else match io_falla (OpGuardarAudio filepath) with
       | Some e => Some (e, io_trunca (OpGuardarAudio filepath))
       | None => None
       end.

(** [procesar_informe()], lines 323-391.  [audio.save] is outside every
    [try]: an exception it raises is answered by Flask with status 500. *)
Definition procesar_informe (req : request) (w : world) : response * world :=
  match files_audio req, form_tipo_informe req with
  | Some audio, Some tipo_informe =>
      match TipoInforme_of tipo_informe with
      | None =>
          (mkresponse 400 (CError ("Tipo de informe inválido: " ++ tipo_informe)), w)
      | Some tipo_enum =>
          let filename := secure_filename (filename audio) in
          let filepath := UPLOAD_FOLDER ++ "/" ++ filename in
          match audio_save_falla filename filepath with
          | Some (_, trunca) =>
              (mkresponse 500 CInterno, escritura_fallida trunca filepath w)
          | None =>
              let w := write_file filepath (FAudio (contents audio)) (EvSave filepath) w in
              let w := record (EvTranscribe filepath) w in
              let falla (e : exn) :=
                (mkresponse 500 (CError ("Error al transcribir audio: " ++ str_exn e)), w) in
              match transcribe (contents audio) with
              | Raise e => falla e
              | Ok texto_crudo =>
                  match io_falla (OpBorrar filepath) with
                  | Some e => falla e
                  | None =>
                      let w := remove_file filepath w in
                      estructurar_y_generar tipo_enum texto_crudo w
                  end
              end
          end
      end
  | _, _ => (mkresponse 400 (CError "Faltan datos: audio o tipo_informe"), w)
  end.

End Handler.

(* ------------------------------------------------------------------ *)
(** * The layout the specification describes                            *)
(* ------------------------------------------------------------------ *)

(** The definitions of this part follow the words of the specification, not
    the code: they say which runs each block of a column consists of, as a
    function of the field it shows.  The theorems below compare them with
    the renderer. *)

Definition negrita8 (t : string) : run := mkrun t true "Arial" 8.
Definition texto8 (t : string) : run := mkrun t false "Arial" 8.

Definition add_runs (p : paragraph) (rs : list run) : paragraph :=
  mkparagraph (p_alignment p) (p_runs p ++ rs).

(** The runs are XML compatible: python-docx accepts each of them. *)
Definition compatibles (rs : list run) : bool :=
  forallb (fun r => xml_compatible (run_text r)) rs.

(** Text made of tab, line feed, carriage return and the ASCII characters
    from the space on; it is XML compatible wherever it stands. *)
Definition ascii_text (s : string) : bool :=
  forallb (fun c => (Py.byte c <? 128) && xml_char (Py.byte c))
          (list_ascii_of_string s).

(** Writing the runs [rs] into [p] one after the other: the paragraph with
    all of them, or [ValueError] when one is refused. *)
Definition escribir (p : paragraph) (rs : list run) : res paragraph :=
  if compatibles rs then Ok (add_runs p rs) else Raise ValueError.

(** A header cell: its paragraph centred, the title in bold at 9pt; a data
    cell of the patient table: centred, not bold, at 9pt. *)
Definition celda_encabezado (titulo : string) : cell :=
  mkcell [mkparagraph (Some CENTER) [mkrun titulo true "Arial" 9]].

Definition celda_dato (texto : string) : cell :=
  mkcell [mkparagraph (Some CENTER) [mkrun texto false "Arial" 9]].

(** The field [k] of an optional dict. *)
Definition campo_de (k : string) (d : option json) : option json :=
  match d with
  | Some (JObj kvs) => Py.lookup k kvs
  | _ => None
  end.

(** A field is present when it holds a truthy value. *)
Definition presente (v : option json) : bool :=
  match v with
  | Some x => Py.truthy x
  | None => false
  end.

(** [items] without the key [k]. *)
Fixpoint dict_del (k : string) (kvs : list (string * json)) : list (string * json) :=
  match kvs with
  | [] => []
  | (k', v) :: rest =>
      if String.eqb k k' then dict_del k rest else (k', v) :: dict_del k rest
  end.

(** [items] with the value of the key [k] replaced by [v]. *)
Fixpoint dict_set (k : string) (v : json) (kvs : list (string * json))
  : list (string * json) :=
  match kvs with
  | [] => [(k, v)]
  | (k', v') :: rest =>
      if String.eqb k k' then (k, v) :: rest else (k', v') :: dict_set k v rest
  end.

Section Layout.
Context {RT : PyRuntime}.

Definition texto_de (v : option json) : string :=
  match v with
  | Some x => Py.str x
  | None => ""
  end.

(** A labelled line: the bold label, then the value and a line end. *)
Definition linea_rotulada (rotulo : string) (v : option json) (fin : string)
  : list run :=
  if presente v then [negrita8 rotulo; texto8 (texto_de v ++ fin)] else [].

(** Column 1. *)
Definition lineas_fecha (fecha_hora : option json) : list run :=
  match fecha_hora with
  | Some v =>
      match Py.fromisoformat v with
      | Some dt =>
          [negrita8 (traducir_dia (DateTime.strftime_A dt) ++ LF);
           texto8 (DateTime.strftime_dmy dt ++ LF);
           texto8 (DateTime.strftime_HM dt ++ LF ++ LF)]
      | None => []
      end
  | None => []
  end.

Definition lineas_signos (signos_vitales : option json) : list run :=
  flat_map (fun key => linea_rotulada (key ++ ": ") (campo_de key signos_vitales) LF)
           claves_signos.

(** Column 2. *)
Definition lineas_descripcion (v : option json) : list run :=
  if presente v then [texto8 (texto_de v ++ LF ++ LF)] else [].

Definition lineas_diagnosticos (v : option json) : list run :=
  match v with
  | Some (JList (d :: ds)) =>
      [negrita8 ("DIAGNÓSTICOS:" ++ LF)]
      ++ map (fun x => texto8 ("• " ++ Py.str_upper (Py.str x) ++ LF)) (d :: ds)
      ++ [texto8 LF]
  | _ => []
  end.

Definition lineas_fisico (evolucion : option json) : list run :=
  flat_map (fun '(key, label) =>
              linea_rotulada (label ++ ": ") (campo_de key evolucion) LF)
           campos_fisicos.

(** The members of the neurological line that are present, in the order
    state, focal deficit, Glasgow. *)
Definition miembros_enb (neurologico : option json) : list string :=
  (if presente (campo_de "estado" neurologico)
   then [texto_de (campo_de "estado" neurologico)] else [])
  ++ (if presente (campo_de "foco_motor" neurologico)
      then [texto_de (campo_de "foco_motor" neurologico)] else [])
  ++ (if presente (campo_de "glasgow" neurologico)
      then ["Glasgow " ++ texto_de (campo_de "glasgow" neurologico)] else []).

Definition lineas_enb (neurologico : option json) : list run :=
  match miembros_enb neurologico with
  | [] => []
  | ms => [negrita8 (LF ++ "ENB: "); texto8 (Py.join ", " ms ++ LF)]
  end.

Definition columna_notas_spec (items : list (string * json)) : list run :=
  let evolucion := Py.lookup "evolucion" items in
  lineas_descripcion (Py.lookup "descripcion_paciente" items)
  ++ lineas_diagnosticos (Py.lookup "diagnosticos" items)
  ++ linea_rotulada "S: " (campo_de "estado_general" evolucion) (LF ++ LF)
  ++ lineas_fisico evolucion
  ++ linea_rotulada (LF ++ "EFG: ") (campo_de "EFG" evolucion) LF
  ++ lineas_enb (campo_de "neurologico" evolucion)
  ++ linea_rotulada (LF ++ "BH: ") (Py.lookup "BH" items) LF
  ++ linea_rotulada (LF ++ "RD: ") (Py.lookup "RD" items) LF.

(** Column 3. *)
Definition lineas_ordenes (v : option json) : list run :=
  match v with
  | Some (JList os) =>
      map (fun '(i, o) => texto8 ((Py.str_of_Z (i + 1) ++ ". " ++ Py.str o) ++ LF))
          (enumerate_from 0 os)
  | _ => []
  end.

Definition no_cero (kv : string * json) : bool := Py.truthy (snd kv).

Definition linea_balance (kv : string * json) : run :=
  texto8 (fst kv ++ ": " ++ Py.str (snd kv) ++ LF).

(** One section of the balance: nothing when every quantity is zero,
    otherwise the title and the non-zero quantities. *)
Definition lineas_seccion (titulo : string) (kvs : list (string * json)) : list run :=
  if existsb no_cero kvs
  then negrita8 titulo :: map linea_balance (List.filter no_cero kvs)
  else [].

Definition lineas_balance (ingresos egresos : list (string * json)) : list run :=
  if existsb no_cero ingresos || existsb no_cero egresos
  then texto8 LF :: lineas_seccion ("INGRESOS:" ++ LF) ingresos
                 ++ lineas_seccion (LF ++ "EGRESOS:" ++ LF) egresos
  else [].

End Layout.

(** The texts of the runs of a paragraph. *)
Definition textos (rs : list run) : list string := map run_text rs.

(** The content paragraph of column [i] of the main table of a document. *)
Definition columna (doc : document) (i : nat) : option paragraph :=
  match body doc with
  | [BTable _; BParagraph _; BTable t] =>
      match t_rows t with
      | [_; fila] =>
          match nth_error fila i with
          | Some c => match paragraphs c with [p] => Some p | _ => None end
          | None => None
          end
      | _ => None
      end
  | _ => None
  end.

(** A concrete runtime for the examples: no case table beyond Latin-1, no
    extended date forms, strings quoted as they are. *)
Definition runtime_ascii : PyRuntime := {|
  unicode_upper := fun s => s;
  fromisoformat_ext := fun _ => None;
  repr_str := fun s => "'" ++ s ++ "'";
  add_run_other := fun _ => Raise TypeError
|}.

(** The keys of the two fluid balances. *)
Definition claves_balance : list string :=
  ["VO"; "VP"; "AM"; "OTROS"; "TOTAL"; "D"; "C"; "PI"].

(** The items of an optional dict: none when it is missing. *)
Definition items_de (v : option json) : list (string * json) :=
  match v with
  | Some (JObj kvs) => kvs
  | _ => []
  end.

Section LayoutDocument.
Context {RT : PyRuntime}.

Definition columna_fecha_spec (items : list (string * json)) : list run :=
  lineas_fecha (Py.lookup "fecha_hora" items)
  ++ lineas_signos (Py.lookup "signos_vitales" items).

Definition columna_ordenes_spec (items : list (string * json)) : list run :=
  lineas_ordenes (Py.lookup "ordenes_medicas" items)
  ++ lineas_balance (items_de (Py.lookup "ingresos" items))
                    (items_de (Py.lookup "egresos" items)).

(** The texts of the data row of table 1, in the order paternal surname,
    maternal surname, given names, clinical record number, bed number. *)
Definition datos_paciente_spec (items : list (string * json)) : list string :=
  let paciente := Py.lookup "paciente" items in
  map (fun k => texto_de (campo_de k paciente))
      ["apellido_paterno"; "apellido_materno"; "nombres"; "n_historia"; "n_cama"].

(** Table 1: the header row and one data row. *)
Definition tabla_paciente_spec (items : list (string * json)) : table :=
  mktable "Table Grid" false anchos_paciente
    [map celda_encabezado encabezado_paciente;
     map celda_dato (datos_paciente_spec items)].

(** The whole page: table 1, one empty paragraph, table 2 with its header
    row and the three content cells. *)
Definition documento_spec (items : list (string * json)) : document :=
  mkdocument (39, 39, 39, 39)
    [BTable (tabla_paciente_spec items);
     BParagraph new_paragraph;
     BTable (mktable "Table Grid" false anchos_principal
               [map celda_encabezado encabezados;
                [mkcell [mkparagraph None (columna_fecha_spec items)];
                 mkcell [mkparagraph None (columna_notas_spec items)];
                 mkcell [mkparagraph None (columna_ordenes_spec items)]]])].

(** Every text the page of the report shows is XML compatible: the data of
    the patient and the runs of the three columns. *)
Definition textos_compatibles (items : list (string * json)) : bool :=
  forallb xml_compatible (datos_paciente_spec items)
  && compatibles (columna_fecha_spec items)
  && compatibles (columna_notas_spec items)
  && compatibles (columna_ordenes_spec items).

End LayoutDocument.

(** The tables and the paragraphs of the body of a document. *)
Definition tablas (doc : document) : list table :=
  flat_map (fun b => match b with BTable t => [t] | BParagraph _ => [] end) (body doc).

Definition parrafos (doc : document) : list paragraph :=
  flat_map (fun b => match b with BParagraph p => [p] | BTable _ => [] end) (body doc).

(** The example report of the specification, completed to a valid one. *)
Definition informe_ejemplo : list (string * json) :=
  [("tipo_informe", JStr "EVOLUCION_GERIATRICA");
   ("paciente",
    JObj [("apellido_paterno", JStr "Quispe"); ("apellido_materno", JStr "Mamani");
          ("nombres", JStr "Juana"); ("edad", JInt 81); ("sexo", JStr "femenino");
          ("n_cama", JInt 12); ("n_historia", JInt 40213)]);
   ("fecha_hora", JStr "2024-03-11T14:30:00");
   ("signos_vitales",
    JObj [("PA", JStr "120/80"); ("FC", JInt 80); ("FR", JInt 18); ("O2", JInt 98)]);
   ("diagnosticos", JList [JStr "neumonia"]);
   ("evolucion",
    JObj [("estado_general", JStr "estable"); ("EFG", JStr "hidratada");
          ("EFR", JStr ""); ("cuello", JStr "movil"); ("torax_anterior", JStr "");
          ("torax_posterior", JStr "crepitos basales"); ("abdomen", JStr "blando");
          ("genitourinario", JStr ""); ("extremidades", JStr "sin edema");
          ("neurologico",
           JObj [("estado", JStr "alerta"); ("glasgow", JStr "15/15");
                 ("foco_motor", JStr "")])]);
   ("ingresos",
    JObj [("VO", JInt 0); ("VP", JInt 0); ("AM", JInt 0); ("OTROS", JInt 0);
          ("TOTAL", JInt 0)]);
   ("egresos",
    JObj [("D", JInt 800); ("C", JInt 1); ("PI", JInt 400); ("OTROS", JInt 50);
          ("TOTAL", JInt 1251)]);
   ("ordenes_medicas", JList [JStr "reposo"; JStr "dieta blanda"]);
   ("BH", JStr "leucocitos 12000");
   ("RD", JStr "");
   ("descripcion_paciente",
    JStr "Paciente de sexo femenino de 81 años de edad en su 3 día de internación con los diagnósticos de:")].

(** The same report with a timestamp that is not a date. *)
Definition informe_fecha_invalida : list (string * json) :=
  dict_set "fecha_hora" (JStr "ayer por la tarde") informe_ejemplo.

(** Collaborators for the examples: the transcription succeeds and the
    structuring service answers with the empty JSON object. *)
Definition colaboradores_ejemplo : Colaboradores := {|
  secure_filename := fun s => s;
  transcribe := fun _ => Ok "paciente estable";
  generate_content := fun _ _ => Ok "{}";
  json_loads := fun s => if String.eqb s "{}" then Ok (JObj [])
                         else Raise (ExternalError "JSONDecodeError");
  docx_base64 := fun _ => "UEsDBBQ=";
  str_exn := exn_name;
  io_falla := fun _ => None;
  io_trunca := fun _ => false
|}.

Definition mundo_inicial : world := mkworld ∅ [].

Definition peticion_ejemplo : request :=
  mkrequest (Some (mkupload "nota.wav" "RIFF")) (Some "EVOLUCION_GERIATRICA").

Definition peticion_tipo_desconocido : request :=
  mkrequest (Some (mkupload "nota.wav" "RIFF")) (Some "EPICRISIS").

(** The runs of a cell and of a row of a table. *)
Definition runs_de_celda (c : cell) : list run := flat_map p_runs (paragraphs c).

Definition runs_de_fila (fila : list cell) : list run := flat_map runs_de_celda fila.

(** A run in Arial at [tam] points. *)
Definition arial (tam : Z) (r : run) : Prop :=
  run_font r = "Arial" /\ run_size r = tam.

(** Every paragraph of the row is centred. *)
Definition fila_centrada (fila : list cell) : Prop :=
  Forall (fun c => Forall (fun p => p_alignment p = Some CENTER) (paragraphs c)) fila.

(** A body paragraph: no alignment set, every run in Arial at 8 points. *)
Definition cuerpo8 (p : paragraph) : Prop :=
  p_alignment p = None /\ Forall (arial 8) (p_runs p).

(** The top-level keys the renderer reads. *)
Definition claves_leidas : list string :=
  ["paciente"; "fecha_hora"; "signos_vitales"; "descripcion_paciente";
   "diagnosticos"; "evolucion"; "BH"; "RD"; "ordenes_medicas"; "ingresos";
   "egresos"].

(** A value that is not a JSON object. *)
Definition no_dict (v : json) : Prop := forall kvs, v <> JObj kvs.

(** Collaborators whose transcription fails. *)
Definition colaboradores_sin_voz : Colaboradores := {|
  secure_filename := fun s => s;
  transcribe := fun _ => Raise (ExternalError "RuntimeError");
  generate_content := fun _ _ => Ok "{}";
  json_loads := fun s => if String.eqb s "{}" then Ok (JObj [])
                         else Raise (ExternalError "JSONDecodeError");
  docx_base64 := fun _ => "UEsDBBQ=";
  str_exn := exn_name;
  io_falla := fun _ => None;
  io_trunca := fun _ => false
|}.

(** Collaborators whose structuring service answers with a JSON list. *)
Definition colaboradores_lista : Colaboradores := {|
  secure_filename := fun s => s;
  transcribe := fun _ => Ok "paciente estable";
  generate_content := fun _ _ => Ok "[]";
  json_loads := fun s => if String.eqb s "[]" then Ok (JList [])
                         else Raise (ExternalError "JSONDecodeError");
  docx_base64 := fun _ => "UEsDBBQ=";
  str_exn := exn_name;
  io_falla := fun _ => None;
  io_trunca := fun _ => false
|}.
(* ------------------------------------------------------------------ *)
(** * The validation operation of the schema classes                    *)
(* ------------------------------------------------------------------ *)

(** The classes of lines 29-90 inherit their validation from pydantic's
    [BaseModel]; the repository holds no code of it.  The definitions of
    this part model it from the specification. *)

(** Modelled from the spec: a step of a field path, the field of a model or
    the index of a list item. *)
Inductive paso : Type :=
| Campo (nombre : string)
| Indice (i : nat).

(** Modelled from the spec: the three kinds of violation, "missing required
    field, wrong primitive type, invalid enum value". *)
Inductive problema : Type :=
| FieldMissing
| WrongType
| InvalidEnum.

(** Modelled from the spec: a [SchemaViolation] identifies the offending
    field path and the expected versus the actual shape. *)
Record SchemaViolation : Type := mkviolation {
  ruta : list paso;
  esperado : tipo;
  encontrado : option json;    (* none: the field is missing *)
  problema_de : problema
}.

(** Modelled from the spec: the values of another type that the validation
    reads as an [int] or as a [str] (pydantic's lax mode, in which the
    string ["81"] is an [int]); the strict validation reads none. *)
Class Coercion : Type := {
  lax_int : json -> option Z;
  lax_str : json -> option string
}.

(** The value the path leads to. *)
Fixpoint navegar (r : list paso) (v : json) : option json :=
  match r with
  | [] => Some v
  | Campo n :: r' =>
      match v with
      | JObj kvs => match Py.lookup n kvs with
                    | Some x => navegar r' x
                    | None => None
                    end
      | _ => None
      end
  | Indice i :: r' =>
      match v with
      | JList l => match nth_error l i with
                   | Some x => navegar r' x
                   | None => None
                   end
      | _ => None
      end
  end.

Section Validation.
Context {LX : Coercion}.

(** Modelled from the spec: a value declared [str] ([esperado] is the
    annotation, [str] or [Optional[str]]). *)
Definition validar_str (path : list paso) (esperado : tipo) (v : json)
  : SchemaViolation + json :=
  match v with
  | JStr s => inr (JStr s)
  | _ => match lax_str v with
         | Some s => inr (JStr s)
         | None => inl (mkviolation path esperado (Some v) WrongType)
         end
  end.

(** Modelled from the spec: the items of a [List[str]], from index [i]. *)
Fixpoint validar_lista (path : list paso) (i : nat) (l : list json)
  : SchemaViolation + list json :=
  match l with
  | [] => inr []
  | x :: l' =>
      match validar_str (path ++ [Indice i]) TStr x with
      | inl e => inl e
      | inr r => match validar_lista path (S i) l' with
                 | inl e => inl e
                 | inr rs => inr (r :: rs)
                 end
      end
  end.

(** Modelled from the spec: the validation of a value against an
    annotation, at the field path [path]: the typed value, or the first
    violation.  Keys that the model does not declare are ignored, a missing
    field with a default takes it. *)
Fixpoint validar_tipo (t : tipo) (path : list paso) (v : json) {struct t}
  : SchemaViolation + json :=
  match t with
  | TStr => validar_str path TStr v
  | TInt =>
      match v with
      | JInt n => inr (JInt n)
      | _ => match lax_int v with
             | Some n => inr (JInt n)
             | None => inl (mkviolation path TInt (Some v) WrongType)
             end
      end
  | TOptStr =>
      match v with
      | JNull => inr JNull
      | _ => validar_str path TOptStr v
      end
  | TListStr =>
      match v with
      | JList l => match validar_lista path 0 l with
                   | inl e => inl e
                   | inr rs => inr (JList rs)
                   end
      | _ => inl (mkviolation path TListStr (Some v) WrongType)
      end
  | TEnum valores =>
      match v with
      | JStr s => if existsb (String.eqb s) valores then inr (JStr s)
                  else inl (mkviolation path t (Some v) InvalidEnum)
      | _ => inl (mkviolation path t (Some v) InvalidEnum)
      end
  | TModel campos =>
      match v with
      | JObj kvs =>
          match (fix each (cs : list campo) : SchemaViolation + list (string * json) :=
                   match cs with
                   | [] => inr []
                   | (nombre, t', def) :: cs' =>
                       match match Py.lookup nombre kvs with
                             | Some v' => validar_tipo t' (path ++ [Campo nombre]) v'
                             | None =>
                                 match def with
                                 | Some d => inr d
                                 | None => inl (mkviolation (path ++ [Campo nombre]) t'
                                                            None FieldMissing)
                                 end
                             end with
                       | inl e => inl e
                       | inr r => match each cs' with
                                  | inl e => inl e
                                  | inr rs => inr ((nombre, r) :: rs)
                                  end
                       end
                   end) campos with
          | inl e => inl e
          | inr rs => inr (JObj rs)
          end
      | _ => inl (mkviolation path t (Some v) WrongType)
      end
  end.

(** Modelled from the spec: the validation/parsing operation, "given an
    arbitrary JSON-like payload, either produce a fully-typed Report value or
    fail with a SchemaViolation error". *)
Definition validar (payload : json) : SchemaViolation + json :=
  validar_tipo InformeGeriatrico [] payload.

End Validation.

(** The names of the fields of a model are distinct and every default has
    the shape of its field, in the model and in the models it nests. *)
Fixpoint bien_formado (t : tipo) : bool :=
  match t with
  | TModel campos =>
      (fix each (cs : list campo) : bool :=
         match cs with
         | [] => true
         | (nombre, t', def) :: cs' =>
             negb (existsb (fun c => String.eqb nombre (fst (fst c))) cs')
             && bien_formado t'
             && match def with
                | Some d => has_shape true t' d
                | None => true
                end
             && each cs'
         end) campos
  | _ => true
  end.

(** What a violation found below the value [v] says about [v], [sub] being
    the part of its path below [v]: the path leads to the object that lacks
    the field, or to the value that has not the expected shape. *)
Definition senala_en (sub : list paso) (viol : SchemaViolation) (v : json) : Prop :=
  match problema_de viol with
  | FieldMissing =>
      exists padre nombre kvs,
        sub = (padre ++ [Campo nombre])%list
        /\ navegar padre v = Some (JObj kvs)
        /\ Py.lookup nombre kvs = None
        /\ encontrado viol = None
  | WrongType | InvalidEnum =>
      exists x,
        navegar sub v = Some x
        /\ encontrado viol = Some x
        /\ has_shape true (esperado viol) x = false
  end.

Definition senala (viol : SchemaViolation) (payload : json) : Prop :=
  senala_en (ruta viol) viol payload.

(** The strict validation, and one that reads a decimal string as an
    [int]. *)
Definition coercion_estricta : Coercion := {|
  lax_int := fun _ => None;
  lax_str := fun _ => None
|}.

Definition coercion_laxa : Coercion := {|
  lax_int := fun v => match v with
                      | JStr "81" => Some 81
                      | JBool true => Some 1
                      | JBool false => Some 0
                      | _ => None
                      end;
  lax_str := fun _ => None
|}.

(** The form feed, a control character. *)
Definition FF : string := String "012"%char "".

(** The example report with a form feed in the lab results: a valid Report
    that python-docx refuses. *)
Definition informe_control : list (string * json) :=
  dict_set "BH" (JStr ("leucocitos" ++ FF ++ "12000")) informe_ejemplo.

(** The same, with a timestamp that is not a date. *)
Definition informe_fecha_invalida_control : list (string * json) :=
  dict_set "fecha_hora" (JStr "ayer por la tarde") informe_control.

(** The example report with accents in the diagnoses. *)
Definition informe_tildes : list (string * json) :=
  dict_set "diagnosticos" (JList [JStr "neumonía"; JStr "diabetes mellitus"])
           informe_ejemplo.

(** Collaborators with a standard output that cannot encode the line the
    renderer prints. *)
Definition colaboradores_sin_consola : Colaboradores := {|
  secure_filename := fun s => s;
  transcribe := fun _ => Ok "paciente estable";
  generate_content := fun _ _ => Ok "{}";
  json_loads := fun s => if String.eqb s "{}" then Ok (JObj [])
                         else Raise (ExternalError "JSONDecodeError");
  docx_base64 := fun _ => "UEsDBBQ=";
  str_exn := exn_name;
  io_falla := fun op => match op with
                        | OpImprimir _ => Some (ExternalError "UnicodeEncodeError")
                        | _ => None
                        end;
  io_trunca := fun _ => false
|}.

(** Collaborators whose [secure_filename] leaves nothing of the name (as
    werkzeug does for a name made of dots and slashes). *)
Definition colaboradores_nombre_vacio : Colaboradores := {|
  secure_filename := fun _ => "";
  transcribe := fun _ => Ok "paciente estable";
  generate_content := fun _ _ => Ok "{}";
  json_loads := fun s => if String.eqb s "{}" then Ok (JObj [])
                         else Raise (ExternalError "JSONDecodeError");
  docx_base64 := fun _ => "UEsDBBQ=";
  str_exn := exn_name;
  io_falla := fun _ => None;
  io_trunca := fun _ => false
|}.

(** Collaborators on a full disk: [doc.save] opens its file and fails while
    writing. *)
Definition colaboradores_disco_lleno : Colaboradores := {|
  secure_filename := fun s => s;
  transcribe := fun _ => Ok "paciente estable";
  generate_content := fun _ _ => Ok "{}";
  json_loads := fun s => if String.eqb s "{}" then Ok (JObj [])
                         else Raise (ExternalError "JSONDecodeError");
  docx_base64 := fun _ => "UEsDBBQ=";
  str_exn := exn_name;
  io_falla := fun op => match op with
                        | OpGuardarDocx _ => Some (ExternalError "OSError")
                        | _ => None
                        end;
  io_trunca := fun op => match op with
                         | OpGuardarDocx _ => true
                         | _ => false
                         end
|}.

(** A world in which an earlier request has left its document. *)
Definition mundo_con_informe : world :=
  mkworld (<["informe.docx" := FDocx (mkdocument (39, 39, 39, 39) [])]> ∅) [].

(* ================================================================== *)
(** * Properties                                                        *)
(* ================================================================== *)

(* ------------------------------------------------------------------ *)
(** ** The model on concrete values                                     *)
(* ------------------------------------------------------------------ *)

Example weekday_of_the_example :
  DateTime.strftime_A (mkdatetime 2024 3 11 14 30 0) = "Monday".
Proof. reflexivity. Qed.

Example weekday_epoch :
  DateTime.strftime_A (mkdatetime 1970 1 1 0 0 0) = "Thursday".
Proof. reflexivity. Qed.

Example weekday_leap_day :
  DateTime.strftime_A (mkdatetime 2000 2 29 0 0 0) = "Tuesday".
Proof. reflexivity. Qed.

Example parse_basic_example :
  DateTime.parse_basic "2024-03-11T14:30:00" = Some (mkdatetime 2024 3 11 14 30 0).
Proof. reflexivity. Qed.

Example parse_basic_rejects_february_29 :
  DateTime.parse_basic "2023-02-29T10:00:00" = None.
Proof. reflexivity. Qed.

Example parse_basic_rejects_hour_24 :
  DateTime.parse_basic "2024-03-11T24:00:00" = None.
Proof. reflexivity. Qed.

Example strftime_pads :
  DateTime.strftime_dmy (mkdatetime 2005 7 4 9 5 0) = "04/07/05"
  /\ DateTime.strftime_HM (mkdatetime 2005 7 4 9 5 0) = "09:05".
Proof. split; reflexivity. Qed.

Example traducir_dia_table :
  map traducir_dia
      ["Monday"; "Tuesday"; "Wednesday"; "Thursday"; "Friday"; "Saturday"; "Sunday"]
  = ["Lunes"; "Martes"; "Miércoles"; "Jueves"; "Viernes"; "Sábado"; "Domingo"].
Proof. reflexivity. Qed.

Example traducir_dia_default : traducir_dia "Lundi" = "Lundi".
Proof. reflexivity. Qed.

Example truthy_values :
  map Py.truthy [JNull; JInt 0; JInt 7; JStr ""; JStr "0"; JList []; JObj [];
                 JBool false; JFloat false "0.0"]
  = [false; false; true; false; true; false; false; false; false].
Proof. reflexivity. Qed.

Example upper_ascii (RT : PyRuntime) : Py.str_upper "neumonia adquirida" = "NEUMONIA ADQUIRIDA".
Proof. reflexivity. Qed.

Example upper_latin1_letters (RT : PyRuntime) :
  map Py.str_upper ["neumonía"; "año ñandú"; "Tórax"; "100 ÷ 2"]
  = ["NEUMONÍA"; "AÑO ÑANDÚ"; "TÓRAX"; "100 ÷ 2"].
Proof. reflexivity. Qed.

Example chars_of_a_string : Py.chars "año 1" = ["a"; "ñ"; "o"; " "; "1"].
Proof. reflexivity. Qed.

Example str_of_values (RT : PyRuntime) :
  map Py.str [JInt 80; JInt (-3); JStr "120/80"; JBool true; JNull]
  = ["80"; "-3"; "120/80"; "True"; "None"].
Proof. reflexivity. Qed.

(** Tab, line feed and carriage return are accepted, the other control
    characters and NUL are not; text beyond ASCII is accepted. *)
Example xml_compatible_values :
  map xml_compatible
      ["leucocitos 12000"; "DIAGNÓSTICOS:" ++ LF; String "009"%char "x";
       String "013"%char "x"; "leucocitos" ++ FF; String "000"%char "";
       String "027"%char "[0m"]
  = [true; true; true; true; false; false; false].
Proof. reflexivity. Qed.

(** A report that is a list, or whose patient is [null], makes the renderer
    raise: the payload is not checked before it is rendered. *)
Example construir_raises_on_null_patient (RT : PyRuntime) :
  construir_documento (JObj [("paciente", JNull)]) = Raise AttributeError
  /\ construir_documento (JList []) = Raise AttributeError.
Proof. split; reflexivity. Qed.

(** A diagnosis that is not a string has no [upper]. *)
Example construir_raises_on_numeric_diagnosis (RT : PyRuntime) :
  construir_documento (JObj [("diagnosticos", JList [JInt 3])])
  = Raise AttributeError.
Proof. reflexivity. Qed.

(** A text with a control character is refused when it is written. *)
Example construir_raises_on_control_character (RT : PyRuntime) :
  construir_documento (JObj [("BH", JStr ("leucocitos" ++ FF))]) = Raise ValueError.
Proof. reflexivity. Qed.

Lemma add_runs_nil (p : paragraph) : add_runs p [] = p.
Proof. destruct p; unfold add_runs; simpl. now rewrite app_nil_r. Qed.

Lemma add_runs_app (p : paragraph) (a b : list run) :
  add_runs (add_runs p a) b = add_runs p (a ++ b).
Proof. unfold add_runs; simpl. now rewrite app_assoc. Qed.

Lemma compatibles_app (a b : list run) :
  compatibles (a ++ b) = compatibles a && compatibles b.
Proof. apply forallb_app. Qed.

Lemma escribir_nil (p : paragraph) : escribir p [] = Ok p.
Proof. unfold escribir. simpl. now rewrite add_runs_nil. Qed.

Lemma escribir_ok (p : paragraph) (rs : list run) :
  compatibles rs = true -> escribir p rs = Ok (add_runs p rs).
Proof. unfold escribir. now intros ->. Qed.

Lemma escribir_raise (p : paragraph) (rs : list run) :
  compatibles rs = false -> escribir p rs = Raise ValueError.
Proof. unfold escribir. now intros ->. Qed.

Lemma agregar_texto_esc (p : paragraph) (t : string) :
  agregar_texto p t 8 = escribir p [texto8 t].
Proof.
  unfold agregar_texto, add_run, escribir, compatibles. simpl.
  destruct (xml_compatible t); reflexivity.
Qed.

Lemma agregar_negrita_esc (p : paragraph) (t : string) :
  agregar_texto_negrita p t 8 = escribir p [negrita8 t].
Proof.
  unfold agregar_texto_negrita, add_run, escribir, compatibles. simpl.
  destruct (xml_compatible t); reflexivity.
Qed.

(** Writing [a] and then, into the result, [b] is writing [a ++ b]. *)
Lemma seq_escribir (m : res paragraph) (k : paragraph -> res paragraph)
    (p : paragraph) (a b : list run) :
  m = escribir p a -> (forall q, k q = escribir q b) ->
  bind m k = escribir p (a ++ b).
Proof.
  intros -> Hk. unfold escribir. rewrite compatibles_app.
  destruct (compatibles a); simpl; [|reflexivity].
  rewrite Hk. unfold escribir.
  destruct (compatibles b); [now rewrite add_runs_app|reflexivity].
Qed.

Lemma seq_escribir_cons (m : res paragraph) (k : paragraph -> res paragraph)
    (p : paragraph) (r : run) (b : list run) :
  m = escribir p [r] -> (forall q, k q = escribir q b) ->
  bind m k = escribir p (r :: b).
Proof. intros Hm Hk. exact (seq_escribir m k p [r] b Hm Hk). Qed.

Lemma bind_ret {A : Type} (m : res A) : bind m (fun x => Ok x) = m.
Proof. now destruct m. Qed.

(** A loop whose body only writes runs that depend on the item writes the
    concatenation of those runs. *)
Lemma for_each_escribir {A : Type} (f : A -> list run)
    (body : A -> paragraph -> res paragraph) (l : list A) (p : paragraph) :
  (forall x q, In x l -> body x q = escribir q (f x)) ->
  for_each l body p = escribir p (flat_map f l).
Proof.
  revert p. induction l as [|x l IH]; intros p Hbody; simpl.
  - now rewrite escribir_nil.
  - apply seq_escribir; [apply Hbody; now left|].
    intros q. apply IH. intros; apply Hbody; now right.
Qed.

(** Solves [m = escribir p rs] for a sequence [m] of calls to
    [agregar_texto] and [agregar_texto_negrita]. *)
Ltac esc :=
  first
    [ apply agregar_texto_esc
    | apply agregar_negrita_esc
    | (symmetry; apply escribir_nil)
    | (apply seq_escribir_cons; [esc | intros ?; esc])
    | (apply seq_escribir; [esc | intros ?; esc]) ].

Lemma lookup_dict_del_eq (k : string) (kvs : list (string * json)) :
  Py.lookup k (dict_del k kvs) = None.
Proof.
  induction kvs as [|[k' v] rest IH]; simpl; auto.
  destruct (String.eqb k k') eqn:E; simpl; auto. now rewrite E.
Qed.

Lemma lookup_dict_del_ne (k k' : string) (kvs : list (string * json)) :
  k <> k' -> Py.lookup k' (dict_del k kvs) = Py.lookup k' kvs.
Proof.
  intros Hne. induction kvs as [|[k0 v] rest IH]; simpl; auto.
  destruct (String.eqb k k0) eqn:E.
  - apply String.eqb_eq in E. subst k0.
    destruct (String.eqb k' k) eqn:E'; auto.
    apply String.eqb_eq in E'. congruence.
  - simpl. now rewrite IH.
Qed.

Lemma lookup_dict_set_eq (k : string) (v : json) (kvs : list (string * json)) :
  Py.lookup k (dict_set k v kvs) = Some v.
Proof.
  induction kvs as [|[k' v'] rest IH]; simpl.
  - now rewrite String.eqb_refl.
  - destruct (String.eqb k k') eqn:E; simpl.
    + now rewrite String.eqb_refl.
    + now rewrite E.
Qed.

Lemma lookup_dict_set_ne (k k' : string) (v : json) (kvs : list (string * json)) :
  k <> k' -> Py.lookup k' (dict_set k v kvs) = Py.lookup k' kvs.
Proof.
  intros Hne. induction kvs as [|[k0 v0] rest IH]; simpl.
  - destruct (String.eqb k' k) eqn:E; auto.
    apply String.eqb_eq in E. congruence.
  - destruct (String.eqb k k0) eqn:E; simpl.
    + apply String.eqb_eq in E. subst k0.
      destruct (String.eqb k' k) eqn:E'; auto.
      apply String.eqb_eq in E'. congruence.
    + now rewrite IH.
Qed.


Lemma nonempty_append_r (a b : string) : nonempty b = true -> nonempty (a ++ b) = true.
Proof. destruct a; simpl; intros H; [exact H | reflexivity]. Qed.

Lemma strftime_A_cases (dt : datetime) :
  In (DateTime.strftime_A dt)
     ["Monday"; "Tuesday"; "Wednesday"; "Thursday"; "Friday"; "Saturday"; "Sunday"].
Proof.
  unfold DateTime.strftime_A, DateTime.weekday.
  pose proof (Z.mod_pos_bound (DateTime.toordinal dt + 6) 7 ltac:(lia)) as Hb.
  set (w := (DateTime.toordinal dt + 6) mod 7) in *.
  assert (Hw : w = 0 \/ w = 1 \/ w = 2 \/ w = 3 \/ w = 4 \/ w = 5 \/ w = 6) by lia.
  destruct Hw as [->|[->|[->|[->|[->|[->| ->]]]]]]; simpl; tauto.
Qed.

Lemma traducir_dia_nonempty (dt : datetime) :
  nonempty (traducir_dia (DateTime.strftime_A dt)) = true.
Proof.
  pose proof (strftime_A_cases dt) as H. simpl in H.
  destruct H as [<-|[<-|[<-|[<-|[<-|[<-|[<-|[]]]]]]]]; reflexivity.
Qed.

Lemma strftime_dmy_nonempty (dt : datetime) :
  nonempty (DateTime.strftime_dmy dt) = true.
Proof.
  unfold DateTime.strftime_dmy. apply nonempty_append_r. reflexivity.
Qed.

Lemma strftime_HM_nonempty (dt : datetime) :
  nonempty (DateTime.strftime_HM dt) = true.
Proof.
  unfold DateTime.strftime_HM. apply nonempty_append_r. reflexivity.
Qed.

(* ------------------------------------------------------------------ *)
(** ** Texts that are always XML compatible                             *)
(* ------------------------------------------------------------------ *)

Lemma ascii_text_app (a b : string) :
  ascii_text (a ++ b) = ascii_text a && ascii_text b.
Proof.
  unfold ascii_text. induction a as [|c a IH]; simpl; [reflexivity|].
  now rewrite IH, andb_assoc.
Qed.

(** An ASCII text in front of a text does not change whether the whole is
    XML compatible. *)
Lemma xml_compatible_ascii_app (a b : string) :
  ascii_text a = true -> xml_compatible (a ++ b) = xml_compatible b.
Proof.
  unfold ascii_text. induction a as [|c a IH]; simpl; [reflexivity|].
  intros H. apply andb_prop in H as [Hc Ha]. apply andb_prop in Hc as [H1 H2].
  now rewrite H1, H2, IH.
Qed.

Lemma xml_compatible_ascii (a : string) :
  ascii_text a = true -> xml_compatible a = true.
Proof.
  intros H. pose proof (xml_compatible_ascii_app a "" H) as X.
  assert (E : a ++ "" = a).
  { clear. induction a as [|c a IH]; [reflexivity|].
    change (String c a ++ "") with (String c (a ++ "")). now rewrite IH. }
  rewrite E in X. exact X.
Qed.

Lemma ascii_text_uint (d : Decimal.uint) :
  ascii_text (DecimalString.NilEmpty.string_of_uint d) = true.
Proof. induction d; simpl; auto. Qed.

Lemma ascii_text_str_of_Z (n : Z) : ascii_text (Py.str_of_Z n) = true.
Proof.
  unfold Py.str_of_Z, NilZero.string_of_int, NilZero.string_of_uint.
  destruct (Z.to_int n) as [d|d]; destruct d; try reflexivity;
    try (change (ascii_text (String "-" ?s)) with (ascii_text s));
    try apply (ascii_text_uint (Decimal.D0 _));
    try apply (ascii_text_uint (Decimal.D1 _));
    try apply (ascii_text_uint (Decimal.D2 _));
    try apply (ascii_text_uint (Decimal.D3 _));
    try apply (ascii_text_uint (Decimal.D4 _));
    try apply (ascii_text_uint (Decimal.D5 _));
    try apply (ascii_text_uint (Decimal.D6 _));
    try apply (ascii_text_uint (Decimal.D7 _));
    try apply (ascii_text_uint (Decimal.D8 _));
    try apply (ascii_text_uint (Decimal.D9 _)).
Qed.

Lemma ascii_text_pad2 (n : Z) : ascii_text (DateTime.pad2 n) = true.
Proof.
  unfold DateTime.pad2. destruct (n <? 10).
  - rewrite ascii_text_app. apply (ascii_text_str_of_Z n).
  - apply (ascii_text_str_of_Z n).
Qed.

Lemma ascii_text_dmy (dt : datetime) : ascii_text (DateTime.strftime_dmy dt) = true.
Proof.
  unfold DateTime.strftime_dmy.
  now rewrite !ascii_text_app, !ascii_text_pad2.
Qed.

Lemma ascii_text_HM (dt : datetime) : ascii_text (DateTime.strftime_HM dt) = true.
Proof.
  unfold DateTime.strftime_HM.
  now rewrite !ascii_text_app, !ascii_text_pad2.
Qed.

Lemma xml_compatible_dia (dt : datetime) :
  xml_compatible (traducir_dia (DateTime.strftime_A dt) ++ LF) = true.
Proof.
  pose proof (strftime_A_cases dt) as H. simpl in H.
  destruct H as [<-|[<-|[<-|[<-|[<-|[<-|[<-|[]]]]]]]]; reflexivity.
Qed.

Section VitalSigns.
Context {RT : PyRuntime}.

(** The loop over the four keys writes, for each key, its labelled line
    when the value under the key is truthy and nothing otherwise. *)
Lemma bloque_signos_runs (sv : list (string * json)) (p : paragraph) :
  bloque_signos (JObj sv) p = escribir p (lineas_signos (Some (JObj sv))).
Proof.
  unfold bloque_signos, lineas_signos.
  apply for_each_escribir. intros key q _. cbn [Py.get bind campo_de].
  unfold linea_rotulada, presente, texto_de.
  destruct (Py.lookup key sv) as [v|]; cbn [Py.truthy].
  - destruct (Py.truthy v); esc.
  - esc.
Qed.

(** The date lines are always accepted: a weekday name, digits and
    separators. *)
Lemma lineas_fecha_compatibles (v : option json) :
  compatibles (lineas_fecha v) = true.
Proof.
  unfold lineas_fecha. destruct v as [v|]; [|reflexivity].
  destruct (Py.fromisoformat v) as [dt|]; [|reflexivity].
  unfold compatibles. cbn [forallb run_text negrita8 texto8].
  rewrite xml_compatible_dia.
  rewrite (xml_compatible_ascii_app _ _ (ascii_text_dmy dt)).
  rewrite (xml_compatible_ascii_app _ _ (ascii_text_HM dt)).
  reflexivity.
Qed.

(** Column 1 when [signos_vitales] is a dict or is missing: the date lines,
    if the date parses, then the vital signs. *)
Lemma columna_fecha_runs (items : list (string * json)) (p : paragraph) :
  (forall v, Py.lookup "signos_vitales" items = Some v -> exists sv, v = JObj sv) ->
  columna_fecha (JObj items) p
  = escribir p (lineas_fecha (Py.lookup "fecha_hora" items)
                ++ lineas_signos (Py.lookup "signos_vitales" items)).
Proof.
  intros Hsv.
  assert (Hs : forall q,
             bloque_signos
               (match Py.lookup "signos_vitales" items with
                | Some v => v | None => JObj [] end) q
             = escribir q (lineas_signos (Py.lookup "signos_vitales" items))).
  { intros q. destruct (Py.lookup "signos_vitales" items) as [v|] eqn:E.
    - destruct (Hsv v eq_refl) as [sv ->]. apply bloque_signos_runs.
    - rewrite bloque_signos_runs. reflexivity. }
  unfold columna_fecha, Py.get, lineas_fecha. cbn [bind].
  destruct (Py.lookup "fecha_hora" items) as [v|].
  - destruct (Py.fromisoformat v) as [dt|].
    + rewrite traducir_dia_nonempty, strftime_dmy_nonempty, strftime_HM_nonempty.
      cbn [app].
      apply seq_escribir_cons; [esc|intros q1].
      apply seq_escribir_cons; [esc|intros q2].
      apply seq_escribir_cons; [esc|intros q3].
      apply Hs.
    + cbn [nonempty String.eqb negb bind app]. apply Hs.
  - cbn [Py.fromisoformat DateTime.parse_basic list_ascii_of_string String.eqb
         nonempty negb bind app]. apply Hs.
Qed.

Lemma linea_rotulada_falsy (rotulo fin : string) (v : json) :
  Py.truthy v = false ->
  linea_rotulada rotulo (Some v) fin = linea_rotulada rotulo None fin.
Proof. unfold linea_rotulada; simpl. now intros ->. Qed.

Lemma lineas_signos_del (k : string) (v : json) (sv : list (string * json)) :
  Py.lookup k sv = Some v -> Py.truthy v = false ->
  lineas_signos (Some (JObj (dict_del k sv))) = lineas_signos (Some (JObj sv)).
Proof.
  intros Hk Hv. unfold lineas_signos.
  apply flat_map_ext. intros key. simpl.
  destruct (String.eqb k key) eqn:E.
  - apply String.eqb_eq in E. subst key.
    rewrite lookup_dict_del_eq, Hk. symmetry. now apply linea_rotulada_falsy.
  - apply String.eqb_neq in E. now rewrite lookup_dict_del_ne.
Qed.

End VitalSigns.

(* ------------------------------------------------------------------ *)
(** ** Shapes                                                           *)
(* ------------------------------------------------------------------ *)

Lemma nodup_keys_lookup (kvs : list (string * json)) (k : string) (v : json) :
  nodup_keys kvs = true -> In (k, v) kvs -> Py.lookup k kvs = Some v.
Proof.
  induction kvs as [|[k0 v0] rest IH]; simpl; [tauto|].
  intros Hnd [Heq|Hin].
  - injection Heq as -> ->. now rewrite String.eqb_refl.
  - apply andb_prop in Hnd as [Hfresh Hnd].
    destruct (String.eqb k k0) eqn:E; [|now apply IH].
    apply String.eqb_eq in E. subst k0.
    apply negb_true_iff in Hfresh.
    assert (existsb (fun kv => String.eqb k (fst kv)) rest = true) as Hex.
    { apply existsb_exists. exists (k, v). split; [exact Hin|]. apply String.eqb_refl. }
    congruence.
Qed.

Lemma lookup_In (kvs : list (string * json)) (k : string) (v : json) :
  Py.lookup k kvs = Some v -> In (k, v) kvs.
Proof.
  induction kvs as [|[k0 v0] rest IH]; simpl; [discriminate|].
  destruct (String.eqb k k0) eqn:E.
  - apply String.eqb_eq in E. subst k0. intros [= ->]. now left.
  - intros H. right. now apply IH.
Qed.

(** What the shape of a model says about a dict: its keys are distinct and
    declared, and every declared field that is present has its shape. *)
Lemma has_shape_model_inv (c : bool) (cs : list campo) (kvs : list (string * json)) :
  has_shape c (TModel cs) (JObj kvs) = true ->
  nodup_keys kvs = true
  /\ (forall k v, In (k, v) kvs -> declared cs k = true)
  /\ (forall n t d v, In (n, t, d) cs -> Py.lookup n kvs = Some v ->
                      has_shape c t v = true)
  /\ (forall n t, In (n, t, None) cs -> c = true -> Py.lookup n kvs <> None).
Proof.
  simpl. intros H.
  apply andb_prop in H as [H Heach]. apply andb_prop in H as [Hnd Hdecl].
  split; [exact Hnd|]. split.
  - intros k v Hin. rewrite forallb_forall in Hdecl. exact (Hdecl (k, v) Hin).
  - clear Hdecl. revert Heach.
    induction cs as [|[[n0 t0] d0] cs0 IH]; intros Heach.
    + split; intros; contradiction.
    + apply andb_prop in Heach as [H0 Heach]. destruct (IH Heach) as [IH1 IH2].
      split.
      * intros n t d v [Heq|Hin] Hl; [|eauto].
        injection Heq as -> -> ->. now rewrite Hl in H0.
      * intros n t [Heq|Hin] Hc; [|eauto].
        injection Heq as -> -> ->. subst c.
        destruct (Py.lookup n kvs); [discriminate|discriminate].
Qed.

Lemma has_shape_model_obj (c : bool) (cs : list campo) (v : json) :
  has_shape c (TModel cs) v = true -> exists kvs, v = JObj kvs.
Proof. destruct v; simpl; try discriminate. eauto. Qed.

Lemma has_shape_str (c : bool) (v : json) :
  has_shape c TStr v = true -> exists s, v = JStr s.
Proof. destruct v; simpl; try discriminate. eauto. Qed.

Lemma has_shape_int (c : bool) (v : json) :
  has_shape c TInt v = true -> exists n, v = JInt n.
Proof. destruct v; simpl; try discriminate. eauto. Qed.

Lemma has_shape_list_str (c : bool) (v : json) :
  has_shape c TListStr v = true -> exists l, v = JList l /\ forallb is_str l = true.
Proof. destruct v; simpl; try discriminate. eauto. Qed.

(** Every entry of a dict of the shape of a model is a declared field holding
    a value of its shape. *)
Lemma has_shape_entry (c : bool) (cs : list campo) (kvs : list (string * json))
    (k : string) (v : json) :
  has_shape c (TModel cs) (JObj kvs) = true -> In (k, v) kvs ->
  exists t d, In (k, t, d) cs /\ has_shape c t v = true.
Proof.
  intros H Hin. apply has_shape_model_inv in H as (Hnd & Hdecl & Hf & _).
  pose proof (Hdecl k v Hin) as Hk. unfold declared in Hk.
  apply existsb_exists in Hk as [[[n t] d] [Hc Hn]]. simpl in Hn.
  apply String.eqb_eq in Hn. subst n.
  exists t, d. split; [exact Hc|].
  eapply Hf; [exact Hc|]. now apply nodup_keys_lookup.
Qed.

(* ------------------------------------------------------------------ *)
(** ** Column 3: the fluid balance                                      *)
(* ------------------------------------------------------------------ *)

Lemma str_of_Z_zero (n : Z) : Py.str_of_Z n = "0" -> n = 0.
Proof.
  unfold Py.str_of_Z. intros H. rewrite <- (DecimalZ.of_to n).
  assert (Hd : forall d, NilZero.string_of_int d = "0" -> Z.of_int d = 0).
  { intros d Hs.
    destruct d as [u|u]; destruct u; try reflexivity;
      match goal with
      | _ : NilZero.string_of_int ?d = _ |- _ =>
          pose proof (NilZero.isi d ltac:(discriminate) ltac:(discriminate)) as Hi;
          rewrite Hs in Hi; simpl in Hi; try discriminate Hi;
          injection Hi as <-; reflexivity
      end. }
  now apply Hd.
Qed.

Lemma any_values (kvs : list (string * json)) :
  Py.any (map snd kvs) = existsb no_cero kvs.
Proof.
  unfold Py.any. induction kvs as [|kv rest IH]; simpl; [reflexivity|].
  now rewrite IH.
Qed.

Section Balance.
Context {RT : PyRuntime}.

Lemma flat_map_filter_lines (kvs : list (string * json)) :
  flat_map (fun kv => if no_cero kv then [linea_balance kv] else []) kvs
  = map linea_balance (List.filter no_cero kvs).
Proof.
  induction kvs as [|kv rest IH]; simpl; [reflexivity|].
  destruct (no_cero kv); simpl; now rewrite IH.
Qed.

Lemma seccion_balance_runs (titulo : string) (kvs : list (string * json)) (p : paragraph) :
  seccion_balance titulo (JObj kvs) p = escribir p (lineas_seccion titulo kvs).
Proof.
  unfold seccion_balance, lineas_seccion. cbn [Py.values bind].
  rewrite any_values.
  destruct (existsb no_cero kvs); [|esc].
  apply seq_escribir_cons; [esc|intros q]. cbn [Py.items bind].
  rewrite <- flat_map_filter_lines. apply for_each_escribir.
  intros [k v] q' _. unfold no_cero, linea_balance. cbn [fst snd].
  destruct (Py.truthy v); esc.
Qed.

(** The balance block of a pair of dicts is the layout [lineas_balance]. *)
Lemma bloque_balance_runs (ing egr : list (string * json)) (p : paragraph) :
  bloque_balance (JObj ing) (JObj egr) p = escribir p (lineas_balance ing egr).
Proof.
  assert (Hsi : forall t q, seccion_balance t (JObj ing) q = escribir q (lineas_seccion t ing))
    by (intros; apply seccion_balance_runs).
  assert (Hse : forall t q, seccion_balance t (JObj egr) q = escribir q (lineas_seccion t egr))
    by (intros; apply seccion_balance_runs).
  unfold bloque_balance, lineas_balance. cbn [Py.values bind].
  rewrite !any_values.
  destruct (existsb no_cero ing); cbn [bind orb].
  - apply seq_escribir_cons; [esc|intros q].
    apply seq_escribir; [apply Hsi|intros q'; apply Hse].
  - destruct (existsb no_cero egr); cbn [bind].
    + apply seq_escribir_cons; [esc|intros q].
      apply seq_escribir; [apply Hsi|intros q'; apply Hse].
    + esc.
Qed.

End Balance.

Lemma append_LF_inj (a b : string) : a ++ LF = b ++ LF -> a = b.
Proof.
  revert b. induction a as [|x a IH]; intros [|y b]; simpl; intros H.
  - reflexivity.
  - injection H as _ H. destruct b; discriminate.
  - injection H as _ H. destruct a; discriminate.
  - injection H as -> H. f_equal. now apply IH.
Qed.

(** Among the keys of the balance, the line of a key with the value [0] can
    only be the line of that same key with the text ["0"]. *)
Lemma linea_cero_eq (k k' s : string) :
  In k claves_balance -> In k' claves_balance ->
  k ++ ": 0" ++ LF = k' ++ ": " ++ s ++ LF -> s = "0".
Proof.
  unfold claves_balance. simpl. intros Hk Hk' H.
  repeat (destruct Hk as [<-|Hk]); try contradiction;
    repeat (destruct Hk' as [<-|Hk']); try contradiction;
    simpl in H; try discriminate H;
    injection H as H; symmetry; now apply append_LF_inj.
Qed.

Lemma entrada_balance (c : bool) (kvs : list (string * json)) (k : string) (v : json) :
  has_shape c Ingresos (JObj kvs) = true \/ has_shape c Egresos (JObj kvs) = true ->
  In (k, v) kvs ->
  In k claves_balance /\ exists n, v = JInt n.
Proof.
  intros [H|H] Hin;
    destruct (has_shape_entry _ _ _ _ _ H Hin) as (t & d & Hc & Ht);
    simpl in Hc;
    repeat (destruct Hc as [Hc|Hc]; [injection Hc as <- <- <-|]); try contradiction;
    (split; [unfold claves_balance; simpl; tauto | eapply has_shape_int; exact Ht]).
Qed.

Section BalanceClaims.
Context {RT : PyRuntime}.

Lemma In_lineas_seccion (titulo : string) (kvs : list (string * json)) (r : run) :
  In r (lineas_seccion titulo kvs) ->
  r = negrita8 titulo
  \/ exists k v, In (k, v) kvs /\ Py.truthy v = true /\ r = linea_balance (k, v).
Proof.
  unfold lineas_seccion. destruct (existsb no_cero kvs); [|contradiction].
  intros [<-|Hin]; [now left|right].
  apply in_map_iff in Hin as [[k v] [<- Hf]].
  apply filter_In in Hf as [Hin Hnz]. exists k, v. auto.
Qed.

Lemma lineas_seccion_In (titulo : string) (kvs : list (string * json)) (k : string) (v : json) :
  In (k, v) kvs -> Py.truthy v = true ->
  In (negrita8 titulo) (lineas_seccion titulo kvs)
  /\ In (linea_balance (k, v)) (lineas_seccion titulo kvs).
Proof.
  intros Hin Hv. unfold lineas_seccion.
  assert (Hex : existsb no_cero kvs = true).
  { apply existsb_exists. exists (k, v). auto. }
  rewrite Hex. split; [now left|right].
  apply in_map. apply filter_In. auto.
Qed.

Lemma lineas_seccion_zero (titulo : string) (kvs : list (string * json)) :
  (forall k v, In (k, v) kvs -> v = JInt 0) -> lineas_seccion titulo kvs = [].
Proof.
  intros Hz. unfold lineas_seccion.
  destruct (existsb no_cero kvs) eqn:E; [|reflexivity].
  apply existsb_exists in E as [[k v] [Hin Hnz]].
  rewrite (Hz k v Hin) in Hnz. discriminate.
Qed.
End BalanceClaims.

Section BalanceTheorem.
Context {RT : PyRuntime}.

(** The lines of the balance of two typed dicts: the blank line, the two
    titles, and one line per non-zero quantity. *)
Lemma In_lineas_balance (ing egr : list (string * json)) (r : run) :
  has_shape false Ingresos (JObj ing) = true ->
  has_shape false Egresos (JObj egr) = true ->
  In r (lineas_balance ing egr) ->
  r = texto8 LF \/ r = negrita8 ("INGRESOS:" ++ LF)
  \/ r = negrita8 (LF ++ "EGRESOS:" ++ LF)
  \/ exists k n, In k claves_balance /\ n <> 0
                 /\ r = texto8 (k ++ ": " ++ Py.str_of_Z n ++ LF).
Proof.
  intros Hi He Hr. unfold lineas_balance in Hr.
  destruct (existsb no_cero ing || existsb no_cero egr); [|contradiction].
  destruct Hr as [<-|Hr]; [now left|].
  apply in_app_or in Hr as [Hr|Hr];
    apply In_lineas_seccion in Hr as [->|(k & v & Hin & Hv & ->)]; auto.
  - destruct (entrada_balance false ing k v (or_introl Hi) Hin) as [Hk [n ->]].
    do 3 right. exists k, n. repeat split; auto.
    intros ->. discriminate.
  - destruct (entrada_balance false egr k v (or_intror He) Hin) as [Hk [n ->]].
    do 3 right. exists k, n. repeat split; auto.
    intros ->. discriminate.
Qed.

(** The balance of two typed dicts is always accepted: its texts are the
    titles, the declared keys and decimal numbers. *)
Lemma lineas_balance_compatibles (ing egr : list (string * json)) :
  has_shape false Ingresos (JObj ing) = true ->
  has_shape false Egresos (JObj egr) = true ->
  compatibles (lineas_balance ing egr) = true.
Proof.
  intros Hi He. apply forallb_forall. intros r Hr.
  apply (In_lineas_balance ing egr r Hi He) in Hr
    as [->|[->|[->|(k & n & Hk & _ & ->)]]]; try reflexivity.
  cbn [run_text texto8].
  assert (Ha : ascii_text (k ++ ": " ++ Py.str_of_Z n) = true).
  { rewrite !ascii_text_app, ascii_text_str_of_Z.
    unfold claves_balance in Hk. simpl in Hk.
    repeat (destruct Hk as [<-|Hk]; [reflexivity|]). contradiction. }
  assert (E : k ++ ": " ++ Py.str_of_Z n ++ LF = (k ++ ": " ++ Py.str_of_Z n) ++ LF).
  { clear. induction k as [|c k IH]; cbn [String.append].
    - reflexivity.
    - change (String c k ++ ": " ++ Py.str_of_Z n ++ LF)
        with (String c (k ++ ": " ++ Py.str_of_Z n ++ LF)).
      change ((String c k ++ ": " ++ Py.str_of_Z n) ++ LF)
        with (String c ((k ++ ": " ++ Py.str_of_Z n) ++ LF)).
      now rewrite IH. }
  rewrite E. now rewrite (xml_compatible_ascii_app _ _ Ha).
Qed.


End BalanceTheorem.

(* ------------------------------------------------------------------ *)
(** ** Column 2: the evolution notes                                    *)
(* ------------------------------------------------------------------ *)

Lemma flat_map_singleton {A B : Type} (g : A -> B) (l : list A) :
  flat_map (fun x => [g x]) l = map g l.
Proof. induction l as [|x l IH]; simpl; congruence. Qed.

(** The optional dict stored under a key, as the items the renderer reads:
    those of the default [{}] when the key is missing. *)
Lemma get_default_dict (items : list (string * json)) (k : string) (c : bool) (cs : list campo) :
  (forall v, Py.lookup k items = Some v -> has_shape c (TModel cs) v = true) ->
  exists kvs,
    Py.get (JObj items) k (JObj []) = Ok (JObj kvs)
    /\ (forall f, campo_de f (Py.lookup k items) = Py.lookup f kvs)
    /\ (Py.lookup k items = Some (JObj kvs) \/ (Py.lookup k items = None /\ kvs = [])).
Proof.
  intros H. simpl. destruct (Py.lookup k items) as [v|] eqn:E.
  - destruct (has_shape_model_obj _ _ _ (H v eq_refl)) as [kvs ->].
    exists kvs. repeat split; auto.
  - exists []. repeat split; auto.
Qed.

Section Notes.
Context {RT : PyRuntime}.

Lemma bloque_diagnosticos_runs (l : list json) (p : paragraph) :
  forallb is_str l = true ->
  bloque_diagnosticos (JList l) p
  = escribir p (lineas_diagnosticos (Some (JList l))).
Proof.
  intros Hl. unfold bloque_diagnosticos, lineas_diagnosticos.
  destruct l as [|d ds]; [cbn [Py.truthy]; esc|].
  cbn [Py.truthy app].
  apply seq_escribir_cons; [esc|intros q]. cbn [Py.iter bind].
  apply seq_escribir; [|intros q'; esc].
  rewrite <- (flat_map_singleton (fun x => texto8 ("• " ++ Py.str_upper (Py.str x) ++ LF))).
  apply for_each_escribir.
  intros x q' Hx. rewrite forallb_forall in Hl. specialize (Hl x Hx).
  destruct x; try discriminate. cbn [Py.upper bind Py.str]. esc.
Qed.

Lemma bloque_fisico_runs (ev : list (string * json)) (p : paragraph) :
  bloque_fisico (JObj ev) p = escribir p (lineas_fisico (Some (JObj ev))).
Proof.
  unfold bloque_fisico, lineas_fisico. apply for_each_escribir.
  intros [key label] q _. cbn [Py.get bind campo_de].
  unfold linea_rotulada, presente, texto_de.
  destruct (Py.lookup key ev) as [v|]; cbn [Py.truthy].
  - destruct (Py.truthy v); esc.
  - esc.
Qed.

Lemma any_false_lookup (kvs : list (string * json)) (k : string) :
  existsb no_cero kvs = false -> presente (Py.lookup k kvs) = false.
Proof.
  intros H. destruct (Py.lookup k kvs) as [v|] eqn:E; [|reflexivity]. simpl.
  apply lookup_In in E. destruct (Py.truthy v) eqn:Hv; [|reflexivity].
  assert (existsb no_cero kvs = true); [|congruence].
  apply existsb_exists. exists (k, v). auto.
Qed.

(** The neurological line of a dict whose state and focal deficit are
    strings when present. *)
Lemma bloque_neurologico_runs (ev : list (string * json)) (p : paragraph) :
  (forall v, Py.lookup "neurologico" ev = Some v ->
             has_shape false Neurologico v = true) ->
  bloque_neurologico (JObj ev) p
  = escribir p (lineas_enb (Py.lookup "neurologico" ev)).
Proof.
  intros Hn.
  destruct (get_default_dict ev "neurologico" false _ Hn) as (ne & Hget & Hf & Hcase).
  unfold bloque_neurologico. rewrite Hget. cbn [bind].
  unfold lineas_enb, miembros_enb. rewrite !Hf.
  assert (Hne : has_shape false Neurologico (JObj ne) = true).
  { destruct Hcase as [E|[_ ->]]; [now apply Hn | reflexivity]. }
  apply has_shape_model_inv in Hne as (_ & _ & Hty & _).
  destruct ne as [|kv ne']; [cbn [Py.truthy Py.lookup presente app]; esc|].
  set (ne := kv :: ne') in *.
  cbn [Py.truthy Py.values bind]. rewrite any_values.
  destruct (existsb no_cero ne) eqn:Hany.
  2:{ rewrite !any_false_lookup by exact Hany. cbn [app]. esc. }
  assert (He : forall v, Py.lookup "estado" ne = Some v -> exists s, v = JStr s).
  { intros v Hv. eapply has_shape_str, Hty; [|exact Hv]. simpl. eauto. }
  assert (Hm : forall v, Py.lookup "foco_motor" ne = Some v -> exists s, v = JStr s).
  { intros v Hv. eapply has_shape_str, Hty; [|exact Hv]. simpl. eauto 6. }
  assert (Hg : forall v, Py.lookup "glasgow" ne = Some v -> exists s, v = JStr s).
  { intros v Hv. eapply has_shape_str, Hty; [|exact Hv]. simpl. eauto 6. }
  unfold Py.get, Py.getitem. cbn [bind].
  destruct (Py.lookup "estado" ne) as [v1|];
    [destruct (He v1 eq_refl) as [s1 ->]|];
    (destruct (Py.lookup "foco_motor" ne) as [v2|];
     [destruct (Hm v2 eq_refl) as [s2 ->]|]);
    (destruct (Py.lookup "glasgow" ne) as [v3|];
     [destruct (Hg v3 eq_refl) as [s3 ->]|]);
    cbn [presente Py.truthy texto_de Py.str bind];
    repeat match goal with
           | |- context [negb (String.eqb ?s "")] => destruct (negb (String.eqb s ""))
           end;
    cbn [bind app Py.str Py.str_join Py.strs Py.join]; esc.
Qed.

Lemma linea_rotulada_if (v : json) (rotulo fin : string) (p : paragraph) :
  (if Py.truthy v
   then q <- agregar_texto_negrita p rotulo 8 ;; agregar_texto q (Py.str v ++ fin) 8
   else Ok p)
  = escribir p (linea_rotulada rotulo (Some v) fin).
Proof.
  unfold linea_rotulada, presente, texto_de.
  destruct (Py.truthy v); esc.
Qed.

Lemma linea_rotulada_lookup (kvs : list (string * json)) (k rotulo fin : string)
    (p : paragraph) :
  (if Py.truthy (match Py.lookup k kvs with Some v => v | None => JNull end)
   then q <- agregar_texto_negrita p rotulo 8 ;;
        x <- Py.getitem (JObj kvs) k ;;
        agregar_texto q (Py.str x ++ fin) 8
   else Ok p)
  = escribir p (linea_rotulada rotulo (Py.lookup k kvs) fin).
Proof.
  unfold linea_rotulada, presente, texto_de. cbn [Py.getitem].
  destruct (Py.lookup k kvs) as [v|]; cbn [Py.truthy].
  - destruct (Py.truthy v); cbn [bind]; esc.
  - esc.
Qed.

(** A field of type [str] read with the default [""]. *)
Lemma get_default_str (items : list (string * json)) (k : string) :
  (forall v, Py.lookup k items = Some v -> has_shape false TStr v = true) ->
  exists s,
    Py.get (JObj items) k (JStr "") = Ok (JStr s)
    /\ presente (Py.lookup k items) = Py.truthy (JStr s)
    /\ texto_de (Py.lookup k items) = s.
Proof.
  intros H. simpl. destruct (Py.lookup k items) as [v|].
  - destruct (has_shape_str _ _ (H v eq_refl)) as [s ->]. exists s. auto.
  - exists "". auto.
Qed.

(** A field of type [List[str]] read with the default [[]]. *)
Lemma get_default_list (items : list (string * json)) (k : string) :
  (forall v, Py.lookup k items = Some v -> has_shape false TListStr v = true) ->
  exists l,
    Py.get (JObj items) k (JList []) = Ok (JList l)
    /\ forallb is_str l = true
    /\ (Py.lookup k items = Some (JList l) \/ (Py.lookup k items = None /\ l = [])).
Proof.
  intros H. simpl. destruct (Py.lookup k items) as [v|].
  - destruct (has_shape_list_str _ _ (H v eq_refl)) as (l & -> & Hl). exists l. auto.
  - exists []. auto.
Qed.

(** Column 2 of a report, absent fields allowed, is the layout
    [columna_notas_spec]. *)
Lemma columna_notas_runs (items : list (string * json)) (p : paragraph) :
  partial_report (JObj items) ->
  columna_notas (JObj items) p = escribir p (columna_notas_spec items).
Proof.
  intros H. apply has_shape_model_inv in H as (_ & _ & Hty & _).
  assert (Hf : forall n t v, In (n, t, None) (match InformeGeriatrico with
                                              | TModel cs => cs | _ => [] end) ->
                             Py.lookup n items = Some v -> has_shape false t v = true).
  { intros n t v Hin. apply (Hty n t None v). exact Hin. }
  simpl in Hf.
  destruct (get_default_str items "descripcion_paciente") as (desc & Hd & Hdp & Hdt).
  { intros v. apply Hf. tauto. }
  destruct (get_default_list items "diagnosticos") as (diag & Hg & Hstr & Hdc).
  { intros v. apply Hf. tauto. }
  destruct (get_default_dict items "evolucion" false
              (match Evolucion with TModel cs => cs | _ => [] end))
    as (ev & Hev & Hevf & Hevc).
  { intros v. apply Hf. tauto. }
  destruct (get_default_str items "BH") as (bh & Hbh & Hbhp & Hbht).
  { intros v. apply Hf. tauto. }
  destruct (get_default_str items "RD") as (rd & Hrd & Hrdp & Hrdt).
  { intros v. apply Hf. tauto. }
  assert (Hevs : has_shape false Evolucion (JObj ev) = true).
  { destruct Hevc as [E|[_ ->]]; [eapply Hf; [|exact E]; tauto | reflexivity]. }
  apply has_shape_model_inv in Hevs as (_ & _ & Hevty & _).
  unfold columna_notas, columna_notas_spec.
  rewrite Hd, Hg, Hev, Hbh, Hrd. cbn [bind].
  rewrite !Hevf.
  assert (Hbhl : forall r fin, linea_rotulada r (Py.lookup "BH" items) fin
                               = linea_rotulada r (Some (JStr bh)) fin).
  { intros. unfold linea_rotulada. rewrite Hbhp, Hbht. reflexivity. }
  assert (Hrdl : forall r fin, linea_rotulada r (Py.lookup "RD" items) fin
                               = linea_rotulada r (Some (JStr rd)) fin).
  { intros. unfold linea_rotulada. rewrite Hrdp, Hrdt. reflexivity. }
  assert (Hdl : lineas_diagnosticos (Py.lookup "diagnosticos" items)
                = lineas_diagnosticos (Some (JList diag))).
  { destruct Hdc as [->|[-> ->]]; reflexivity. }
  assert (Hfl : lineas_fisico (Py.lookup "evolucion" items)
                = lineas_fisico (Some (JObj ev))).
  { destruct Hevc as [->|[-> ->]]; reflexivity. }
  rewrite Hbhl, Hrdl, Hdl, Hfl.
  apply seq_escribir.
  { unfold lineas_descripcion. rewrite Hdp, Hdt.
    destruct (Py.truthy (JStr desc)); cbn [Py.add_str bind]; esc. }
  intros q1. apply seq_escribir; [now apply bloque_diagnosticos_runs|].
  intros q2. cbn [Py.get bind].
  apply seq_escribir; [apply linea_rotulada_lookup|].
  intros q3. apply seq_escribir; [apply bloque_fisico_runs|].
  intros q4. cbn [Py.get bind].
  apply seq_escribir; [apply linea_rotulada_lookup|].
  intros q5. apply seq_escribir.
  { apply bloque_neurologico_runs.
    intros v Hv; eapply Hevty; [|exact Hv]; simpl; tauto. }
  intros q6. apply seq_escribir; [apply linea_rotulada_if|].
  intros q7. rewrite bind_ret. apply linea_rotulada_if.
Qed.

End Notes.

(* ------------------------------------------------------------------ *)
(** ** The whole document                                               *)
(* ------------------------------------------------------------------ *)

Lemma fila_encabezado_paciente :
  fila_encabezado encabezado_paciente = Ok (map celda_encabezado encabezado_paciente).
Proof. reflexivity. Qed.

Lemma fila_encabezado_principal :
  fila_encabezado encabezados = Ok (map celda_encabezado encabezados).
Proof. reflexivity. Qed.

Section Document.
Context {RT : PyRuntime}.

Lemma bloque_ordenes_runs (os : list json) (p : paragraph) :
  bloque_ordenes (JList os) p = escribir p (lineas_ordenes (Some (JList os))).
Proof.
  unfold bloque_ordenes, lineas_ordenes. cbn [Py.iter bind].
  rewrite <- (flat_map_singleton
                (fun '(i, o) => texto8 ((Py.str_of_Z (i + 1) ++ ". " ++ Py.str o) ++ LF))).
  apply for_each_escribir. intros [i o] q _. esc.
Qed.

(** The fields of a report by their declared type. *)
Lemma partial_report_fields (items : list (string * json)) :
  partial_report (JObj items) ->
  forall n t v,
    In (n, t) [("tipo_informe", TipoInforme); ("paciente", Paciente);
               ("fecha_hora", TStr); ("signos_vitales", SignosVitales);
               ("diagnosticos", TListStr); ("evolucion", Evolucion);
               ("ingresos", Ingresos); ("egresos", Egresos);
               ("ordenes_medicas", TListStr); ("BH", TStr); ("RD", TStr);
               ("descripcion_paciente", TStr)] ->
    Py.lookup n items = Some v -> has_shape false t v = true.
Proof.
  intros H n t v Hin.
  apply has_shape_model_inv in H as (_ & _ & Hty & _).
  apply (Hty n t None v). simpl in Hin |- *.
  repeat (destruct Hin as [Hin|Hin]; [injection Hin as <- <-; tauto|]).
  contradiction.
Qed.

Lemma columna_ordenes_runs (items : list (string * json)) (p : paragraph) :
  partial_report (JObj items) ->
  columna_ordenes (JObj items) p = escribir p (columna_ordenes_spec items).
Proof.
  intros H. pose proof (partial_report_fields items H) as Hf.
  destruct (get_default_list items "ordenes_medicas") as (os & Hos & _ & Hoc).
  { intros v. apply Hf. simpl. tauto. }
  destruct (get_default_dict items "ingresos" false
              (match Ingresos with TModel cs => cs | _ => [] end))
    as (ing & Hing & _ & Hic).
  { intros v. apply Hf. simpl. tauto. }
  destruct (get_default_dict items "egresos" false
              (match Egresos with TModel cs => cs | _ => [] end))
    as (egr & Hegr & _ & Hec).
  { intros v. apply Hf. simpl. tauto. }
  assert (Ho : lineas_ordenes (Py.lookup "ordenes_medicas" items)
               = lineas_ordenes (Some (JList os))).
  { destruct Hoc as [->|[-> ->]]; reflexivity. }
  assert (Hi : items_de (Py.lookup "ingresos" items) = ing).
  { destruct Hic as [->|[-> ->]]; reflexivity. }
  assert (He : items_de (Py.lookup "egresos" items) = egr).
  { destruct Hec as [->|[-> ->]]; reflexivity. }
  unfold columna_ordenes, columna_ordenes_spec.
  rewrite Hos, Ho, Hi, He. cbn [bind].
  apply seq_escribir; [apply bloque_ordenes_runs|].
  intros q. rewrite Hing, Hegr. cbn [bind]. apply bloque_balance_runs.
Qed.

Lemma columna_fecha_report (items : list (string * json)) (p : paragraph) :
  partial_report (JObj items) ->
  columna_fecha (JObj items) p = escribir p (columna_fecha_spec items).
Proof.
  intros H. pose proof (partial_report_fields items H) as Hf.
  apply columna_fecha_runs. intros v Hv.
  eapply has_shape_model_obj. eapply Hf; [|exact Hv]. simpl. tauto.
Qed.

(** The patient table of a report: the layout [tabla_paciente_spec] when the
    five texts are accepted, [ValueError] otherwise. *)
Lemma tabla_paciente_report (items : list (string * json)) :
  partial_report (JObj items) ->
  tabla_paciente (JObj items)
  = if forallb xml_compatible (datos_paciente_spec items)
    then Ok (tabla_paciente_spec items) else Raise ValueError.
Proof.
  intros H. pose proof (partial_report_fields items H) as Hf.
  destruct (get_default_dict items "paciente" false
              (match Paciente with TModel cs => cs | _ => [] end))
    as (pa & Hpa & Hpaf & Hpc).
  { intros v. apply Hf. simpl. tauto. }
  assert (Hps : has_shape false Paciente (JObj pa) = true).
  { destruct Hpc as [E|[_ ->]]; [eapply Hf; [|exact E]; simpl; tauto | reflexivity]. }
  apply has_shape_model_inv in Hps as (_ & _ & Hty & _).
  unfold tabla_paciente, tabla_paciente_spec, datos_paciente_spec.
  rewrite fila_encabezado_paciente, Hpa. cbn [bind].
  destruct (get_default_str pa "apellido_paterno") as (ap & Hap & _ & Hapt).
  { intros v. apply (Hty _ _ None). simpl. tauto. }
  destruct (get_default_str pa "apellido_materno") as (am & Ham & _ & Hamt).
  { intros v. apply (Hty _ _ None). simpl. tauto. }
  destruct (get_default_str pa "nombres") as (nom & Hnom & _ & Hnomt).
  { intros v. apply (Hty _ _ None). simpl. tauto. }
  rewrite Hap, Ham, Hnom. cbn [bind Py.get map].
  rewrite !Hpaf, Hapt, Hamt, Hnomt.
  assert (Hh : Py.str (match Py.lookup "n_historia" pa with
                       | Some v => v | None => JStr "" end)
               = texto_de (Py.lookup "n_historia" pa))
    by (destruct (Py.lookup "n_historia" pa); reflexivity).
  assert (Hc : Py.str (match Py.lookup "n_cama" pa with
                       | Some v => v | None => JStr "" end)
               = texto_de (Py.lookup "n_cama" pa))
    by (destruct (Py.lookup "n_cama" pa); reflexivity).
  rewrite Hh, Hc.
  cbn [for_each agregar_dato forallb].
  unfold agregar_texto, add_run. cbn [run_text].
  repeat match goal with
         | |- context [xml_compatible ?s] =>
             destruct (xml_compatible s); cbn [bind andb]; try reflexivity
         end.
Qed.

(** The document built for a report, absent fields allowed: the page
    [documento_spec] when every text is accepted, [ValueError] otherwise. *)
Lemma construir_partial_report (items : list (string * json)) :
  partial_report (JObj items) ->
  construir_documento (JObj items)
  = if textos_compatibles items then Ok (documento_spec items) else Raise ValueError.
Proof.
  intros H. unfold construir_documento, documento_spec, textos_compatibles.
  rewrite tabla_paciente_report by exact H.
  destruct (forallb xml_compatible (datos_paciente_spec items)); [|reflexivity].
  cbn [bind andb]. rewrite fila_encabezado_principal. cbn [bind].
  rewrite columna_fecha_report by exact H. unfold escribir at 1.
  destruct (compatibles (columna_fecha_spec items)); [|reflexivity].
  cbn [bind andb].
  rewrite columna_notas_runs by exact H. unfold escribir at 1.
  destruct (compatibles (columna_notas_spec items)); [|reflexivity].
  cbn [bind andb].
  rewrite columna_ordenes_runs by exact H. unfold escribir.
  destruct (compatibles (columna_ordenes_spec items)); reflexivity.
Qed.

Lemma construir_ok (items : list (string * json)) :
  partial_report (JObj items) -> textos_compatibles items = true ->
  construir_documento (JObj items) = Ok (documento_spec items).
Proof. intros H Hc. rewrite construir_partial_report by exact H. now rewrite Hc. Qed.

End Document.

Section Saving.
Context {RT : PyRuntime} {CO : Colaboradores}.

(** The renderer once the document is built: the document is saved and the
    line printed, unless the operating system refuses. *)
Lemma generar_guarda (data : json) (doc : document) (nombre : string) (w : world) :
  construir_documento data = Ok doc ->
  io_falla (OpGuardarDocx nombre) = None ->
  io_falla (OpImprimir (aviso_guardado nombre)) = None ->
  generar_docx_desde_json data nombre w
  = (Ok tt, write_file nombre (FDocx doc) (EvDocSave nombre) w).
Proof. intros Hd Hs Hp. unfold generar_docx_desde_json. now rewrite Hd, Hs, Hp. Qed.

Lemma generar_raise (data : json) (e : exn) (nombre : string) (w : world) :
  construir_documento data = Raise e ->
  generar_docx_desde_json data nombre w = (Raise e, w).
Proof. intros Hd. unfold generar_docx_desde_json. now rewrite Hd. Qed.

(** If the renderer returns, the document it built is in the file. *)
Lemma generar_inv (data : json) (nombre : string) (w w' : world) (u : unit) :
  generar_docx_desde_json data nombre w = (Ok u, w') ->
  exists doc,
    construir_documento data = Ok doc
    /\ io_falla (OpGuardarDocx nombre) = None
    /\ io_falla (OpImprimir (aviso_guardado nombre)) = None
    /\ w' = write_file nombre (FDocx doc) (EvDocSave nombre) w.
Proof.
  unfold generar_docx_desde_json.
  destruct (construir_documento data) as [doc|e]; [|discriminate].
  destruct (io_falla (OpGuardarDocx nombre)); [discriminate|].
  destruct (io_falla (OpImprimir (aviso_guardado nombre))); [discriminate|].
  intros [= _ <-]. exists doc. auto.
Qed.

(** The renderer on a report, absent fields allowed, whose texts are
    accepted, when saving and printing succeed: the page [documento_spec] is
    in the file. *)
Lemma generar_partial_report (items : list (string * json)) (nombre : string) (w : world) :
  partial_report (JObj items) ->
  textos_compatibles items = true ->
  io_falla (OpGuardarDocx nombre) = None ->
  io_falla (OpImprimir (aviso_guardado nombre)) = None ->
  generar_docx_desde_json (JObj items) nombre w
  = (Ok tt, write_file nombre (FDocx (documento_spec items)) (EvDocSave nombre) w).
Proof.
  intros H Hc Hs Hp. apply generar_guarda; auto. now apply construir_ok.
Qed.

End Saving.

(** A valid Report is in particular a Report in which fields may be
    absent. *)
Lemma has_shape_weaken (t : tipo) (v : json) :
  has_shape true t v = true -> has_shape false t v = true.
Proof.
  revert t v. fix IH 1. intros t v. destruct t as [| | | | vals|cs]; simpl; auto.
  destruct v; auto. intros H.
  apply andb_prop in H as [H Heach]. rewrite H. simpl. clear H.
  revert Heach. induction cs as [|[[n t'] d] cs' IHcs]; simpl; auto.
  intros H. apply andb_prop in H as [H1 H2].
  rewrite (IHcs H2), andb_true_r.
  destruct (Py.lookup n items) as [v'|].
  - now apply IH.
  - destruct d; [reflexivity|discriminate].
Qed.

Lemma valid_report_partial (data : json) : valid_report data -> partial_report data.
Proof. apply has_shape_weaken. Qed.

(* ------------------------------------------------------------------ *)
(** ** The claims about the renderer                                    *)
(* ------------------------------------------------------------------ *)

Lemma valid_report_obj (data : json) :
  valid_report data -> exists items, data = JObj items.
Proof. apply has_shape_model_obj. Qed.

Lemma informe_ejemplo_valid : valid_report (JObj informe_ejemplo).
Proof. reflexivity. Qed.

Lemma informe_control_valid : valid_report (JObj informe_control).
Proof. reflexivity. Qed.

Lemma lineas_signos_explicit {RT : PyRuntime} (sv : option json) :
  lineas_signos sv
  = (linea_rotulada "PA: " (campo_de "PA" sv) LF
     ++ linea_rotulada "FC: " (campo_de "FC" sv) LF
     ++ linea_rotulada "FR: " (campo_de "FR" sv) LF
     ++ linea_rotulada "O2: " (campo_de "O2" sv) LF)%list.
Proof. unfold lineas_signos. cbn [flat_map claves_signos]. now rewrite app_nil_r. Qed.

Lemma lineas_fisico_explicit {RT : PyRuntime} (ev : option json) :
  lineas_fisico ev
  = (linea_rotulada "Cuello: " (campo_de "cuello" ev) LF
     ++ linea_rotulada "Tórax anterior: " (campo_de "torax_anterior" ev) LF
     ++ linea_rotulada "Tórax posterior: " (campo_de "torax_posterior" ev) LF
     ++ linea_rotulada "Abdomen: " (campo_de "abdomen" ev) LF
     ++ linea_rotulada "Genitourinario: " (campo_de "genitourinario" ev) LF
     ++ linea_rotulada "Extremidades: " (campo_de "extremidades" ev) LF)%list.
Proof. unfold lineas_fisico. cbn [flat_map campos_fisicos]. now rewrite app_nil_r. Qed.

(** Upper case on ASCII text: the letters [a]-[z] become [A]-[Z], every other
    character stays. *)
Lemma str_upper_ascii {RT : PyRuntime} (s : string) :
  Py.is_ascii s = true ->
  Py.str_upper s
  = Py.map_string (fun c => let n := nat_of_ascii c in
                            if Nat.leb 97 n && Nat.leb n 122
                            then ascii_of_nat (n - 32) else c) s.
Proof.
  unfold Py.str_upper, Py.is_ascii.
  assert (H : forallb (fun c => Nat.ltb (nat_of_ascii c) 128) (list_ascii_of_string s) = true ->
              Py.upper_latin1 s = Some (Py.map_string Py.ascii_upper s)).
  { induction s as [|c s IH]; [reflexivity|].
    cbn [list_ascii_of_string forallb Py.upper_latin1 Py.map_string].
    intros Hc. apply andb_prop in Hc as [Hc Hs].
    rewrite Hc, (IH Hs). reflexivity. }
  intros Ha. now rewrite (H Ha).
Qed.

Section RendererClaims.
Context {RT : PyRuntime} {CO : Colaboradores}.


(** C5, as the code has it.  For every Report whose timestamp is a string
    that does not parse as a datetime and whose texts are XML compatible,
    when the document can be saved and the line after it printed, the
    renderer returns, and column 1 of the saved document holds the lines of
    the vital signs PA, FC, FR, O2 that are present and nothing else: no
    weekday, date or time line. *)
Theorem unparsable_timestamp_vitals_only
    (items : list (string * json)) (s : string) (nombre : string) (w : world) :
  partial_report (JObj items) ->
  Py.lookup "fecha_hora" items = Some (JStr s) ->
  Py.fromisoformat (JStr s) = None ->
  textos_compatibles items = true ->
  io_falla (OpGuardarDocx nombre) = None ->
  io_falla (OpImprimir (aviso_guardado nombre)) = None ->
  let sv := Py.lookup "signos_vitales" items in
  exists doc c1,
    generar_docx_desde_json (JObj items) nombre w
    = (Ok tt, write_file nombre (FDocx doc) (EvDocSave nombre) w)
    /\ columna doc 0 = Some c1
    /\ p_runs c1
       = (linea_rotulada "PA: " (campo_de "PA" sv) LF
          ++ linea_rotulada "FC: " (campo_de "FC" sv) LF
          ++ linea_rotulada "FR: " (campo_de "FR" sv) LF
          ++ linea_rotulada "O2: " (campo_de "O2" sv) LF)%list.
Proof.
  intros H Hf Hn Hc Hs Hp sv.
  rewrite (generar_partial_report items nombre w H Hc Hs Hp).
  eexists _, _. split; [reflexivity|]. split; [reflexivity|].
  unfold columna_fecha_spec, lineas_fecha. cbn [p_runs].
  rewrite Hf, Hn. cbn [app]. apply lineas_signos_explicit.
Qed.

(** C6, as the code has it.  For every Report whose texts are XML
    compatible, when the document can be saved and the line after it
    printed, column 2 of the saved document is the concatenation, in this
    order, of the descriptive sentence, the diagnoses in upper case as
    bullets under [DIAGNÓSTICOS:], the general state after [S: ], the
    regional findings after [Cuello: ], [Tórax anterior: ],
    [Tórax posterior: ], [Abdomen: ], [Genitourinario: ] and
    [Extremidades: ], the general physical exam after [EFG: ], the
    neurological line after [ENB: ], the lab results after [BH: ] and the
    imaging after [RD: ], a block being empty when its field is; the
    neurological line joins with [", "] the present members among state,
    focal deficit and [Glasgow <score>], and is absent when none is. *)
Theorem column2_fixed_order
    (items : list (string * json)) (nombre : string) (w : world) :
  partial_report (JObj items) ->
  textos_compatibles items = true ->
  io_falla (OpGuardarDocx nombre) = None ->
  io_falla (OpImprimir (aviso_guardado nombre)) = None ->
  let evolucion := Py.lookup "evolucion" items in
  let neurologico := campo_de "neurologico" evolucion in
  let diagnosticos :=
    match Py.lookup "diagnosticos" items with
    | Some (JList (d :: ds)) =>
        ([negrita8 ("DIAGNÓSTICOS:" ++ LF)%string]
         ++ map (fun x => texto8 ("• " ++ Py.str_upper (Py.str x) ++ LF)%string) (d :: ds)
         ++ [texto8 LF])%list
    | _ => []
    end in
  let descripcion :=
    if presente (Py.lookup "descripcion_paciente" items)
    then [texto8 (texto_de (Py.lookup "descripcion_paciente" items) ++ LF ++ LF)]
    else [] in
  let enb :=
    match miembros_enb neurologico with
    | [] => []
    | ms => [negrita8 (LF ++ "ENB: "); texto8 (Py.join ", " ms ++ LF)]
    end in
  exists doc c2,
    generar_docx_desde_json (JObj items) nombre w
    = (Ok tt, write_file nombre (FDocx doc) (EvDocSave nombre) w)
    /\ columna doc 1 = Some c2
    /\ p_runs c2
       = (descripcion
          ++ diagnosticos
          ++ linea_rotulada "S: " (campo_de "estado_general" evolucion) (LF ++ LF)%string
          ++ (linea_rotulada "Cuello: " (campo_de "cuello" evolucion) LF
              ++ linea_rotulada "Tórax anterior: " (campo_de "torax_anterior" evolucion) LF
              ++ linea_rotulada "Tórax posterior: " (campo_de "torax_posterior" evolucion) LF
              ++ linea_rotulada "Abdomen: " (campo_de "abdomen" evolucion) LF
              ++ linea_rotulada "Genitourinario: " (campo_de "genitourinario" evolucion) LF
              ++ linea_rotulada "Extremidades: " (campo_de "extremidades" evolucion) LF)
          ++ linea_rotulada (LF ++ "EFG: ")%string (campo_de "EFG" evolucion) LF
          ++ enb
          ++ linea_rotulada (LF ++ "BH: ")%string (Py.lookup "BH" items) LF
          ++ linea_rotulada (LF ++ "RD: ")%string (Py.lookup "RD" items) LF)%list
    /\ miembros_enb neurologico
       = ((if presente (campo_de "estado" neurologico)
           then [texto_de (campo_de "estado" neurologico)] else [])
          ++ (if presente (campo_de "foco_motor" neurologico)
              then [texto_de (campo_de "foco_motor" neurologico)] else [])
          ++ (if presente (campo_de "glasgow" neurologico)
              then [("Glasgow " ++ texto_de (campo_de "glasgow" neurologico))%string]
              else []))%list
    /\ (presente (campo_de "estado" neurologico) = false ->
        presente (campo_de "foco_motor" neurologico) = false ->
        presente (campo_de "glasgow" neurologico) = false ->
        enb = [])
    /\ (forall t, Py.is_ascii t = true ->
                  Py.str_upper t
                  = Py.map_string (fun c => let n := nat_of_ascii c in
                                            if Nat.leb 97 n && Nat.leb n 122
                                            then ascii_of_nat (n - 32) else c) t).
Proof.
  intros H Hc Hs Hp evolucion neurologico diagnosticos descripcion enb.
  rewrite (generar_partial_report items nombre w H Hc Hs Hp).
  eexists _, _. split; [reflexivity|]. split; [reflexivity|].
  split; [|split; [reflexivity|split]].
  - cbn [p_runs]. unfold columna_notas_spec. fold evolucion.
    rewrite (lineas_fisico_explicit evolucion). reflexivity.
  - intros H1 H2 H3. unfold enb, miembros_enb. now rewrite H1, H2, H3.
  - apply str_upper_ascii.
Qed.

(** C7. A report with the timestamp [2024-03-11T14:30:00], the vital signs
    PA 120/80, FC 80, FR 18, O2 98 and the diagnosis [neumonia], whatever
    its other fields hold as long as their texts are XML compatible, once
    rendered and saved: column 1 is the weekday line [Lunes], the date line
    [11/03/24], the time line [14:30], then the four vital signs in the
    order PA, FC, FR, O2; column 2 holds the diagnosis line [• NEUMONIA]
    under the title. *)
Theorem end_to_end_example
    (items : list (string * json)) (nombre : string) (w : world) :
  partial_report (JObj items) ->
  Py.lookup "fecha_hora" items = Some (JStr "2024-03-11T14:30:00") ->
  Py.lookup "signos_vitales" items
  = Some (JObj [("PA", JStr "120/80"); ("FC", JInt 80); ("FR", JInt 18);
                ("O2", JInt 98)]) ->
  Py.lookup "diagnosticos" items = Some (JList [JStr "neumonia"]) ->
  textos_compatibles items = true ->
  io_falla (OpGuardarDocx nombre) = None ->
  io_falla (OpImprimir (aviso_guardado nombre)) = None ->
  exists doc c1 c2,
    generar_docx_desde_json (JObj items) nombre w
    = (Ok tt, write_file nombre (FDocx doc) (EvDocSave nombre) w)
    /\ columna doc 0 = Some c1
    /\ p_runs c1
       = [negrita8 ("Lunes" ++ LF); texto8 ("11/03/24" ++ LF);
          texto8 ("14:30" ++ LF ++ LF);
          negrita8 "PA: "; texto8 ("120/80" ++ LF);
          negrita8 "FC: "; texto8 ("80" ++ LF);
          negrita8 "FR: "; texto8 ("18" ++ LF);
          negrita8 "O2: "; texto8 ("98" ++ LF)]
    /\ columna doc 1 = Some c2
    /\ (exists antes despues,
          p_runs c2
          = (antes
             ++ [negrita8 ("DIAGNÓSTICOS:" ++ LF); texto8 ("• NEUMONIA" ++ LF);
                 texto8 LF]
             ++ despues)%list).
Proof.
  intros H Hf Hv Hd Hc Hs Hp.
  rewrite (generar_partial_report items nombre w H Hc Hs Hp).
  eexists _, _, _. split; [reflexivity|]. split; [reflexivity|].
  split; [|split; [reflexivity|]].
  - cbn [p_runs]. unfold columna_fecha_spec. rewrite Hf, Hv. reflexivity.
  - cbn [p_runs]. unfold columna_notas_spec. rewrite Hd.
    eexists _, _. reflexivity.
Qed.

(** C1, as the code has it.  For every Report in which any fields are
    missing or empty and whose texts are XML compatible, when the document
    can be saved and the line after it printed, the renderer returns, and
    the saved document is the layout [documento_spec], in which a field that
    is missing or empty contributes no run to the columns: a labelled line,
    the descriptive sentence, the diagnoses, the date, the orders, the
    neurological line and the balance are each empty when their field is.
    No field is required: the empty report renders to three empty columns.
    When the report object itself is absent ([null]) the renderer raises
    [AttributeError] and writes nothing. *)
Theorem missing_fields_tolerated
    (items : list (string * json)) (nombre : string) (w : world) :
  partial_report (JObj items) ->
  textos_compatibles items = true ->
  io_falla (OpGuardarDocx nombre) = None ->
  io_falla (OpImprimir (aviso_guardado nombre)) = None ->
  generar_docx_desde_json (JObj items) nombre w
  = (Ok tt, write_file nombre (FDocx (documento_spec items)) (EvDocSave nombre) w)
  /\ (forall v rotulo fin, presente v = false -> linea_rotulada rotulo v fin = [])
  /\ (forall v, presente v = false -> lineas_descripcion v = [])
  /\ (forall v, presente v = false -> lineas_diagnosticos v = [])
  /\ (forall v, presente v = false -> lineas_fecha v = [])
  /\ (forall v, presente v = false -> lineas_signos v = [])
  /\ (forall v, presente v = false -> lineas_fisico v = [])
  /\ (forall v, presente v = false -> lineas_enb v = [])
  /\ (forall v, presente v = false -> lineas_ordenes v = [])
  /\ (forall ing egr, presente ing = false -> presente egr = false ->
                      lineas_balance (items_de ing) (items_de egr) = [])
  /\ (exists doc,
         generar_docx_desde_json (JObj []) nombre w
         = (Ok tt, write_file nombre (FDocx doc) (EvDocSave nombre) w)
         /\ columna doc 0 = Some new_paragraph
         /\ columna doc 1 = Some new_paragraph
         /\ columna doc 2 = Some new_paragraph)
  /\ generar_docx_desde_json JNull nombre w = (Raise AttributeError, w).
Proof.
  intros H Hc Hs Hp. split; [now apply generar_partial_report|].
  assert (Hdict : forall v : option json, presente v = false ->
                                           forall k, campo_de k v = None).
  { intros [[]|] Hv k; try reflexivity. destruct items0; [reflexivity|discriminate]. }
  repeat split.
  - intros v rotulo fin Hv. unfold linea_rotulada. now rewrite Hv.
  - intros v Hv. unfold lineas_descripcion. now rewrite Hv.
  - intros [[]|] Hv; try reflexivity. destruct l; [reflexivity|discriminate].
  - intros [v|] Hv; [|reflexivity]. unfold lineas_fecha.
    destruct v; try reflexivity. simpl in Hv. apply negb_false_iff in Hv.
    apply String.eqb_eq in Hv. subst s. reflexivity.
  - intros v Hv. unfold lineas_signos. simpl. now rewrite !(Hdict v Hv).
  - intros v Hv. unfold lineas_fisico. simpl. now rewrite !(Hdict v Hv).
  - intros v Hv. unfold lineas_enb, miembros_enb. now rewrite !(Hdict v Hv).
  - intros [[]|] Hv; try reflexivity. destruct l; [reflexivity|discriminate].
  - intros ing egr Hi He.
    assert (Hnil : forall v : option json, presente v = false -> items_de v = []).
    { intros [[]|] Hv; try reflexivity. destruct items0; [reflexivity|discriminate]. }
    now rewrite (Hnil ing Hi), (Hnil egr He).
  - eexists. split.
    + apply (generar_partial_report [] nombre w); auto; reflexivity.
    + repeat split; reflexivity.
Qed.

(** C10. A vital sign stored with the value [0] or the empty string is left
    out of column 1 exactly as if its key were missing: rendering the report
    gives the same column as rendering it with the key removed from
    [signos_vitales]; and the block of the vital signs shows a key, among
    PA, FC, FR and O2 in this order, exactly when the value under it is
    truthy ([ValueError] being raised when one of the texts to show is not
    XML compatible). *)
Theorem vitals_filtered_by_truthiness
    (items sv : list (string * json)) (k : string) (v : json) (p : paragraph) :
  Py.lookup "signos_vitales" items = Some (JObj sv) ->
  Py.lookup k sv = Some v ->
  v = JInt 0 \/ v = JStr "" ->
  columna_fecha (JObj items) p
  = columna_fecha (JObj (dict_set "signos_vitales" (JObj (dict_del k sv)) items)) p
  /\ let linea key :=
       if presente (Py.lookup key sv)
       then [negrita8 (key ++ ": "); texto8 (texto_de (Py.lookup key sv) ++ LF)]
       else [] in
     let rs := (linea "PA" ++ linea "FC" ++ linea "FR" ++ linea "O2")%list in
     bloque_signos (JObj sv) new_paragraph
     = if compatibles rs then Ok (mkparagraph None rs) else Raise ValueError.
Proof.
  intros Hsv Hk Hv.
  assert (Hf : Py.truthy v = false) by (destruct Hv; subst v; reflexivity).
  split.
  - rewrite !columna_fecha_runs.
    + rewrite lookup_dict_set_eq, Hsv.
      rewrite lookup_dict_set_ne by discriminate.
      now erewrite lineas_signos_del by eauto.
    + intros v0. rewrite lookup_dict_set_eq. intros [= <-]. eauto.
    + intros v0. rewrite Hsv. intros [= <-]. eauto.
  - cbv zeta. rewrite bloque_signos_runs, lineas_signos_explicit. reflexivity.
Qed.

End RendererClaims.




Lemma unparsable_timestamp_vitals_only_witness :
  exists doc c1,
    @generar_docx_desde_json runtime_ascii colaboradores_ejemplo
      (JObj informe_fecha_invalida) "informe.docx" mundo_inicial
    = (Ok tt, write_file "informe.docx" (FDocx doc) (EvDocSave "informe.docx")
                mundo_inicial)
    /\ columna doc 0 = Some c1
    /\ textos (p_runs c1)
       = ["PA: "; "120/80" ++ LF; "FC: "; "80" ++ LF; "FR: "; "18" ++ LF;
          "O2: "; "98" ++ LF].
Proof.
  destruct (@unparsable_timestamp_vitals_only runtime_ascii colaboradores_ejemplo
              informe_fecha_invalida "ayer por la tarde" "informe.docx" mundo_inicial
              eq_refl eq_refl eq_refl eq_refl eq_refl eq_refl)
    as (doc & c1 & Hg & Hc & Hr).
  exists doc, c1. split; [exact Hg|]. split; [exact Hc|].
  rewrite Hr. reflexivity.
Defined.

(** C5 fails as stated: a Report whose timestamp does not parse and whose
    lab results hold a form feed makes the renderer raise [ValueError]. *)
Lemma unparsable_timestamp_with_control_character_raises :
  partial_report (JObj informe_fecha_invalida_control)
  /\ Py.lookup "fecha_hora" informe_fecha_invalida_control
     = Some (JStr "ayer por la tarde")
  /\ @Py.fromisoformat runtime_ascii (JStr "ayer por la tarde") = None
  /\ @generar_docx_desde_json runtime_ascii colaboradores_ejemplo
       (JObj informe_fecha_invalida_control) "informe.docx" mundo_inicial
     = (Raise ValueError, mundo_inicial).
Proof. repeat split; reflexivity. Qed.

Lemma column2_fixed_order_witness :
  exists doc c2,
    @generar_docx_desde_json runtime_ascii colaboradores_ejemplo
      (JObj informe_tildes) "informe.docx" mundo_inicial
    = (Ok tt, write_file "informe.docx" (FDocx doc) (EvDocSave "informe.docx")
                mundo_inicial)
    /\ columna doc 1 = Some c2
    /\ textos (p_runs c2)
       = ["Paciente de sexo femenino de 81 años de edad en su 3 día de internación con los diagnósticos de:"
            ++ LF ++ LF;
          "DIAGNÓSTICOS:" ++ LF; "• NEUMONÍA" ++ LF; "• DIABETES MELLITUS" ++ LF; LF;
          "S: "; "estable" ++ LF ++ LF;
          "Cuello: "; "movil" ++ LF;
          "Tórax posterior: "; "crepitos basales" ++ LF;
          "Abdomen: "; "blando" ++ LF;
          "Extremidades: "; "sin edema" ++ LF;
          LF ++ "EFG: "; "hidratada" ++ LF;
          LF ++ "ENB: "; "alerta, Glasgow 15/15" ++ LF;
          LF ++ "BH: "; "leucocitos 12000" ++ LF].
Proof.
  destruct (@column2_fixed_order runtime_ascii colaboradores_ejemplo
              informe_tildes "informe.docx" mundo_inicial
              eq_refl eq_refl eq_refl eq_refl)
    as (doc & c2 & Hg & Hc & Hr & _).
  exists doc, c2. split; [exact Hg|]. split; [exact Hc|].
  rewrite Hr. reflexivity.
Defined.

(** C6 fails as stated: for the example report with a form feed in the lab
    results no column 2 is produced, the renderer raises [ValueError] when it
    reaches the block [BH: ]. *)
Lemma column2_with_control_character_raises :
  partial_report (JObj informe_control)
  /\ @columna_notas runtime_ascii (JObj informe_control) new_paragraph
     = Raise ValueError
  /\ @generar_docx_desde_json runtime_ascii colaboradores_ejemplo
       (JObj informe_control) "informe.docx" mundo_inicial
     = (Raise ValueError, mundo_inicial).
Proof. repeat split; reflexivity. Qed.

Lemma end_to_end_example_witness :
  exists doc c1 c2,
    @generar_docx_desde_json runtime_ascii colaboradores_ejemplo
      (JObj informe_ejemplo) "informe.docx" mundo_inicial
    = (Ok tt, write_file "informe.docx" (FDocx doc) (EvDocSave "informe.docx")
                mundo_inicial)
    /\ columna doc 0 = Some c1
    /\ textos (p_runs c1)
       = ["Lunes" ++ LF; "11/03/24" ++ LF; "14:30" ++ LF ++ LF;
          "PA: "; "120/80" ++ LF; "FC: "; "80" ++ LF; "FR: "; "18" ++ LF;
          "O2: "; "98" ++ LF]
    /\ columna doc 1 = Some c2
    /\ In ("• NEUMONIA" ++ LF) (textos (p_runs c2)).
Proof.
  destruct (@end_to_end_example runtime_ascii colaboradores_ejemplo
              informe_ejemplo "informe.docx" mundo_inicial
              (valid_report_partial _ informe_ejemplo_valid)
              eq_refl eq_refl eq_refl eq_refl eq_refl eq_refl)
    as (doc & c1 & c2 & Hg & Hc1 & Hr1 & Hc2 & antes & despues & Hr2).
  exists doc, c1, c2. split; [exact Hg|]. split; [exact Hc1|].
  split; [rewrite Hr1; reflexivity|]. split; [exact Hc2|].
  rewrite Hr2. unfold textos. rewrite !map_app. apply in_or_app. right.
  apply in_or_app. left. simpl. tauto.
Defined.

(** C1 fails as stated: with the report object absent the renderer raises
    Python's [AttributeError], not a [RenderError] that names a path; and a
    Report with no field but the lab results, which hold a form feed, makes
    it raise [ValueError]. *)
Lemma absent_root_raises_attribute_error :
  (exists e,
      @generar_docx_desde_json runtime_ascii colaboradores_ejemplo
        JNull "informe.docx" mundo_inicial = (Raise e, mundo_inicial)
      /\ exn_name e <> "RenderError")
  /\ partial_report (JObj [("BH", JStr ("leucocitos" ++ FF))])
  /\ @generar_docx_desde_json runtime_ascii colaboradores_ejemplo
       (JObj [("BH", JStr ("leucocitos" ++ FF))]) "informe.docx" mundo_inicial
     = (Raise ValueError, mundo_inicial).
Proof.
  split; [|split; reflexivity].
  exists AttributeError. split; [reflexivity|discriminate].
Qed.

Lemma missing_fields_tolerated_witness :
  @generar_docx_desde_json runtime_ascii colaboradores_ejemplo
    (JObj [("BH", JStr ""); ("diagnosticos", JList []);
           ("paciente", JObj [("n_cama", JInt 0)])])
    "informe.docx" mundo_inicial
  = (Ok tt,
     write_file "informe.docx"
       (FDocx (@documento_spec runtime_ascii
                 [("BH", JStr ""); ("diagnosticos", JList []);
                  ("paciente", JObj [("n_cama", JInt 0)])]))
       (EvDocSave "informe.docx") mundo_inicial)
  /\ @columna_notas_spec runtime_ascii
       [("BH", JStr ""); ("diagnosticos", JList []);
        ("paciente", JObj [("n_cama", JInt 0)])] = []
  /\ @datos_paciente_spec runtime_ascii
       [("BH", JStr ""); ("diagnosticos", JList []);
        ("paciente", JObj [("n_cama", JInt 0)])] = [""; ""; ""; ""; "0"].
Proof.
  split; [|split; reflexivity].
  exact (proj1 (@missing_fields_tolerated runtime_ascii colaboradores_ejemplo
                  [("BH", JStr ""); ("diagnosticos", JList []);
                   ("paciente", JObj [("n_cama", JInt 0)])]
                  "informe.docx" mundo_inicial eq_refl eq_refl eq_refl eq_refl)).
Defined.

(** The theorem at a report whose heart rate is [0]. *)
Lemma vitals_filtered_by_truthiness_witness :
  @columna_fecha runtime_ascii
    (JObj [("signos_vitales", JObj [("PA", JStr "120/80"); ("FC", JInt 0)])])
    new_paragraph
  = @columna_fecha runtime_ascii
      (JObj [("signos_vitales", JObj [("PA", JStr "120/80")])]) new_paragraph
  /\ @bloque_signos runtime_ascii (JObj [("PA", JStr "120/80"); ("FC", JInt 0)])
       new_paragraph
     = Ok (mkparagraph None [negrita8 "PA: "; texto8 ("120/80" ++ LF)]).
Proof.
  exact (@vitals_filtered_by_truthiness runtime_ascii
           [("signos_vitales", JObj [("PA", JStr "120/80"); ("FC", JInt 0)])]
           [("PA", JStr "120/80"); ("FC", JInt 0)]
           "FC" (JInt 0) new_paragraph
           eq_refl eq_refl (or_introl eq_refl)).
Defined.

(* ------------------------------------------------------------------ *)
(** ** The claims about the request handler                             *)
(* ------------------------------------------------------------------ *)

Lemma TipoInforme_of_exact (valor : string) (t : TipoInforme_enum) :
  TipoInforme_of valor = Some t <-> valor = TipoInforme_value t.
Proof.
  unfold TipoInforme_of. destruct t. simpl.
  destruct (String.eqb valor "EVOLUCION_GERIATRICA") eqn:E.
  - apply String.eqb_eq in E. tauto.
  - apply String.eqb_neq in E. split; [discriminate|contradiction].
Qed.

Lemma upload_path_not_document (name : string) :
  UPLOAD_FOLDER ++ "/" ++ name <> "informe.docx".
Proof. discriminate. Qed.

Section HandlerClaims.
Context {RT : PyRuntime} {CO : Colaboradores}.

(** C8. A request whose report-type tag is not a value of the enumeration is
    answered with the error status 400, and nothing has happened by then: no
    file is written and neither the transcription, the structuring service
    nor the renderer is called.  The enumeration lookup is exact: a tag it
    accepts is the value of the member it returns, so no other tag is mapped
    to a variant. *)
Theorem unknown_report_type_rejected (req : request) (w : world) (tag : string) :
  form_tipo_informe req = Some tag ->
  (forall t, tag <> TipoInforme_value t) ->
  (exists mensaje,
      procesar_informe req w = (mkresponse 400 (CError mensaje), w))
  /\ TipoInforme_of tag = None
  /\ (forall valor t, TipoInforme_of valor = Some t -> valor = TipoInforme_value t).
Proof.
  intros Htag Hno.
  assert (Hnone : TipoInforme_of tag = None).
  { destruct (TipoInforme_of tag) as [t|] eqn:E; [|reflexivity].
    apply TipoInforme_of_exact in E. now apply Hno in E. }
  split; [|split; [exact Hnone|]].
  - unfold procesar_informe. rewrite Htag.
    destruct (files_audio req); [rewrite Hnone|]; eauto.
  - intros valor t. apply TipoInforme_of_exact.
Qed.


Lemma lookup_escritura_fallida (t : bool) (path path' : string) (w : world) :
  path <> path' -> fs (escritura_fallida t path w) !! path' = fs w !! path'.
Proof.
  intros Hne. unfold escritura_fallida. destruct t; [|reflexivity].
  cbn [fs]. now apply lookup_insert_ne.
Qed.

Lemma log_escritura_fallida (t : bool) (path : string) (w : world) :
  log (escritura_fallida t path w) = log w.
Proof. unfold escritura_fallida. now destruct t. Qed.

(** What the handler does once the transcript is there: it succeeds, or it
    fails before [doc.save] and leaves the files as they were, or [doc.save]
    fails, or it fails after [doc.save], in the [print] or while reading the
    document back, and the new document is in the file. *)
Lemma estructurar_y_generar_cases (tipo_enum : TipoInforme_enum) (texto_crudo : string)
    (w : world) :
  (exists text data_json doc,
      generate_content (prompt_de tipo_enum texto_crudo) InformeGeriatrico = Ok text
      /\ json_loads text = Ok data_json
      /\ construir_documento data_json = Ok doc
      /\ io_falla (OpGuardarDocx "informe.docx") = None
      /\ io_falla (OpImprimir (aviso_guardado "informe.docx")) = None
      /\ io_falla (OpLeer "informe.docx") = None
      /\ estructurar_y_generar tipo_enum texto_crudo w
         = (mkresponse 200 (CExito data_json (docx_base64 doc)),
            mkworld (<["informe.docx" := FDocx doc]> (fs w))
                    (log w ++ [EvGenerate (prompt_de tipo_enum texto_crudo);
                               EvRender data_json;
                               EvDocSave "informe.docx"; EvRead "informe.docx"])%list))
  \/ (exists e evs,
         estructurar_y_generar tipo_enum texto_crudo w
         = (mkresponse 500
              (CError ("Error al generar respuesta con Gemini: " ++ str_exn e)),
            mkworld (fs w) (log w ++ evs)%list)
         /\ Forall (fun ev => match ev with
                              | EvGenerate _ | EvRender _ => True
                              | _ => False
                              end) evs)
  \/ (exists text data_json doc e,
         generate_content (prompt_de tipo_enum texto_crudo) InformeGeriatrico = Ok text
         /\ json_loads text = Ok data_json
         /\ construir_documento data_json = Ok doc
         /\ io_falla (OpGuardarDocx "informe.docx") = Some e
         /\ estructurar_y_generar tipo_enum texto_crudo w
            = (mkresponse 500
                 (CError ("Error al generar respuesta con Gemini: " ++ str_exn e)),
               escritura_fallida (io_trunca (OpGuardarDocx "informe.docx")) "informe.docx"
                 (mkworld (fs w)
                          (log w ++ [EvGenerate (prompt_de tipo_enum texto_crudo);
                                     EvRender data_json])%list)))
  \/ (exists text data_json doc e,
         generate_content (prompt_de tipo_enum texto_crudo) InformeGeriatrico = Ok text
         /\ json_loads text = Ok data_json
         /\ construir_documento data_json = Ok doc
         /\ io_falla (OpGuardarDocx "informe.docx") = None
         /\ (io_falla (OpImprimir (aviso_guardado "informe.docx")) = Some e
             \/ (io_falla (OpImprimir (aviso_guardado "informe.docx")) = None
                 /\ io_falla (OpLeer "informe.docx") = Some e))
         /\ estructurar_y_generar tipo_enum texto_crudo w
            = (mkresponse 500
                 (CError ("Error al generar respuesta con Gemini: " ++ str_exn e)),
               mkworld (<["informe.docx" := FDocx doc]> (fs w))
                       (log w ++ [EvGenerate (prompt_de tipo_enum texto_crudo);
                                  EvRender data_json; EvDocSave "informe.docx"])%list)).
Proof.
  unfold estructurar_y_generar, generar_docx_desde_json.
  destruct (generate_content (prompt_de tipo_enum texto_crudo) InformeGeriatrico)
    as [text|e] eqn:Hg.
  2:{ right; left. exists e, [EvGenerate (prompt_de tipo_enum texto_crudo)].
      split; [reflexivity|repeat constructor]. }
  destruct (json_loads text) as [data_json|e] eqn:Hj.
  2:{ right; left. exists e, [EvGenerate (prompt_de tipo_enum texto_crudo)].
      split; [reflexivity|repeat constructor]. }
  destruct (construir_documento data_json) as [doc|e] eqn:Hr.
  2:{ right; left.
      exists e, [EvGenerate (prompt_de tipo_enum texto_crudo); EvRender data_json].
      split; [|repeat constructor].
      unfold record. cbn [fs log]. now rewrite <- app_assoc. }
  destruct (io_falla (OpGuardarDocx "informe.docx")) as [e|] eqn:Hs.
  { right; right; left. exists text, data_json, doc, e.
    repeat split; auto.
    unfold record. cbn [fs log]. now rewrite <- app_assoc. }
  destruct (io_falla (OpImprimir (aviso_guardado "informe.docx"))) as [e|] eqn:Hp.
  { right; right; right. exists text, data_json, doc, e.
    repeat split; auto.
    unfold record, write_file. cbn [fs log]. do 2 f_equal.
    rewrite <- app_assoc, <- app_assoc. reflexivity. }
  destruct (io_falla (OpLeer "informe.docx")) as [e|] eqn:Hl.
  { right; right; right. exists text, data_json, doc, e.
    repeat split; auto.
    unfold record, write_file. cbn [fs log]. do 2 f_equal.
    rewrite <- app_assoc, <- app_assoc. reflexivity. }
  left. exists text, data_json, doc. repeat split; auto.
  unfold record, write_file. cbn [fs log]. rewrite lookup_insert_eq.
  cbn [fs log]. do 2 f_equal.
  rewrite <- app_assoc, <- app_assoc, <- app_assoc. reflexivity.
Qed.

(** The outcomes of a request whose inputs are accepted. *)
Lemma procesar_informe_cases (req : request) (w : world)
    (audio : upload) (tag : string) (tipo_enum : TipoInforme_enum) :
  files_audio req = Some audio ->
  form_tipo_informe req = Some tag ->
  TipoInforme_of tag = Some tipo_enum ->
  let ruta := UPLOAD_FOLDER ++ "/" ++ secure_filename (filename audio) in
  let w1 := mkworld (<[ruta := FAudio (contents audio)]> (fs w))
                    (log w ++ [EvSave ruta; EvTranscribe ruta])%list in
  let f2 := delete ruta (<[ruta := FAudio (contents audio)]> (fs w)) in
  (exists e t,
      audio_save_falla (secure_filename (filename audio)) ruta = Some (e, t)
      /\ procesar_informe req w = (mkresponse 500 CInterno, escritura_fallida t ruta w))
  \/ (exists e,
         audio_save_falla (secure_filename (filename audio)) ruta = None
         /\ (transcribe (contents audio) = Raise e
             \/ exists texto, transcribe (contents audio) = Ok texto
                              /\ io_falla (OpBorrar ruta) = Some e)
         /\ procesar_informe req w
            = (mkresponse 500 (CError ("Error al transcribir audio: " ++ str_exn e)), w1))
  \/ (exists texto e evs,
         audio_save_falla (secure_filename (filename audio)) ruta = None
         /\ transcribe (contents audio) = Ok texto
         /\ procesar_informe req w
            = (mkresponse 500
                 (CError ("Error al generar respuesta con Gemini: " ++ str_exn e)),
               mkworld f2
                       (log w ++ [EvSave ruta; EvTranscribe ruta; EvRemove ruta] ++ evs)%list)
         /\ Forall (fun ev => match ev with
                              | EvGenerate _ | EvRender _ => True
                              | _ => False
                              end) evs)
  \/ (exists texto text data_json doc e,
         audio_save_falla (secure_filename (filename audio)) ruta = None
         /\ transcribe (contents audio) = Ok texto
         /\ json_loads text = Ok data_json
         /\ construir_documento data_json = Ok doc
         /\ io_falla (OpGuardarDocx "informe.docx") = Some e
         /\ procesar_informe req w
            = (mkresponse 500
                 (CError ("Error al generar respuesta con Gemini: " ++ str_exn e)),
               escritura_fallida (io_trunca (OpGuardarDocx "informe.docx")) "informe.docx"
                 (mkworld f2
                          (log w ++ [EvSave ruta; EvTranscribe ruta; EvRemove ruta;
                                     EvGenerate (prompt_de tipo_enum texto);
                                     EvRender data_json])%list)))
  \/ (exists texto text data_json doc e,
         audio_save_falla (secure_filename (filename audio)) ruta = None
         /\ transcribe (contents audio) = Ok texto
         /\ generate_content (prompt_de tipo_enum texto) InformeGeriatrico = Ok text
         /\ json_loads text = Ok data_json
         /\ construir_documento data_json = Ok doc
         /\ io_falla (OpGuardarDocx "informe.docx") = None
         /\ (io_falla (OpImprimir (aviso_guardado "informe.docx")) = Some e
             \/ (io_falla (OpImprimir (aviso_guardado "informe.docx")) = None
                 /\ io_falla (OpLeer "informe.docx") = Some e))
         /\ procesar_informe req w
            = (mkresponse 500
                 (CError ("Error al generar respuesta con Gemini: " ++ str_exn e)),
               mkworld (<["informe.docx" := FDocx doc]> f2)
                       (log w ++ [EvSave ruta; EvTranscribe ruta; EvRemove ruta;
                                  EvGenerate (prompt_de tipo_enum texto);
                                  EvRender data_json; EvDocSave "informe.docx"])%list))
  \/ (exists texto text data_json doc,
         audio_save_falla (secure_filename (filename audio)) ruta = None
         /\ transcribe (contents audio) = Ok texto
         /\ io_falla (OpBorrar ruta) = None
         /\ generate_content (prompt_de tipo_enum texto) InformeGeriatrico = Ok text
         /\ json_loads text = Ok data_json
         /\ construir_documento data_json = Ok doc
         /\ io_falla (OpGuardarDocx "informe.docx") = None
         /\ io_falla (OpImprimir (aviso_guardado "informe.docx")) = None
         /\ io_falla (OpLeer "informe.docx") = None
         /\ procesar_informe req w
            = (mkresponse 200 (CExito data_json (docx_base64 doc)),
               mkworld (<["informe.docx" := FDocx doc]> f2)
                       (log w ++ [EvSave ruta; EvTranscribe ruta; EvRemove ruta;
                                  EvGenerate (prompt_de tipo_enum texto);
                                  EvRender data_json; EvDocSave "informe.docx";
                                  EvRead "informe.docx"])%list)).
Proof.
  intros Ha Ht He ruta w1 f2. unfold procesar_informe. rewrite Ha, Ht, He.
  cbv zeta. fold ruta.
  destruct (audio_save_falla (secure_filename (filename audio)) ruta) as [[e0 t0]|] eqn:Hsave.
  { left. exists e0, t0. split; reflexivity. }
  right.
  assert (Hw1 : record (EvTranscribe ruta)
                  (write_file ruta (FAudio (contents audio)) (EvSave ruta) w) = w1).
  { unfold record, write_file, w1. cbn [fs log]. now rewrite <- app_assoc. }
  rewrite Hw1.
  destruct (transcribe (contents audio)) as [texto|e] eqn:Htr.
  2:{ left. exists e. repeat split; auto. }
  destruct (io_falla (OpBorrar ruta)) as [e|] eqn:Hrm.
  { left. exists e. repeat split; eauto. }
  right.
  match goal with
  | |- context [estructurar_y_generar ?t ?x ?w0] =>
      destruct (estructurar_y_generar_cases t x w0)
        as [(text & data & doc & Hg & Hj & Hr & Hs & Hp & Hl & ->)
           |[(e & evs & -> & Hevs)
            |[(text & data & doc & e & Hg & Hj & Hr & Hs & ->)
             |(text & data & doc & e & Hg & Hj & Hr & Hs & Hpl & ->)]]]
  end.
  - right; right; right. exists texto, text, data, doc. repeat split; auto.
    unfold remove_file, w1. cbn [fs log]. do 2 f_equal.
    rewrite <- app_assoc, <- app_assoc. reflexivity.
  - left. exists texto, e, evs. repeat split; auto.
    unfold remove_file, w1. cbn [fs log]. do 2 f_equal.
    rewrite <- app_assoc, <- app_assoc. reflexivity.
  - right; left. exists texto, text, data, doc, e. repeat split; auto.
    unfold remove_file, w1. cbn [fs log]. do 3 f_equal.
    rewrite <- app_assoc, <- app_assoc. reflexivity.
  - right; right; left. exists texto, text, data, doc, e. repeat split; auto.
    unfold remove_file, w1. cbn [fs log]. do 2 f_equal.
    rewrite <- app_assoc, <- app_assoc. reflexivity.
Qed.


(** A request answered with status 200 has gone through every step. *)
Lemma procesar_informe_200 (req : request) (w : world) :
  status (fst (procesar_informe req w)) = 200 ->
  exists audio tag tipo_enum texto text data_json doc,
    files_audio req = Some audio
    /\ form_tipo_informe req = Some tag
    /\ TipoInforme_of tag = Some tipo_enum
    /\ audio_save_falla (secure_filename (filename audio))
         (UPLOAD_FOLDER ++ "/" ++ secure_filename (filename audio)) = None
    /\ transcribe (contents audio) = Ok texto
    /\ io_falla (OpBorrar (UPLOAD_FOLDER ++ "/" ++ secure_filename (filename audio))) = None
    /\ generate_content (prompt_de tipo_enum texto) InformeGeriatrico = Ok text
    /\ json_loads text = Ok data_json
    /\ construir_documento data_json = Ok doc
    /\ io_falla (OpGuardarDocx "informe.docx") = None
    /\ io_falla (OpImprimir (aviso_guardado "informe.docx")) = None
    /\ io_falla (OpLeer "informe.docx") = None
    /\ let ruta := UPLOAD_FOLDER ++ "/" ++ secure_filename (filename audio) in
       procesar_informe req w
       = (mkresponse 200 (CExito data_json (docx_base64 doc)),
          mkworld (<["informe.docx" := FDocx doc]>
                     (delete ruta (<[ruta := FAudio (contents audio)]> (fs w))))
                  (log w ++ [EvSave ruta; EvTranscribe ruta; EvRemove ruta;
                             EvGenerate (prompt_de tipo_enum texto);
                             EvRender data_json; EvDocSave "informe.docx";
                             EvRead "informe.docx"])%list).
Proof.
  intros Hst.
  destruct (files_audio req) as [audio|] eqn:Ha.
  2:{ unfold procesar_informe in Hst. rewrite Ha in Hst. discriminate. }
  destruct (form_tipo_informe req) as [tag|] eqn:Ht.
  2:{ unfold procesar_informe in Hst. rewrite Ha, Ht in Hst. discriminate. }
  destruct (TipoInforme_of tag) as [tipo_enum|] eqn:He.
  2:{ unfold procesar_informe in Hst. rewrite Ha, Ht, He in Hst. discriminate. }
  destruct (procesar_informe_cases req w audio tag tipo_enum Ha Ht He)
    as [(e & t & _ & Hrun)
       |[(e & _ & _ & Hrun)
        |[(texto & e & evs & _ & _ & Hrun & _)
         |[(texto & text & data & doc & e & _ & _ & _ & _ & _ & Hrun)
          |[(texto & text & data & doc & e & _ & _ & _ & _ & _ & _ & _ & Hrun)
           |(texto & text & data & doc & Hsv & Htr & Hrm & Hg & Hj & Hr & Hs & Hp & Hl
             & Hrun)]]]]];
    rewrite Hrun in Hst; cbn [fst status] in Hst; try discriminate.
  exists audio, tag, tipo_enum, texto, text, data, doc.
  repeat split; auto.
Qed.

(** C9, as the code has it.  A request that succeeds has written its
    document to the fixed path [informe.docx], the same for every request,
    and has left it there after reading it back; its upload, saved under
    [uploads/], has been removed. *)
Theorem document_path_fixed_and_kept (req : request) (w : world)
    (resp : response) (w' : world) :
  procesar_informe req w = (resp, w') ->
  status resp = 200 ->
  exists audio doc,
    files_audio req = Some audio
    /\ fs w' !! "informe.docx" = Some (FDocx doc)
    /\ fs w' !! (UPLOAD_FOLDER ++ "/" ++ secure_filename (filename audio)) = None
    /\ In (EvDocSave "informe.docx") (log w')
    /\ In (EvRemove (UPLOAD_FOLDER ++ "/" ++ secure_filename (filename audio))) (log w')
    /\ forall path, ~ In (EvRemove path) (log w) ->
                    In (EvRemove path) (log w') ->
                    path = UPLOAD_FOLDER ++ "/" ++ secure_filename (filename audio).
Proof.
  intros Hrun Hst.
  assert (Hst' : status (fst (procesar_informe req w)) = 200) by now rewrite Hrun.
  destruct (procesar_informe_200 req w Hst')
    as (audio & tag & tipo_enum & texto & text & data & doc & Ha & _ & _ & _ & _ & _
        & _ & _ & _ & _ & _ & _ & Hrun').
  cbv zeta in Hrun'. rewrite Hrun' in Hrun. injection Hrun as <- <-.
  exists audio, doc.
  set (ruta := UPLOAD_FOLDER ++ "/" ++ secure_filename (filename audio)).
  split; [exact Ha|]. cbn [fs log].
  split; [apply lookup_insert_eq|].
  split.
  { rewrite lookup_insert_ne by (symmetry; apply upload_path_not_document).
    apply lookup_delete_eq. }
  split; [rewrite !in_app_iff; simpl; tauto|].
  split; [rewrite !in_app_iff; simpl; tauto|].
  intros path Hold Hnew. rewrite !in_app_iff in Hnew. simpl in Hnew.
  destruct Hnew as [Hnew|Hnew]; [contradiction|].
  repeat (destruct Hnew as [Hnew|Hnew]; try discriminate Hnew).
  - now injection Hnew as <-.
  - contradiction.
Qed.

End HandlerClaims.

Lemma unknown_report_type_rejected_witness :
  exists mensaje,
    @procesar_informe runtime_ascii colaboradores_ejemplo
      peticion_tipo_desconocido mundo_inicial
    = (mkresponse 400 (CError mensaje), mundo_inicial).
Proof.
  apply (@unknown_report_type_rejected runtime_ascii colaboradores_ejemplo
           peticion_tipo_desconocido mundo_inicial "EPICRISIS" eq_refl).
  intros []. discriminate.
Defined.

(** C9 fails as stated: after a request has been answered, its document is
    still in the file [informe.docx], and a second request, with another
    upload, writes its document to that same path. *)
Lemma rendered_document_shared_and_kept :
  let w1 := snd (@procesar_informe runtime_ascii colaboradores_ejemplo
                   peticion_ejemplo mundo_inicial) in
  let w2 := snd (@procesar_informe runtime_ascii colaboradores_ejemplo
                   (mkrequest (Some (mkupload "otra.wav" "RIFF2"))
                              (Some "EVOLUCION_GERIATRICA"))
                   mundo_inicial) in
  fs w1 !! "informe.docx" = Some (FDocx (@documento_spec runtime_ascii []))
  /\ In (EvDocSave "informe.docx") (log w1)
  /\ In (EvDocSave "informe.docx") (log w2)
  /\ ~ In (EvRemove "informe.docx") (log w1).
Proof.
  vm_compute. repeat split; auto 10.
  intros H. repeat (destruct H as [H|H]; [discriminate|]). exact H.
Qed.

Lemma document_path_fixed_and_kept_witness :
  exists audio doc,
    files_audio peticion_ejemplo = Some audio
    /\ fs (snd (@procesar_informe runtime_ascii colaboradores_ejemplo
                  peticion_ejemplo mundo_inicial)) !! "informe.docx"
       = Some (FDocx doc).
Proof.
  destruct (@document_path_fixed_and_kept runtime_ascii colaboradores_ejemplo
              peticion_ejemplo mundo_inicial _ _ eq_refl eq_refl)
    as (audio & doc & Ha & Hd & _).
  exists audio, doc. split; [exact Ha|exact Hd].
Defined.


(* ------------------------------------------------------------------ *)
(** ** The validation operation, and the handler that does not call it  *)
(* ------------------------------------------------------------------ *)

(** A dict has the shape of a model when its keys are distinct and declared
    and every field is present with its shape, or absent with a default. *)
Lemma has_shape_model_intro (cs : list campo) (kvs : list (string * json)) :
  nodup_keys kvs = true ->
  (forall k v, In (k, v) kvs -> declared cs k = true) ->
  (forall n t d, In (n, t, d) cs ->
                 match Py.lookup n kvs with
                 | Some v => has_shape true t v = true
                 | None => d <> None
                 end) ->
  has_shape true (TModel cs) (JObj kvs) = true.
Proof.
  intros Hnd Hdecl Hf. cbn [has_shape]. rewrite Hnd. cbn [andb].
  apply andb_true_intro. split.
  - apply forallb_forall. intros [k v] Hin. exact (Hdecl k v Hin).
  - clear Hdecl. induction cs as [|[[n t] d] cs IH]; [reflexivity|].
    apply andb_true_intro. split.
    + specialize (Hf n t d (or_introl eq_refl)).
      destruct (Py.lookup n kvs); [exact Hf|]. destruct d; [reflexivity|contradiction].
    + apply IH. intros n' t' d' Hin. apply Hf. now right.
Qed.

Section ValidationFacts.
Context {LX : Coercion}.

Lemma validar_str_inr (path : list paso) (e : tipo) (v r : json) :
  validar_str path e v = inr r -> is_str r = true.
Proof.
  unfold validar_str. destruct v; try (intros [= <-]; reflexivity);
    destruct (lax_str _); intros [= <-]; reflexivity.
Qed.

Lemma validar_str_inl (path : list paso) (e : tipo) (v : json) (viol : SchemaViolation) :
  validar_str path e v = inl viol ->
  viol = mkviolation path e (Some v) WrongType /\ is_str v = false.
Proof.
  unfold validar_str. destruct v; try discriminate;
    destruct (lax_str _); try discriminate; intros [= <-]; auto.
Qed.

Lemma validar_str_typed (path : list paso) (e : tipo) (v : json) :
  is_str v = true -> validar_str path e v = inr v.
Proof. destruct v; try discriminate. reflexivity. Qed.

Lemma validar_lista_inr (path : list paso) (i : nat) (l rs : list json) :
  validar_lista path i l = inr rs -> forallb is_str rs = true.
Proof.
  revert i rs. induction l as [|x l IH]; intros i rs; cbn [validar_lista].
  - now intros [= <-].
  - destruct (validar_str (path ++ [Indice i]) TStr x) as [e|r] eqn:Ex; [discriminate|].
    destruct (validar_lista path (S i) l) as [e|rs'] eqn:El; [discriminate|].
    intros [= <-]. cbn [forallb].
    now rewrite (validar_str_inr _ _ _ _ Ex), (IH _ _ El).
Qed.

Lemma validar_lista_inl (path : list paso) (i : nat) (l : list json)
    (viol : SchemaViolation) :
  validar_lista path i l = inl viol ->
  exists k x,
    nth_error l k = Some x
    /\ viol = mkviolation (path ++ [Indice (i + k)]) TStr (Some x) WrongType
    /\ is_str x = false.
Proof.
  revert i. induction l as [|x l IH]; intros i; cbn [validar_lista]; [discriminate|].
  destruct (validar_str (path ++ [Indice i]) TStr x) as [e|r] eqn:Ex.
  - intros [= <-]. apply validar_str_inl in Ex as [-> Hx].
    exists 0%nat, x. rewrite Nat.add_0_r. auto.
  - destruct (validar_lista path (S i) l) as [e|rs'] eqn:El; [|discriminate].
    intros [= <-]. destruct (IH _ El) as (k & y & Hk & -> & Hy).
    exists (S k), y. rewrite Nat.add_succ_r. auto.
Qed.

Lemma validar_lista_typed (path : list paso) (i : nat) (l : list json) :
  forallb is_str l = true -> validar_lista path i l = inr l.
Proof.
  revert i. induction l as [|x l IH]; intros i; cbn [validar_lista forallb]; [reflexivity|].
  intros H. apply andb_prop in H as [Hx Hl].
  now rewrite (validar_str_typed _ _ _ Hx), (IH _ Hl).
Qed.

(** The validation of a well-formed annotation yields values of its
    shape. *)
Lemma validar_tipo_inr (t : tipo) :
  bien_formado t = true ->
  forall path v r, validar_tipo t path v = inr r -> has_shape true t r = true.
Proof.
  revert t. fix IH 1. intros t Hwf path v r.
  destruct t as [| | | |vals|cs]; cbn [validar_tipo].
  - apply validar_str_inr.
  - destruct v; try (intros [= <-]; reflexivity);
      destruct (lax_int _); intros [= <-]; reflexivity.
  - destruct v; try (intros [= <-]; reflexivity);
      intros H; apply validar_str_inr in H; destruct r; try discriminate; reflexivity.
  - destruct v; try discriminate.
    destruct (validar_lista path 0 l) as [e|rs] eqn:El; [discriminate|].
    intros [= <-]. cbn [has_shape]. eapply validar_lista_inr; eauto.
  - destruct v; try discriminate.
    destruct (existsb (String.eqb s) vals) eqn:Es; [|discriminate].
    intros [= <-]. exact Es.
  - destruct v as [| | | | | |kvs]; try discriminate.
    match goal with
    | |- match ?X with _ => _ end = _ -> _ => destruct X as [e|rs] eqn:Each; [discriminate|]
    end.
    intros [= <-].
    assert (Hrs : Forall2 (fun (c : campo) (kv : string * json) =>
                             fst kv = fst (fst c)
                             /\ has_shape true (snd (fst c)) (snd kv) = true) cs rs).
    { clear - IH Hwf Each. cbn [bien_formado] in Hwf.
      revert rs Hwf Each. induction cs as [|[[n t] d] cs IHcs]; intros rs Hwf Each.
      - injection Each as <-. constructor.
      - apply andb_prop in Hwf as [Hwf Hwfcs]. apply andb_prop in Hwf as [Hwf Hdef].
        apply andb_prop in Hwf as [Hfresh Hwft].
        match type of Each with
        | match ?X with _ => _ end = _ => destruct X as [e|r] eqn:Er; [discriminate|]
        end.
        match type of Each with
        | match ?X with _ => _ end = _ => destruct X as [e|rs'] eqn:Ers; [discriminate|]
        end.
        injection Each as <-. constructor.
        + split; [reflexivity|]. cbn [fst snd].
          destruct (Py.lookup n kvs) as [v'|].
          * eapply IH; eauto.
          * destruct d as [dv|]; [|discriminate]. injection Er as <-. exact Hdef.
        + apply IHcs; auto. }
    assert (Hnames : forall n, existsb (fun c : campo => String.eqb n (fst (fst c))) cs
                               = existsb (fun kv : string * json => String.eqb n (fst kv)) rs).
    { intros n. clear - Hrs. induction Hrs as [|c kv cs rs [Hk _] _ IHr]; [reflexivity|].
      cbn [existsb]. now rewrite Hk, IHr. }
    apply has_shape_model_intro.
    + clear - Hrs Hwf Hnames. cbn [bien_formado] in Hwf.
      revert Hwf Hnames. induction Hrs as [|[[n t] d] [k x] cs rs [Hk _] Hrs IHr];
        intros Hwf Hnames; [reflexivity|].
      cbn [fst snd] in Hk. subst k.
      apply andb_prop in Hwf as [Hwf Hwfcs]. apply andb_prop in Hwf as [Hwf _].
      apply andb_prop in Hwf as [Hfresh _].
      assert (Hn' : forall n0, existsb (fun c : campo => String.eqb n0 (fst (fst c))) cs
                               = existsb (fun kv : string * json => String.eqb n0 (fst kv)) rs).
      { intros n0. clear - Hrs. induction Hrs as [|c kv cs rs [Hk _] _ IHr]; [reflexivity|].
        cbn [existsb]. now rewrite Hk, IHr. }
      cbn [nodup_keys]. rewrite <- Hn'.
      change (negb (existsb (fun c : string * tipo * option json =>
                               String.eqb n (fst (fst c))) cs)
              && nodup_keys rs = true).
      rewrite Hfresh. cbn [andb]. now apply IHr.
    + intros k x Hin. unfold declared. rewrite Hnames.
      apply existsb_exists. exists (k, x). split; [exact Hin|apply String.eqb_refl].
    + clear - Hrs Hwf. cbn [bien_formado] in Hwf.
      revert Hwf. induction Hrs as [|[[n t] d] [k x] cs rs [Hk Hx] Hrs IHr];
        intros Hwf n0 t0 d0 Hin; [contradiction|].
      cbn [fst snd] in Hk, Hx. subst k.
      apply andb_prop in Hwf as [Hwf Hwfcs]. apply andb_prop in Hwf as [Hwf _].
      apply andb_prop in Hwf as [Hfresh _].
      cbn [Py.lookup]. destruct Hin as [Heq|Hin].
      * injection Heq as <- <- <-. now rewrite String.eqb_refl.
      * destruct (String.eqb n0 n) eqn:E.
        -- apply String.eqb_eq in E. subst n0. exfalso.
           apply negb_true_iff in Hfresh.
           assert (existsb (fun c : string * tipo * option json =>
                              String.eqb n (fst (fst c))) cs = true) as Hex.
           { apply existsb_exists. exists (n, t0, d0). split; [exact Hin|apply String.eqb_refl]. }
           congruence.
        -- apply (IHr Hwfcs n0 t0 d0 Hin).
Qed.

End ValidationFacts.


Lemma senala_en_campo (n : string) (kvs : list (string * json)) (v' : json)
    (sub : list paso) (viol : SchemaViolation) :
  Py.lookup n kvs = Some v' ->
  senala_en sub viol v' -> senala_en (Campo n :: sub) viol (JObj kvs).
Proof.
  intros Hl. unfold senala_en. destruct (problema_de viol).
  - intros (padre & nombre & kvs0 & -> & Hn & Hm & He).
    exists (Campo n :: padre), nombre, kvs0. repeat split; auto.
    cbn [navegar]. now rewrite Hl.
  - intros (x & Hn & He & Hs). exists x. repeat split; auto.
    cbn [navegar]. now rewrite Hl.
  - intros (x & Hn & He & Hs). exists x. repeat split; auto.
    cbn [navegar]. now rewrite Hl.
Qed.

Section ValidationPaths.
Context {LX : Coercion}.

(** A violation names a path below the place where the validation started,
    and what it says about that place is true. *)
Lemma validar_tipo_inl (t : tipo) :
  forall path v viol,
    validar_tipo t path v = inl viol ->
    exists sub, ruta viol = (path ++ sub)%list /\ senala_en sub viol v.
Proof.
  revert t. fix IH 1. intros t path v viol.
  assert (Haqui : forall t0 p,
             has_shape true t0 v = false ->
             viol = mkviolation path t0 (Some v) p ->
             p <> FieldMissing ->
             exists sub, ruta viol = (path ++ sub)%list /\ senala_en sub viol v).
  { intros t0 p Hs -> Hp. exists []. split; [cbn; now rewrite app_nil_r|].
    unfold senala_en. cbn [problema_de].
    destruct p; [contradiction| |]; exists v; auto. }
  destruct t as [| | | |vals|cs]; cbn [validar_tipo].
  - intros H. apply validar_str_inl in H as [-> Hv].
    apply (Haqui TStr WrongType Hv eq_refl). discriminate.
  - destruct v; try discriminate;
      (destruct (lax_int _); [discriminate|]); intros [= <-];
      (apply (Haqui TInt WrongType eq_refl eq_refl); discriminate).
  - destruct v; try discriminate;
      intros H; apply validar_str_inl in H as [-> Hv];
      (apply (Haqui TOptStr WrongType eq_refl eq_refl); discriminate).
  - destruct v;
      try (intros [= <-]; apply (Haqui TListStr WrongType eq_refl eq_refl); discriminate).
    destruct (validar_lista path 0 l) as [e|rs] eqn:El; [|discriminate].
    intros [= <-]. apply validar_lista_inl in El as (k & x & Hk & -> & Hx).
    exists [Indice k]. split; [reflexivity|].
    unfold senala_en. cbn [problema_de]. exists x. repeat split; auto.
    cbn [navegar]. now rewrite Hk.
  - destruct v;
      try (intros [= <-]; apply (Haqui (TEnum vals) InvalidEnum eq_refl eq_refl);
           discriminate).
    destruct (existsb (String.eqb s) vals) eqn:Es; [discriminate|].
    intros [= <-]. apply (Haqui (TEnum vals) InvalidEnum Es eq_refl). discriminate.
  - destruct v as [| | | | | |kvs];
      try (intros [= <-]; apply (Haqui (TModel cs) WrongType eq_refl eq_refl);
           discriminate).
    clear Haqui.
    match goal with
    | |- match ?X with _ => _ end = _ -> _ => destruct X as [e|rs] eqn:Each; [|discriminate]
    end.
    intros [= <-]. revert Each.
    induction cs as [|[[n t] d] cs IHcs]; [discriminate|].
    match goal with
    | |- match ?X with _ => _ end = _ -> _ => destruct X as [e0|r] eqn:Er
    end.
    + intros [= <-]. destruct (Py.lookup n kvs) as [v'|] eqn:El.
      * destruct (IH t _ _ _ Er) as (sub & Hr & Hs).
        exists (Campo n :: sub). split.
        -- rewrite Hr, <- app_assoc. reflexivity.
        -- eapply senala_en_campo; eauto.
      * destruct d as [dv|]; [discriminate|]. injection Er as <-.
        exists [Campo n]. split; [reflexivity|].
        unfold senala_en. cbn [problema_de].
        exists [], n, kvs. repeat split; auto.
    + match goal with
      | |- match ?X with _ => _ end = _ -> _ => destruct X as [e1|rs] eqn:Ers; [|discriminate]
      end.
      intros [= <-]. now apply IHcs.
Qed.

(** A value of the shape of an annotation is accepted. *)
Lemma validar_tipo_typed (t : tipo) :
  forall path v, has_shape true t v = true -> exists r, validar_tipo t path v = inr r.
Proof.
  revert t. fix IH 1. intros t path v.
  destruct t as [| | | |vals|cs]; cbn [validar_tipo has_shape].
  - intros H. exists v. now apply validar_str_typed.
  - destruct v; try discriminate. eauto.
  - destruct v; try discriminate; eauto.
  - destruct v; try discriminate. intros H.
    rewrite (validar_lista_typed path 0 l H). eauto.
  - destruct v; try discriminate. intros H. rewrite H. eauto.
  - destruct v as [| | | | | |kvs]; try discriminate. intros H.
    apply andb_prop in H as [_ Heach].
    assert (Hrs : exists rs,
               (fix each (cs : list campo) : SchemaViolation + list (string * json) :=
                  match cs with
                  | [] => inr []
                  | (nombre, t', def) :: cs' =>
                      match match Py.lookup nombre kvs with
                            | Some v' => validar_tipo t' (path ++ [Campo nombre]) v'
                            | None =>
                                match def with
                                | Some d => inr d
                                | None => inl (mkviolation (path ++ [Campo nombre]) t'
                                                           None FieldMissing)
                                end
                            end with
                      | inl e => inl e
                      | inr r => match each cs' with
                                 | inl e => inl e
                                 | inr rs => inr ((nombre, r) :: rs)
                                 end
                      end
                  end) cs = inr rs).
    { revert Heach. induction cs as [|[[n t] d] cs IHcs]; intros Heach; [eauto|].
      apply andb_prop in Heach as [H1 H2].
      destruct (IHcs H2) as [rs Hrs]. rewrite Hrs.
      destruct (Py.lookup n kvs) as [v'|].
      - destruct (IH t (path ++ [Campo n])%list v' H1) as [r ->]. eauto.
      - destruct d; [eauto|discriminate]. }
    destruct Hrs as [rs ->]. eauto.
Qed.

Lemma InformeGeriatrico_bien_formado : bien_formado InformeGeriatrico = true.
Proof. reflexivity. Qed.

End ValidationPaths.


Section ValidationClaim.
Context {RT : PyRuntime} {CO : Colaboradores} {LX : Coercion}.


End ValidationClaim.



Section HandlerPaths.
Context {RT : PyRuntime} {CO : Colaboradores}.

(** The handler answers with status 400 exactly when the audio or the tag is
    missing or the tag is not a value of the enumeration; every other answer
    has status 200 or 500; and an answer with status 400 has changed
    nothing. *)
Theorem status_400_iff_bad_input (req : request) (w : world) :
  let '(resp, w') := procesar_informe req w in
  (status resp = 400
   <-> (files_audio req = None \/ form_tipo_informe req = None
        \/ exists tag, form_tipo_informe req = Some tag /\ TipoInforme_of tag = None))
  /\ (status resp = 400 \/ status resp = 500 \/ status resp = 200)
  /\ (status resp = 400 -> w' = w).
Proof.
  destruct (files_audio req) as [audio|] eqn:Ha.
  2:{ unfold procesar_informe. rewrite Ha.
      destruct (form_tipo_informe req); simpl; repeat split; auto. }
  destruct (form_tipo_informe req) as [tag|] eqn:Ht.
  2:{ unfold procesar_informe. rewrite Ha, Ht. simpl; repeat split; auto. }
  destruct (TipoInforme_of tag) as [tipo_enum|] eqn:Et.
  2:{ unfold procesar_informe. rewrite Ha, Ht, Et. simpl; repeat split; eauto 6. }
  assert (Hno : ~ (Some audio = None \/ Some tag = None
                   \/ exists tag0, Some tag = Some tag0 /\ TipoInforme_of tag0 = None)).
  { intros [H|[H|(tag0 & [= <-] & H)]]; congruence. }
  destruct (procesar_informe_cases req w audio tag tipo_enum Ha Ht Et)
    as [(e & t & _ & ->)
       |[(e & _ & _ & ->)
        |[(texto & e & evs & _ & _ & -> & _)
         |[(texto & text & data & doc & e & _ & _ & _ & _ & _ & ->)
          |[(texto & text & data & doc & e & _ & _ & _ & _ & _ & _ & _ & ->)
           |(texto & text & data & doc & _ & _ & _ & _ & _ & _ & _ & _ & _ & ->)]]]]];
    cbn [status]; (split; [split; [discriminate|contradiction]|]);
    (split; [auto|discriminate]).
Qed.

(** When the upload has been saved and the transcription raises, the request
    is answered with status 500 and the message of the exception; the upload
    stays in its file under [uploads/], nothing is removed, and the
    structuring service and the renderer are not called. *)
Theorem transcription_failure_keeps_upload (req : request) (w : world)
    (audio : upload) (tag : string) (tipo_enum : TipoInforme_enum) (e : exn) :
  files_audio req = Some audio ->
  form_tipo_informe req = Some tag ->
  TipoInforme_of tag = Some tipo_enum ->
  let ruta := UPLOAD_FOLDER ++ "/" ++ secure_filename (filename audio) in
  audio_save_falla (secure_filename (filename audio)) ruta = None ->
  transcribe (contents audio) = Raise e ->
  let '(resp, w') := procesar_informe req w in
  resp = mkresponse 500 (CError ("Error al transcribir audio: " ++ str_exn e))
  /\ fs w' !! ruta = Some (FAudio (contents audio))
  /\ log w' = (log w ++ [EvSave ruta; EvTranscribe ruta])%list
  /\ fs w' !! "informe.docx" = fs w !! "informe.docx".
Proof.
  intros Ha Ht He ruta Hsv Htr. unfold procesar_informe.
  rewrite Ha, Ht, He. cbv zeta. fold ruta. rewrite Hsv, Htr.
  cbn [fs log record write_file]. repeat split.
  - apply lookup_insert_eq.
  - now rewrite <- app_assoc.
  - apply lookup_insert_ne. apply upload_path_not_document.
Qed.

(** An upload that cannot be saved makes [audio.save] raise outside every
    [try]: Flask answers with its own page of status 500, no collaborator is
    called, and the only file that can have changed is the one under
    [uploads/], left incomplete if the write had begun.  An upload whose name
    [secure_filename] maps to the empty string is such an upload: its path is
    the upload folder itself, and no file changes at all. *)
Theorem unsaved_upload_is_a_server_error (req : request) (w : world)
    (audio : upload) (tag : string) (tipo_enum : TipoInforme_enum) :
  files_audio req = Some audio ->
  form_tipo_informe req = Some tag ->
  TipoInforme_of tag = Some tipo_enum ->
  let ruta := UPLOAD_FOLDER ++ "/" ++ secure_filename (filename audio) in
  (secure_filename (filename audio) = "" \/ io_falla (OpGuardarAudio ruta) <> None) ->
  fst (procesar_informe req w) = mkresponse 500 CInterno
  /\ log (snd (procesar_informe req w)) = log w
  /\ (forall path, path <> ruta ->
                   fs (snd (procesar_informe req w)) !! path = fs w !! path)
  /\ (fs (snd (procesar_informe req w)) !! ruta = fs w !! ruta
      \/ fs (snd (procesar_informe req w)) !! ruta = Some FParcial)
  /\ (secure_filename (filename audio) = "" -> snd (procesar_informe req w) = w).
Proof.
  intros Ha Ht He ruta Hf.
  assert (Hrun : exists t,
             procesar_informe req w = (mkresponse 500 CInterno, escritura_fallida t ruta w)
             /\ (secure_filename (filename audio) = "" -> t = false)).
  { unfold procesar_informe, audio_save_falla.
    rewrite Ha, Ht, He. cbv zeta. fold ruta.
    destruct (String.eqb (secure_filename (filename audio)) "") eqn:E.
    - exists false. split; [reflexivity|auto].
    - assert (Hne : secure_filename (filename audio) <> "").
      { intros H. rewrite H in E. discriminate. }
      destruct Hf as [Hf|Hf]; [contradiction|].
      destruct (io_falla (OpGuardarAudio ruta)); [|contradiction].
      eexists. split; [reflexivity|]. intros H. contradiction. }
  destruct Hrun as (t & -> & Ht0). cbn [fst snd].
  split; [reflexivity|]. split; [apply log_escritura_fallida|].
  split; [intros path Hp; apply lookup_escritura_fallida; congruence|].
  split.
  - destruct t; [right|left; reflexivity].
    cbn [escritura_fallida fs]. apply lookup_insert_eq.
  - intros H. now rewrite (Ht0 H).
Qed.

End HandlerPaths.

Section HandlerFrame.
Context {RT : PyRuntime} {CO : Colaboradores}.

(** A request reads and writes two files only: its upload under [uploads/]
    and [informe.docx].  Every other file is after the request what it was
    before, whatever the outcome. *)
Theorem other_files_untouched (req : request) (w : world) (path : string) :
  path <> "informe.docx" ->
  (forall audio, files_audio req = Some audio ->
                 path <> UPLOAD_FOLDER ++ "/" ++ secure_filename (filename audio)) ->
  fs (snd (procesar_informe req w)) !! path = fs w !! path.
Proof.
  intros Hdoc Hup.
  destruct (files_audio req) as [audio|] eqn:Ha.
  2:{ unfold procesar_informe. rewrite Ha. reflexivity. }
  destruct (form_tipo_informe req) as [tag|] eqn:Ht.
  2:{ unfold procesar_informe. rewrite Ha, Ht. reflexivity. }
  destruct (TipoInforme_of tag) as [tipo_enum|] eqn:He.
  2:{ unfold procesar_informe. rewrite Ha, Ht, He. reflexivity. }
  specialize (Hup audio eq_refl).
  destruct (procesar_informe_cases req w audio tag tipo_enum Ha Ht He)
    as [(e & t & _ & ->)
       |[(e & _ & _ & ->)
        |[(texto & e & evs & _ & _ & -> & _)
         |[(texto & text & data & doc & e & _ & _ & _ & _ & _ & ->)
          |[(texto & text & data & doc & e & _ & _ & _ & _ & _ & _ & _ & ->)
           |(texto & text & data & doc & _ & _ & _ & _ & _ & _ & _ & _ & _ & ->)]]]]];
    cbn [snd]; try rewrite lookup_escritura_fallida by congruence; cbn [fs].
  - reflexivity.
  - now rewrite lookup_insert_ne by congruence.
  - rewrite lookup_delete_ne by congruence. now rewrite lookup_insert_ne by congruence.
  - rewrite lookup_delete_ne by congruence. now rewrite lookup_insert_ne by congruence.
  - rewrite lookup_insert_ne by congruence.
    rewrite lookup_delete_ne by congruence. now rewrite lookup_insert_ne by congruence.
  - rewrite lookup_insert_ne by congruence.
    rewrite lookup_delete_ne by congruence. now rewrite lookup_insert_ne by congruence.
Qed.

(** Partial output.  A request that is not answered with status 200 has
    left the file [informe.docx] as it was, with two exceptions, both
    answered with status 500: [doc.save] failed after it had opened the
    file, which is left incomplete; or the request failed after [doc.save],
    in the [print] that follows it or while reading the document back, and
    [informe.docx] holds the new document.  An exception raised before
    [doc.save] (by a collaborator or while the document is built) leaves
    the file as it was. *)
Theorem failed_request_document_kept_or_replaced (req : request) (w : world) :
  status (fst (procesar_informe req w)) <> 200 ->
  (fs (snd (procesar_informe req w)) !! "informe.docx" = fs w !! "informe.docx"
   \/ (exists text data_json doc e,
        json_loads text = Ok data_json
        /\ construir_documento data_json = Ok doc
        /\ io_falla (OpGuardarDocx "informe.docx") = Some e
        /\ io_trunca (OpGuardarDocx "informe.docx") = true
        /\ fst (procesar_informe req w)
           = mkresponse 500
               (CError ("Error al generar respuesta con Gemini: " ++ str_exn e))
        /\ fs (snd (procesar_informe req w)) !! "informe.docx" = Some FParcial)
   \/ exists text data_json doc e,
        json_loads text = Ok data_json
        /\ construir_documento data_json = Ok doc
        /\ io_falla (OpGuardarDocx "informe.docx") = None
        /\ (io_falla (OpImprimir (aviso_guardado "informe.docx")) = Some e
            \/ (io_falla (OpImprimir (aviso_guardado "informe.docx")) = None
                /\ io_falla (OpLeer "informe.docx") = Some e))
        /\ fst (procesar_informe req w)
           = mkresponse 500
               (CError ("Error al generar respuesta con Gemini: " ++ str_exn e))
        /\ fs (snd (procesar_informe req w)) !! "informe.docx" = Some (FDocx doc))
  /\ ((io_falla (OpGuardarDocx "informe.docx") = None
       /\ io_falla (OpImprimir (aviso_guardado "informe.docx")) = None
       /\ io_falla (OpLeer "informe.docx") = None)
      \/ (io_falla (OpGuardarDocx "informe.docx") <> None
          /\ io_trunca (OpGuardarDocx "informe.docx") = false) ->
      fs (snd (procesar_informe req w)) !! "informe.docx" = fs w !! "informe.docx").
Proof.
  intros Hst.
  destruct (files_audio req) as [audio|] eqn:Ha.
  2:{ unfold procesar_informe. rewrite Ha. split; [left|]; reflexivity. }
  destruct (form_tipo_informe req) as [tag|] eqn:Ht.
  2:{ unfold procesar_informe. rewrite Ha, Ht. split; [left|]; reflexivity. }
  destruct (TipoInforme_of tag) as [tipo_enum|] eqn:He.
  2:{ unfold procesar_informe. rewrite Ha, Ht, He. split; [left|]; reflexivity. }
  pose proof (upload_path_not_document (secure_filename (filename audio))) as Hne.
  destruct (procesar_informe_cases req w audio tag tipo_enum Ha Ht He)
    as [(e & t & _ & Hrun)
       |[(e & _ & _ & Hrun)
        |[(texto & e & evs & _ & _ & Hrun & _)
         |[(texto & text & data & doc & e & _ & _ & Hj & Hr & Hs & Hrun)
          |[(texto & text & data & doc & e & _ & _ & _ & Hj & Hr & Hs & Hpl & Hrun)
           |(texto & text & data & doc & _ & _ & _ & _ & _ & _ & _ & _ & _ & Hrun)]]]]];
    rewrite Hrun in Hst |- *; cbn [fst snd status] in *.
  - split; [left|intros _]; now apply lookup_escritura_fallida.
  - cbn [fs]. split; [left|intros _]; now rewrite lookup_insert_ne.
  - cbn [fs]. split; [left|intros _];
      (rewrite lookup_delete_ne by exact Hne; now rewrite lookup_insert_ne).
  - destruct (io_trunca (OpGuardarDocx "informe.docx")) eqn:Htr.
    + split.
      * right; left. exists text, data, doc, e. repeat split; auto.
        cbn [escritura_fallida fs]. apply lookup_insert_eq.
      * intros [(Hs' & _)|(_ & Hf)]; congruence.
    + cbn [escritura_fallida fs].
      split; [left|intros _];
        (rewrite lookup_delete_ne by exact Hne; now rewrite lookup_insert_ne).
  - cbn [fs]. split.
    + right; right. exists text, data, doc, e. repeat split; auto.
      apply lookup_insert_eq.
    + intros [(_ & Hp & Hl)|(Hs' & _)]; [|congruence].
      destruct Hpl as [Hp'|[_ Hl']]; congruence.
  - contradiction.
Qed.

(** A successful answer carries the JSON the structuring service returned and
    the document rendered from that same JSON, which is the content of
    [informe.docx]; the run of the request is: save the upload, transcribe
    it, remove it, call the structuring service, render, save and read back
    the document. *)
Theorem success_is_consistent (req : request) (w : world) :
  status (fst (procesar_informe req w)) = 200 ->
  exists audio tag tipo_enum texto text data_json doc,
    files_audio req = Some audio
    /\ form_tipo_informe req = Some tag
    /\ tag = TipoInforme_value tipo_enum
    /\ transcribe (contents audio) = Ok texto
    /\ generate_content (prompt_de tipo_enum texto) InformeGeriatrico = Ok text
    /\ json_loads text = Ok data_json
    /\ construir_documento data_json = Ok doc
    /\ (forall w0,
           generar_docx_desde_json data_json "informe.docx" w0
           = (Ok tt, write_file "informe.docx" (FDocx doc) (EvDocSave "informe.docx") w0))
    /\ fst (procesar_informe req w)
       = mkresponse 200 (CExito data_json (docx_base64 doc))
    /\ fs (snd (procesar_informe req w)) !! "informe.docx" = Some (FDocx doc)
    /\ let ruta := UPLOAD_FOLDER ++ "/" ++ secure_filename (filename audio) in
       log (snd (procesar_informe req w))
       = (log w ++ [EvSave ruta; EvTranscribe ruta; EvRemove ruta;
                    EvGenerate (prompt_de tipo_enum texto);
                    EvRender data_json; EvDocSave "informe.docx";
                    EvRead "informe.docx"])%list.
Proof.
  intros Hst.
  destruct (procesar_informe_200 req w Hst)
    as (audio & tag & tipo_enum & texto & text & data & doc & Ha & Ht & He & _ & Htr & _
        & Hg & Hj & Hr & Hs & Hp & _ & Hrun).
  cbv zeta in Hrun. rewrite Hrun. cbn [fst snd fs log].
  exists audio, tag, tipo_enum, texto, text, data, doc.
  repeat split; auto.
  - now apply TipoInforme_of_exact.
  - intros w0. now apply generar_guarda.
  - apply lookup_insert_eq.
Qed.

(** A payload that is not a JSON object (a list, a string, a number,
    [null]) makes the renderer raise [AttributeError] at its first access;
    the request is then answered with status 500 and no document is
    written. *)
Theorem non_object_payload_is_a_server_error
    (tipo_enum : TipoInforme_enum) (texto_crudo text : string) (data_json : json)
    (w : world) :
  generate_content (prompt_de tipo_enum texto_crudo) InformeGeriatrico = Ok text ->
  json_loads text = Ok data_json ->
  (forall items, data_json <> JObj items) ->
  (forall nombre w0,
      generar_docx_desde_json data_json nombre w0 = (Raise AttributeError, w0))
  /\ fst (estructurar_y_generar tipo_enum texto_crudo w)
     = mkresponse 500
         (CError ("Error al generar respuesta con Gemini: " ++ str_exn AttributeError))
  /\ fs (snd (estructurar_y_generar tipo_enum texto_crudo w)) = fs w.
Proof.
  intros Hg Hj Hno.
  assert (Hr : construir_documento data_json = Raise AttributeError).
  { destruct data_json; try reflexivity. now destruct (Hno items). }
  split; [intros; now apply generar_raise|].
  unfold estructurar_y_generar, generar_docx_desde_json.
  rewrite Hg, Hj, Hr. split; reflexivity.
Qed.

End HandlerFrame.


(* ------------------------------------------------------------------ *)
(** ** Typography and structure, for every input                        *)
(* ------------------------------------------------------------------ *)

Ltac ok_inv :=
  cbv beta iota in *;
  repeat match goal with
         | H : Ok _ = Ok _ |- _ => injection H as H; try subst
         | H : Raise _ = Ok _ |- _ => discriminate H
         | H : bind ?m _ = Ok _ |- _ =>
             let E := fresh "E" in
             destruct m eqn:E; cbn [bind] in H; [|discriminate H]
         | H : (if ?b then _ else _) = Ok _ |- _ => destruct b
         end.

Lemma cuerpo8_texto (p p' : paragraph) (t : string) :
  agregar_texto p t 8 = Ok p' -> cuerpo8 p -> cuerpo8 p'.
Proof.
  unfold agregar_texto, add_run, cuerpo8. cbn [run_text].
  destruct (xml_compatible t); [|discriminate].
  intros [= <-] [Ha H]. split; [exact Ha|]. cbn [append_run p_runs].
  apply Forall_app. split; [exact H|]. repeat constructor.
Qed.

Lemma cuerpo8_negrita (p p' : paragraph) (t : string) :
  agregar_texto_negrita p t 8 = Ok p' -> cuerpo8 p -> cuerpo8 p'.
Proof.
  unfold agregar_texto_negrita, add_run, cuerpo8. cbn [run_text].
  destruct (xml_compatible t); [|discriminate].
  intros [= <-] [Ha H]. split; [exact Ha|]. cbn [append_run p_runs].
  apply Forall_app. split; [exact H|]. repeat constructor.
Qed.

Create HintDb cuerpo.
#[local] Hint Resolve cuerpo8_texto cuerpo8_negrita : cuerpo.

Lemma for_each_keeps {A S : Type} (P : S -> Prop) (body : A -> S -> res S) (l : list A) :
  (forall x s s', body x s = Ok s' -> P s -> P s') ->
  forall s s', for_each l body s = Ok s' -> P s -> P s'.
Proof.
  intros Hbody. induction l as [|x l IH]; simpl; intros s s' H Hs.
  - now injection H as <-.
  - destruct (body x s) as [s1|] eqn:E; [|discriminate]. simpl in H.
    eapply IH; [exact H|]. eapply Hbody; eauto.
Qed.

Section Typography.
Context {RT : PyRuntime}.

Lemma bloque_signos_cuerpo8 (sv : json) (p p' : paragraph) :
  bloque_signos sv p = Ok p' -> cuerpo8 p -> cuerpo8 p'.
Proof.
  unfold bloque_signos. apply for_each_keeps.
  intros key s s' H Hs. ok_inv; eauto with cuerpo.
Qed.

Lemma columna_fecha_cuerpo8 (data : json) (p p' : paragraph) :
  columna_fecha data p = Ok p' -> cuerpo8 p -> cuerpo8 p'.
Proof.
  unfold columna_fecha. intros H Hp.
  destruct (Py.get data "fecha_hora" (JStr "")) as [fecha|]; [|discriminate].
  cbn [bind] in H.
  destruct (Py.fromisoformat fecha) as [dt|]; cbv beta iota zeta in H;
    (destruct (Py.get data "signos_vitales" (JObj [])) as [sv|]; [|discriminate]);
    cbn [bind] in H; ok_inv;
    (eapply bloque_signos_cuerpo8; [eassumption|]); eauto with cuerpo.
Qed.

Lemma bloque_diagnosticos_cuerpo8 (d : json) (p p' : paragraph) :
  bloque_diagnosticos d p = Ok p' -> cuerpo8 p -> cuerpo8 p'.
Proof.
  unfold bloque_diagnosticos. intros H Hp.
  destruct (Py.truthy d); ok_inv; [|exact Hp].
  eapply cuerpo8_texto; [eassumption|].
  match goal with
  | E : for_each _ _ _ = Ok _ |- _ =>
      eapply (for_each_keeps cuerpo8); [|exact E|eauto with cuerpo]
  end.
  intros x s s' Hb Hs. ok_inv; eauto with cuerpo.
Qed.

Lemma bloque_fisico_cuerpo8 (ev : json) (p p' : paragraph) :
  bloque_fisico ev p = Ok p' -> cuerpo8 p -> cuerpo8 p'.
Proof.
  unfold bloque_fisico. apply for_each_keeps.
  intros [key label] s s' H Hs. ok_inv; eauto with cuerpo.
Qed.

Lemma bloque_neurologico_cuerpo8 (ev : json) (p p' : paragraph) :
  bloque_neurologico ev p = Ok p' -> cuerpo8 p -> cuerpo8 p'.
Proof.
  unfold bloque_neurologico. intros H Hp. ok_inv; eauto with cuerpo;
    try (match goal with
         | H0 : match ?l with [] => _ | _ :: _ => _ end = Ok _ |- _ => destruct l
         end; ok_inv; eauto with cuerpo).
Qed.

Lemma linea_cuerpo8 (c : bool) (m : paragraph -> res paragraph) (p p' : paragraph) :
  (forall q q', m q = Ok q' -> cuerpo8 q -> cuerpo8 q') ->
  (if c then m p else Ok p) = Ok p' -> cuerpo8 p -> cuerpo8 p'.
Proof. intros Hm. destruct c; [apply Hm|]. now intros [= <-]. Qed.

Lemma columna_notas_cuerpo8 (data : json) (p p' : paragraph) :
  columna_notas data p = Ok p' -> cuerpo8 p -> cuerpo8 p'.
Proof.
  unfold columna_notas. intros H Hp.
  repeat match goal with
         | H : bind ?m _ = Ok _ |- _ =>
             let E := fresh "E" in
             destruct m eqn:E; cbn [bind] in H; [|discriminate H]
         end.
  injection H as <-.
  repeat match goal with
         | E : bloque_diagnosticos _ ?q = Ok ?q' |- _ =>
             lazymatch goal with
             | _ : cuerpo8 q' |- _ => fail
             | Hq : cuerpo8 q |- _ =>
                 pose proof (bloque_diagnosticos_cuerpo8 _ _ _ E Hq)
             end
         | E : bloque_fisico _ ?q = Ok ?q' |- _ =>
             lazymatch goal with
             | _ : cuerpo8 q' |- _ => fail
             | Hq : cuerpo8 q |- _ =>
                 pose proof (bloque_fisico_cuerpo8 _ _ _ E Hq)
             end
         | E : bloque_neurologico _ ?q = Ok ?q' |- _ =>
             lazymatch goal with
             | _ : cuerpo8 q' |- _ => fail
             | Hq : cuerpo8 q |- _ =>
                 pose proof (bloque_neurologico_cuerpo8 _ _ _ E Hq)
             end
         | E : (if _ then _ else Ok ?q) = Ok ?q' |- _ =>
             lazymatch goal with
             | _ : cuerpo8 q' |- _ => fail
             | Hq : cuerpo8 q |- _ =>
                 assert (cuerpo8 q')
                   by (revert E; clear - Hq; intros E; ok_inv; eauto with cuerpo)
             end
         end.
  assumption.
Qed.

Lemma bloque_ordenes_cuerpo8 (ordenes : json) (p p' : paragraph) :
  bloque_ordenes ordenes p = Ok p' -> cuerpo8 p -> cuerpo8 p'.
Proof.
  unfold bloque_ordenes. intros H Hp. ok_inv.
  refine (for_each_keeps cuerpo8 _ _ _ _ _ H Hp).
  intros [i orden] s s' Hb Hs. ok_inv; eauto with cuerpo.
Qed.

Lemma seccion_balance_cuerpo8 (titulo : string) (d : json) (p p' : paragraph) :
  seccion_balance titulo d p = Ok p' -> cuerpo8 p -> cuerpo8 p'.
Proof.
  unfold seccion_balance. intros H Hp. ok_inv; [|exact Hp].
  refine (for_each_keeps cuerpo8 _ _ _ _ _ H _); [|eauto with cuerpo].
  intros [key val] s s' Hb Hs. ok_inv; eauto with cuerpo.
Qed.

Lemma bloque_balance_cuerpo8 (ingresos egresos : json) (p p' : paragraph) :
  bloque_balance ingresos egresos p = Ok p' -> cuerpo8 p -> cuerpo8 p'.
Proof.
  unfold bloque_balance. intros H Hp.
  repeat match goal with
         | H : bind ?m _ = Ok _ |- _ =>
             let E := fresh "E" in
             destruct m eqn:E; cbn [bind] in H; [|discriminate H]
         end.
  match type of H with
  | (if ?b then _ else _) = _ => destruct b
  end; [|now injection H as <-].
  repeat match goal with
         | H : bind ?m _ = Ok _ |- _ =>
             let E := fresh "E" in
             destruct m eqn:E; cbn [bind] in H; [|discriminate H]
         end.
  eapply seccion_balance_cuerpo8; [eassumption|].
  eapply seccion_balance_cuerpo8; [eassumption|]. eauto with cuerpo.
Qed.

Lemma columna_ordenes_cuerpo8 (data : json) (p p' : paragraph) :
  columna_ordenes data p = Ok p' -> cuerpo8 p -> cuerpo8 p'.
Proof.
  unfold columna_ordenes. intros H Hp. ok_inv.
  eapply bloque_balance_cuerpo8; [exact H|].
  eapply bloque_ordenes_cuerpo8; eassumption.
Qed.

Lemma agregar_dato_celda (v : json) (p : paragraph) :
  agregar_dato (centered new_paragraph) v 9 = Ok p ->
  exists x, mkcell [p] = celda_dato x.
Proof.
  unfold agregar_dato, agregar_texto, add_run. cbn [run_text].
  destruct v;
    try (destruct (Py.truthy _);
         [destruct (add_run_other _) as [t|]; [|discriminate]; cbn [bind]|];
         intros [= <-]; eexists; reflexivity).
  destruct (xml_compatible s); [|discriminate]. intros [= <-]. eexists; reflexivity.
Qed.

Lemma tabla_paciente_rows (data : json) (t : table) :
  tabla_paciente data = Ok t ->
  exists a b c d e,
    t = mktable "Table Grid" false anchos_paciente
          [map celda_encabezado encabezado_paciente;
           map celda_dato [a; b; c; d; e]].
Proof.
  unfold tabla_paciente. rewrite fila_encabezado_paciente. cbn [bind]. intros H.
  repeat match goal with
         | H : bind ?m _ = Ok _ |- _ =>
             let E := fresh "E" in
             destruct m eqn:E; cbn [bind] in H; [|discriminate H]
         end.
  injection H as <-.
  match goal with
  | E : for_each _ _ _ = Ok _ |- _ => cbn [for_each] in E; ok_inv
  end.
  repeat match goal with
         | E : agregar_dato _ _ _ = Ok _ |- _ =>
             apply agregar_dato_celda in E; destruct E as [? E]
         end.
  cbn [app].
  repeat match goal with
         | E : mkcell _ = celda_dato _ |- _ => rewrite E; clear E
         end.
  eexists _, _, _, _, _. reflexivity.
Qed.

End Typography.

Section TypographyTheorem.
Context {RT : PyRuntime} {CO : Colaboradores}.

(** Whenever the renderer returns, whatever the input was, the page it has
    saved has the fixed layout: margins of 0.39 inch, the patient table with
    its five header cells and five data cells, one empty paragraph, the main
    table with its three header cells and three content cells.  Header cells
    are centred, bold, Arial 9pt; the patient data are centred, not bold,
    Arial 9pt; the three content cells are not centred and every run in them
    is Arial 8pt. *)
Theorem page_layout_is_fixed (data : json) (nombre : string) (w w' : world) :
  generar_docx_desde_json data nombre w = (Ok tt, w') ->
  exists doc d1 c1 c2 c3,
    fs w' !! nombre = Some (FDocx doc)
    /\ doc = mkdocument (39, 39, 39, 39)
            [BTable (mktable "Table Grid" false anchos_paciente
                       [map celda_encabezado encabezado_paciente; d1]);
             BParagraph new_paragraph;
             BTable (mktable "Table Grid" false anchos_principal
                       [map celda_encabezado encabezados;
                        [mkcell [c1]; mkcell [c2]; mkcell [c3]]])]
    /\ List.length d1 = 5%nat
    /\ fila_centrada d1
    /\ Forall (fun r => arial 9 r /\ run_bold r = false) (runs_de_fila d1)
    /\ fila_centrada (map celda_encabezado encabezado_paciente ++ map celda_encabezado encabezados)%list
    /\ Forall (fun r => arial 9 r /\ run_bold r = true)
          (runs_de_fila (map celda_encabezado encabezado_paciente
                         ++ map celda_encabezado encabezados)%list)
    /\ cuerpo8 c1 /\ cuerpo8 c2 /\ cuerpo8 c3.
Proof.
  intros Hgen. apply generar_inv in Hgen as (doc & H & _ & _ & ->).
  exists doc. unfold construir_documento in H.
  rewrite fila_encabezado_principal in H.
  repeat match goal with
         | H : bind ?m _ = Ok _ |- _ =>
             let E := fresh "E" in
             destruct m eqn:E; cbn [bind] in H; [|discriminate H]
         end.
  injection H as <-.
  match goal with
  | E : tabla_paciente _ = Ok _ |- _ =>
      apply tabla_paciente_rows in E; destruct E as (x1 & x2 & x3 & x4 & x5 & ->)
  end.
  assert (H0 : cuerpo8 new_paragraph) by (split; [reflexivity|constructor]).
  eexists _, _, _, _. split; [apply lookup_insert_eq|].
  split; [reflexivity|].
  split; [reflexivity|].
  split; [repeat constructor|].
  split; [repeat constructor|].
  split; [repeat constructor|].
  split; [repeat constructor|].
  split; [eapply columna_fecha_cuerpo8; eassumption|].
  split; [eapply columna_notas_cuerpo8; eassumption|].
  eapply columna_ordenes_cuerpo8; eassumption.
Qed.

End TypographyTheorem.


(* ------------------------------------------------------------------ *)
(** ** What the renderer reads, and inputs of other types               *)
(* ------------------------------------------------------------------ *)

Lemma nth_error_enumerate_from {A : Type} (l : list A) (i : Z) (k : nat) (x : A) :
  nth_error l k = Some x ->
  nth_error (enumerate_from i l) k = Some (i + Z.of_nat k, x).
Proof.
  revert i k. induction l as [|y l IH]; intros i [|k]; simpl; try discriminate.
  - intros [= ->]. now rewrite Z.add_0_r.
  - intros H. rewrite (IH (i + 1) k H). do 2 f_equal. lia.
Qed.

Lemma length_enumerate_from {A : Type} (l : list A) (i : Z) :
  List.length (enumerate_from i l) = List.length l.
Proof. revert i. induction l as [|y l IH]; intros i; simpl; auto. Qed.

Lemma In_enumerate_from {A : Type} (l : list A) (i j : Z) (x : A) :
  In (j, x) (enumerate_from i l) ->
  exists k, j = i + Z.of_nat k /\ nth_error l k = Some x.
Proof.
  revert i. induction l as [|y l IH]; intros i; simpl; [contradiction|].
  intros [[= <- <-]|Hin].
  - exists 0%nat. split; [lia|reflexivity].
  - destruct (IH _ Hin) as (k & -> & Hk). exists (S k). split; [lia|exact Hk].
Qed.

Section Reads.
Context {RT : PyRuntime}.

(** The orders are numbered from 1 in the order of the list, one run each,
    after what the paragraph already holds; an order of any JSON type is
    written through [str].  The block raises [ValueError] when the text of
    an order is not XML compatible, and only then. *)
Theorem orders_numbered_from_one (os : list json) (p : paragraph) :
  let linea (k : nat) (o : json) :=
    texto8 ((Py.str_of_Z (Z.of_nat k + 1) ++ ". " ++ Py.str o) ++ LF) in
  ((forall k o, nth_error os k = Some o -> xml_compatible (run_text (linea k o)) = true) ->
   exists p',
     bloque_ordenes (JList os) p = Ok p'
     /\ List.length (p_runs p') = (List.length (p_runs p) + List.length os)%nat
     /\ forall k o,
          nth_error os k = Some o ->
          nth_error (p_runs p') (List.length (p_runs p) + k) = Some (linea k o))
  /\ (forall k o, nth_error os k = Some o ->
                  xml_compatible (run_text (linea k o)) = false ->
                  bloque_ordenes (JList os) p = Raise ValueError).
Proof.
  intros linea. rewrite bloque_ordenes_runs. unfold lineas_ordenes. split.
  - intros Hc. rewrite escribir_ok.
    + eexists. split; [reflexivity|]. cbn [add_runs p_runs]. split.
      * now rewrite length_app, length_map, length_enumerate_from.
      * intros k o Hk. rewrite nth_error_app2 by lia.
        replace (List.length (p_runs p) + k - List.length (p_runs p))%nat with k by lia.
        rewrite nth_error_map, (nth_error_enumerate_from os 0 k o Hk). reflexivity.
    + apply forallb_forall. intros r Hr.
      apply in_map_iff in Hr as [[i o] [<- Hin]].
      apply In_enumerate_from in Hin as (k & -> & Hk).
      exact (Hc k o Hk).
  - intros k o Hk Hx. apply escribir_raise.
    destruct (compatibles _) eqn:E; [|reflexivity].
    unfold compatibles in E. rewrite forallb_forall in E.
    rewrite <- Hx. symmetry. apply E. apply in_map_iff.
    exists (0 + Z.of_nat k, o). split; [reflexivity|].
    eapply nth_error_In. now apply nth_error_enumerate_from.
Qed.

(** A timestamp that is not a string (a number, [null], a list) raises inside
    the [try] and is swallowed like a string that does not parse: column 1
    holds the vital signs only, those among PA, FC, FR and O2 that are
    present ([ValueError] being raised when one of their texts is not XML
    compatible). *)
Theorem timestamp_of_other_type_is_skipped
    (items : list (string * json)) (v : json) (p : paragraph) :
  Py.lookup "fecha_hora" items = Some v ->
  (forall s, v <> JStr s) ->
  (forall x, Py.lookup "signos_vitales" items = Some x -> exists sv, x = JObj sv) ->
  let sv := Py.lookup "signos_vitales" items in
  let rs := (linea_rotulada "PA: " (campo_de "PA" sv) LF
             ++ linea_rotulada "FC: " (campo_de "FC" sv) LF
             ++ linea_rotulada "FR: " (campo_de "FR" sv) LF
             ++ linea_rotulada "O2: " (campo_de "O2" sv) LF)%list in
  columna_fecha (JObj items) p
  = if compatibles rs then Ok (add_runs p rs) else Raise ValueError.
Proof.
  intros Hv Hns Hsv sv rs. rewrite columna_fecha_runs by exact Hsv.
  rewrite Hv. unfold lineas_fecha.
  assert (Hf : Py.fromisoformat v = None).
  { destruct v; try reflexivity. now destruct (Hns s). }
  rewrite Hf. cbn [app]. rewrite lineas_signos_explicit. reflexivity.
Qed.

(** [diagnosticos] given as one string instead of a list: the loop visits the
    characters of the string, and each character becomes a bullet of its
    own. *)
Theorem string_diagnosis_is_split_in_characters (s : string) (p : paragraph) :
  s <> "" ->
  let rs := ([negrita8 ("DIAGNÓSTICOS:" ++ LF)%string]
             ++ map (fun c => texto8 ("• " ++ Py.str_upper c ++ LF)%string) (Py.chars s)
             ++ [texto8 LF])%list in
  bloque_diagnosticos (JStr s) p
  = if compatibles rs then Ok (add_runs p rs) else Raise ValueError.
Proof.
  intros Hs rs. change (bloque_diagnosticos (JStr s) p = escribir p rs).
  unfold bloque_diagnosticos. cbn [Py.truthy].
  apply String.eqb_neq in Hs. rewrite Hs. cbn [negb]. unfold rs. cbn [app].
  apply seq_escribir_cons; [esc|intros q]. cbn [Py.iter bind].
  apply seq_escribir; [|intros q'; esc].
  replace (map (fun c => texto8 ("• " ++ Py.str_upper c ++ LF)) (Py.chars s))
    with (flat_map (fun x => [texto8 ("• " ++ Py.str_upper (Py.str x) ++ LF)])
                   (map JStr (Py.chars s)))
    by (rewrite flat_map_singleton, map_map; reflexivity).
  apply for_each_escribir.
  intros x q' Hx. apply in_map_iff in Hx as [c [<- _]]. cbn [Py.upper bind Py.str]. esc.
Qed.

End Reads.

Section ReadsSaving.
Context {RT : PyRuntime} {CO : Colaboradores}.

(** The renderer looks at eleven top-level keys only: two reports that agree
    on them give the same result.  So [tipo_informe] and any key the schema
    does not declare never change the page. *)
Theorem renderer_reads_eleven_keys (items items' : list (string * json)) :
  (forall k, In k claves_leidas -> Py.lookup k items = Py.lookup k items') ->
  forall nombre w,
    generar_docx_desde_json (JObj items) nombre w
    = generar_docx_desde_json (JObj items') nombre w.
Proof.
  intros H nombre w.
  assert (Hc : construir_documento (JObj items) = construir_documento (JObj items')).
  { unfold construir_documento, tabla_paciente, columna_fecha, columna_notas,
      columna_ordenes, Py.get.
    rewrite (H "paciente"), (H "fecha_hora"), (H "signos_vitales"),
      (H "descripcion_paciente"), (H "diagnosticos"), (H "evolucion"), (H "BH"),
      (H "RD"), (H "ordenes_medicas"), (H "ingresos"), (H "egresos");
      solve [reflexivity | unfold claves_leidas; simpl; tauto]. }
  unfold generar_docx_desde_json. now rewrite Hc.
Qed.

End ReadsSaving.


(* ------------------------------------------------------------------ *)
(** ** The date block shows the digits of the timestamp                 *)
(* ------------------------------------------------------------------ *)

Lemma digit_inv (c : ascii) (x : Z) :
  DateTime.digit c = Some x ->
  0 <= x <= 9 /\ c = ascii_of_nat (Z.to_nat (x + 48)).
Proof.
  unfold DateTime.digit.
  destruct ((48 <=? Z.of_nat (nat_of_ascii c)) && (Z.of_nat (nat_of_ascii c) <=? 57)) eqn:E;
    [|discriminate].
  intros [= <-]. apply andb_prop in E as [E1 E2].
  apply Z.leb_le in E1, E2. split; [lia|].
  replace (Z.of_nat (nat_of_ascii c) - 48 + 48) with (Z.of_nat (nat_of_ascii c)) by lia.
  now rewrite Nat2Z.id, ascii_nat_embedding.
Qed.

Lemma pad2_digits (a b : ascii) (n : Z) :
  DateTime.digits2 a b = Some n ->
  0 <= n <= 99 /\ DateTime.pad2 n = String a (String b "").
Proof.
  unfold DateTime.digits2.
  destruct (DateTime.digit a) as [x|] eqn:Ea; [|discriminate].
  destruct (DateTime.digit b) as [y|] eqn:Eb; [|discriminate].
  intros [= <-].
  apply digit_inv in Ea as [Hx ->]. apply digit_inv in Eb as [Hy ->].
  split; [lia|].
  assert (Hx' : x = 0 \/ x = 1 \/ x = 2 \/ x = 3 \/ x = 4 \/ x = 5 \/ x = 6
                \/ x = 7 \/ x = 8 \/ x = 9) by lia.
  assert (Hy' : y = 0 \/ y = 1 \/ y = 2 \/ y = 3 \/ y = 4 \/ y = 5 \/ y = 6
                \/ y = 7 \/ y = 8 \/ y = 9) by lia.
  clear Hx Hy.
  repeat (destruct Hx' as [->|Hx']); try subst x;
    repeat (destruct Hy' as [->|Hy']); try subst y; reflexivity.
Qed.

Lemma parse_basic_shape (s : string) (dt : datetime) :
  DateTime.parse_basic s = Some dt ->
  exists y1 y2 y3 y4 m1 m2 d1 d2 sep h1 h2 n1 n2 s1 s2 yh yl,
    s = string_of_list_ascii
          [y1; y2; y3; y4; "-"; m1; m2; "-"; d1; d2; sep; h1; h2; ":"; n1; n2; ":";
           s1; s2]%char
    /\ DateTime.digits2 y1 y2 = Some yh
    /\ DateTime.digits2 y3 y4 = Some yl
    /\ year dt = 100 * yh + yl
    /\ DateTime.digits2 m1 m2 = Some (month dt)
    /\ DateTime.digits2 d1 d2 = Some (day dt)
    /\ DateTime.digits2 h1 h2 = Some (hour dt)
    /\ DateTime.digits2 n1 n2 = Some (minute dt)
    /\ DateTime.digits2 s1 s2 = Some (second dt)
    /\ DateTime.valid dt = true.
Proof.
  unfold DateTime.parse_basic. intros H.
  rewrite <- (string_of_list_ascii_of_string s).
  destruct (list_ascii_of_string s) as [|y1 l]; [discriminate|].
  destruct l as [|y2 l]; [discriminate|]. destruct l as [|y3 l]; [discriminate|].
  destruct l as [|y4 l]; [discriminate|]. destruct l as [|c1 l]; [discriminate|].
  destruct l as [|m1 l]; [destruct c1 as [[] [] [] [] [] [] [] []]; discriminate|].
  destruct l as [|m2 l]; [destruct c1 as [[] [] [] [] [] [] [] []]; discriminate|].
  destruct l as [|c2 l]; [destruct c1 as [[] [] [] [] [] [] [] []]; discriminate|].
  destruct c1 as [[] [] [] [] [] [] [] []]; try discriminate.
  destruct l as [|d1 l]; [destruct c2 as [[] [] [] [] [] [] [] []]; discriminate|].
  destruct l as [|d2 l]; [destruct c2 as [[] [] [] [] [] [] [] []]; discriminate|].
  destruct l as [|sep l]; [destruct c2 as [[] [] [] [] [] [] [] []]; discriminate|].
  destruct l as [|h1 l]; [destruct c2 as [[] [] [] [] [] [] [] []]; discriminate|].
  destruct l as [|h2 l]; [destruct c2 as [[] [] [] [] [] [] [] []]; discriminate|].
  destruct l as [|c3 l]; [destruct c2 as [[] [] [] [] [] [] [] []]; discriminate|].
  destruct c2 as [[] [] [] [] [] [] [] []]; try discriminate.
  destruct l as [|n1 l]; [destruct c3 as [[] [] [] [] [] [] [] []]; discriminate|].
  destruct l as [|n2 l]; [destruct c3 as [[] [] [] [] [] [] [] []]; discriminate|].
  destruct l as [|c4 l]; [destruct c3 as [[] [] [] [] [] [] [] []]; discriminate|].
  destruct c3 as [[] [] [] [] [] [] [] []]; try discriminate.
  destruct l as [|s1 l]; [destruct c4 as [[] [] [] [] [] [] [] []]; discriminate|].
  destruct l as [|s2 l]; [destruct c4 as [[] [] [] [] [] [] [] []]; discriminate|].
  destruct c4 as [[] [] [] [] [] [] [] []]; try discriminate.
  destruct l; [|discriminate].
  destruct (Ascii.eqb sep "T" || Ascii.eqb sep " ")%char; [|discriminate].
  unfold DateTime.digits4 in H.
  destruct (DateTime.digits2 y1 y2) as [yh|] eqn:E1; [|discriminate].
  destruct (DateTime.digits2 y3 y4) as [yl|] eqn:E2; [|discriminate].
  destruct (DateTime.digits2 m1 m2) as [m|] eqn:E3; [|discriminate].
  destruct (DateTime.digits2 d1 d2) as [d|] eqn:E4; [|discriminate].
  destruct (DateTime.digits2 h1 h2) as [h|] eqn:E5; [|discriminate].
  destruct (DateTime.digits2 n1 n2) as [n|] eqn:E6; [|discriminate].
  destruct (DateTime.digits2 s1 s2) as [sec|] eqn:E7; [|discriminate].
  cbv zeta in H.
  destruct (DateTime.valid (mkdatetime (100 * yh + yl) m d h n sec)) eqn:Ev;
    [|discriminate].
  injection H as <-.
  exists y1, y2, y3, y4, m1, m2, d1, d2, sep, h1, h2, n1, n2, s1, s2, yh, yl.
  repeat split; auto.
Qed.

Section DateBlock.
Context {RT : PyRuntime}.

(** For a report whose timestamp has the form [YYYY-MM-DDTHH:MM:SS] and is a
    real date and time, column 1 starts with three runs: the weekday, one of
    the seven Spanish names, in bold; the date [DD/MM/YY] and the time
    [HH:MM], whose digits are those of the timestamp (the seconds and the
    century are dropped).  The vital signs follow; the date runs are always
    accepted, so the column is written unless a vital sign is refused. *)
Theorem date_block_shows_timestamp_digits
    (items : list (string * json)) (s : string) (dt : datetime) (p : paragraph) :
  Py.lookup "fecha_hora" items = Some (JStr s) ->
  DateTime.parse_basic s = Some dt ->
  (forall x, Py.lookup "signos_vitales" items = Some x -> exists sv, x = JObj sv) ->
  let sv := Py.lookup "signos_vitales" items in
  let signos := (linea_rotulada "PA: " (campo_de "PA" sv) LF
                 ++ linea_rotulada "FC: " (campo_de "FC" sv) LF
                 ++ linea_rotulada "FR: " (campo_de "FR" sv) LF
                 ++ linea_rotulada "O2: " (campo_de "O2" sv) LF)%list in
  let dia := traducir_dia (DateTime.strftime_A dt) in
  In dia ["Lunes"; "Martes"; "Miércoles"; "Jueves"; "Viernes"; "Sábado"; "Domingo"]
  /\ columna_fecha (JObj items) p
     = if compatibles signos
       then Ok (add_runs p
                  ([negrita8 (dia ++ LF);
                    texto8 ((substring 8 2 s ++ "/" ++ substring 5 2 s ++ "/"
                             ++ substring 2 2 s) ++ LF);
                    texto8 (substring 11 5 s ++ LF ++ LF)] ++ signos)%list)
       else Raise ValueError.
Proof.
  intros Hf H Hsv sv signos dia. unfold dia. split.
  { pose proof (strftime_A_cases dt) as Hc. simpl in Hc.
    destruct Hc as [<-|[<-|[<-|[<-|[<-|[<-|[<-|[]]]]]]]]; simpl; tauto. }
  rewrite columna_fecha_runs by exact Hsv.
  unfold escribir. rewrite compatibles_app, lineas_fecha_compatibles. cbn [andb].
  rewrite Hf, lineas_signos_explicit. fold sv. fold signos.
  unfold lineas_fecha, Py.fromisoformat. rewrite H.
  destruct (parse_basic_shape s dt H)
    as (y1 & y2 & y3 & y4 & m1 & m2 & d1 & d2 & sep & h1 & h2 & n1 & n2 & s1 & s2
        & yh & yl & Hstr & Hyh & Hyl & Hy & Hm & Hd & Hh & Hn & _ & _).
  apply pad2_digits in Hyl as [Hyl Hpy], Hm as [_ Hpm], Hd as [_ Hpd],
      Hh as [_ Hph], Hn as [_ Hpn].
  assert (Hdmy : DateTime.strftime_dmy dt
                 = substring 8 2 s ++ "/" ++ substring 5 2 s ++ "/" ++ substring 2 2 s).
  { unfold DateTime.strftime_dmy. rewrite Hy, Hpm, Hpd.
    replace ((100 * yh + yl) mod 100) with yl
      by (rewrite Z.add_comm, Z.mul_comm, Z_mod_plus_full; symmetry;
          apply Z.mod_small; lia).
    rewrite Hpy, Hstr. reflexivity. }
  assert (HHM : DateTime.strftime_HM dt = substring 11 5 s).
  { unfold DateTime.strftime_HM. rewrite Hph, Hpn, Hstr. reflexivity. }
  now rewrite Hdmy, HHM.
Qed.

End DateBlock.


(* ------------------------------------------------------------------ *)
(** ** Removing a field                                                 *)
(* ------------------------------------------------------------------ *)

Lemma In_dict_del (k k' : string) (v : json) (kvs : list (string * json)) :
  In (k', v) (dict_del k kvs) -> In (k', v) kvs.
Proof.
  induction kvs as [|[k0 v0] rest IH]; simpl; [tauto|].
  destruct (String.eqb k k0); simpl; tauto.
Qed.

Lemma nodup_keys_dict_del (k : string) (kvs : list (string * json)) :
  nodup_keys kvs = true -> nodup_keys (dict_del k kvs) = true.
Proof.
  induction kvs as [|[k0 v0] rest IH]; simpl; [reflexivity|].
  intros H. apply andb_prop in H as [Hf Hnd].
  destruct (String.eqb k k0); [now apply IH|]. simpl.
  rewrite (IH Hnd), andb_true_r.
  apply negb_true_iff. apply negb_true_iff in Hf.
  destruct (existsb (fun kv => String.eqb k0 (fst kv)) (dict_del k rest)) eqn:E;
    [|reflexivity].
  apply existsb_exists in E as [[k1 v1] [Hin Hk]].
  assert (existsb (fun kv => String.eqb k0 (fst kv)) rest = true); [|congruence].
  apply existsb_exists. exists (k1, v1). split; [|exact Hk].
  eapply In_dict_del; eauto.
Qed.

(** A Report in which fields may be absent stays one when a key is removed. *)
Lemma has_shape_dict_del (cs : list campo) (k : string) (kvs : list (string * json)) :
  has_shape false (TModel cs) (JObj kvs) = true ->
  has_shape false (TModel cs) (JObj (dict_del k kvs)) = true.
Proof.
  simpl. intros H.
  apply andb_prop in H as [H Heach]. apply andb_prop in H as [Hnd Hdecl].
  rewrite (nodup_keys_dict_del k kvs Hnd). simpl.
  apply andb_true_intro. split.
  - rewrite forallb_forall in Hdecl |- *. intros [k' v] Hin.
    apply (Hdecl (k', v)). eapply In_dict_del; eauto.
  - clear Hdecl. revert Heach.
    induction cs as [|[[n t] d] cs' IH]; [reflexivity|].
    intros H. apply andb_prop in H as [H1 H2]. rewrite (IH H2), andb_true_r.
    destruct (String.eqb_spec k n) as [->|Hne].
    + rewrite lookup_dict_del_eq. now destruct d.
    + now rewrite lookup_dict_del_ne.
Qed.

Lemma partial_report_dict_del (k : string) (items : list (string * json)) :
  partial_report (JObj items) -> partial_report (JObj (dict_del k items)).
Proof. apply has_shape_dict_del. Qed.

Ltac por_clave k key :=
  destruct (String.eqb_spec k key) as [->|?];
  [ rewrite ?lookup_dict_del_eq; rewrite ?lookup_dict_del_ne by discriminate
  | rewrite (lookup_dict_del_ne k key) by assumption ].

Ltac caso_falsy v Hf :=
  destruct v as [| [] | ? | [] ? | ? | [|? ?] | [|? ?]];
  simpl in Hf; try discriminate Hf;
  try (apply negb_false_iff in Hf;
       first [ apply Z.eqb_eq in Hf | apply String.eqb_eq in Hf ]; subst).

Section Removal.
Context {RT : PyRuntime}.

(** The layout of a report does not tell a field that holds an empty value
    ([""], [0], an empty list or dict) from a field that is missing. *)
Lemma spec_empty_is_missing (items : list (string * json)) (k : string) (v : json) :
  Py.lookup k items = Some v -> Py.truthy v = false ->
  datos_paciente_spec (dict_del k items) = datos_paciente_spec items
  /\ columna_fecha_spec (dict_del k items) = columna_fecha_spec items
  /\ columna_notas_spec (dict_del k items) = columna_notas_spec items
  /\ columna_ordenes_spec (dict_del k items) = columna_ordenes_spec items.
Proof.
  intros Hv Hf.
  unfold datos_paciente_spec, columna_fecha_spec, columna_notas_spec,
    columna_ordenes_spec.
  por_clave k "paciente"; [rewrite Hv; caso_falsy v Hf; repeat split; reflexivity|].
  por_clave k "fecha_hora"; [rewrite Hv; caso_falsy v Hf; repeat split; reflexivity|].
  por_clave k "signos_vitales"; [rewrite Hv; caso_falsy v Hf; repeat split; reflexivity|].
  por_clave k "descripcion_paciente"; [rewrite Hv; caso_falsy v Hf; repeat split; reflexivity|].
  por_clave k "diagnosticos"; [rewrite Hv; caso_falsy v Hf; repeat split; reflexivity|].
  por_clave k "evolucion"; [rewrite Hv; caso_falsy v Hf; repeat split; reflexivity|].
  por_clave k "BH"; [rewrite Hv; caso_falsy v Hf; repeat split; reflexivity|].
  por_clave k "RD"; [rewrite Hv; caso_falsy v Hf; repeat split; reflexivity|].
  por_clave k "ordenes_medicas"; [rewrite Hv; caso_falsy v Hf; repeat split; reflexivity|].
  por_clave k "ingresos"; [rewrite Hv; caso_falsy v Hf; repeat split; reflexivity|].
  por_clave k "egresos"; [rewrite Hv; caso_falsy v Hf; repeat split; reflexivity|].
  repeat split; reflexivity.
Qed.

End Removal.

Section RemovalSaving.
Context {RT : PyRuntime} {CO : Colaboradores}.

(** Empty is the same as missing: in a Report, a top-level field that holds
    an empty value can be removed without changing what the renderer does:
    the same document is saved, or the same exception raised. *)
Theorem empty_field_renders_as_missing
    (items : list (string * json)) (k : string) (v : json) :
  partial_report (JObj items) ->
  Py.lookup k items = Some v -> Py.truthy v = false ->
  forall nombre w,
    generar_docx_desde_json (JObj (dict_del k items)) nombre w
    = generar_docx_desde_json (JObj items) nombre w.
Proof.
  intros H Hv Hf nombre w.
  destruct (spec_empty_is_missing items k v Hv Hf) as (E1 & E2 & E3 & E4).
  unfold generar_docx_desde_json.
  rewrite (construir_partial_report items H).
  rewrite (construir_partial_report _ (partial_report_dict_del k items H)).
  unfold textos_compatibles, documento_spec, tabla_paciente_spec.
  now rewrite E1, E2, E3, E4.
Qed.

End RemovalSaving.

Lemma sublist_lineas_balance_ingresos {RT : PyRuntime} (ing egr : list (string * json)) :
  sublist (lineas_balance [] egr) (lineas_balance ing egr).
Proof.
  unfold lineas_balance. cbn [existsb orb].
  destruct (existsb no_cero egr); [|apply sublist_nil_l].
  rewrite orb_true_r. apply sublist_skip.
  apply sublist_app; [apply sublist_nil_l|reflexivity].
Qed.

Lemma sublist_lineas_balance_egresos {RT : PyRuntime} (ing egr : list (string * json)) :
  sublist (lineas_balance ing []) (lineas_balance ing egr).
Proof.
  unfold lineas_balance. cbn [existsb]. rewrite orb_false_r.
  destruct (existsb no_cero ing); [|apply sublist_nil_l].
  cbn [orb]. apply sublist_skip.
  apply sublist_app; [reflexivity|apply sublist_nil_l].
Qed.

Lemma compatibles_sublist (a b : list run) :
  sublist a b -> compatibles b = true -> compatibles a = true.
Proof.
  unfold compatibles. induction 1 as [|x l1 l2 _ IH|x l1 l2 _ IH]; cbn [forallb].
  - reflexivity.
  - intros H. apply andb_prop in H as [Hx Hl]. now rewrite Hx, IH.
  - intros H. apply andb_prop in H as [_ Hl]. now apply IH.
Qed.

Ltac bloque_menor :=
  solve [ reflexivity
        | apply sublist_nil_l
        | apply sublist_lineas_balance_ingresos
        | apply sublist_lineas_balance_egresos ].

Ltac columnas_menores := repeat (apply sublist_app; [bloque_menor|]); bloque_menor.

Section RemovalOrder.
Context {RT : PyRuntime} {CO : Colaboradores}.

Lemma columnas_dict_del (items : list (string * json)) (k : string) :
  sublist (columna_fecha_spec (dict_del k items)) (columna_fecha_spec items)
  /\ sublist (columna_notas_spec (dict_del k items)) (columna_notas_spec items)
  /\ sublist (columna_ordenes_spec (dict_del k items)) (columna_ordenes_spec items).
Proof.
  unfold columna_fecha_spec, columna_notas_spec, columna_ordenes_spec.
  por_clave k "fecha_hora"; [repeat split; columnas_menores|].
  por_clave k "signos_vitales"; [repeat split; columnas_menores|].
  por_clave k "descripcion_paciente"; [repeat split; columnas_menores|].
  por_clave k "diagnosticos"; [repeat split; columnas_menores|].
  por_clave k "evolucion"; [repeat split; columnas_menores|].
  por_clave k "BH"; [repeat split; columnas_menores|].
  por_clave k "RD"; [repeat split; columnas_menores|].
  por_clave k "ordenes_medicas"; [repeat split; columnas_menores|].
  por_clave k "ingresos"; [repeat split; columnas_menores|].
  por_clave k "egresos"; [repeat split; columnas_menores|].
  repeat split; reflexivity.
Qed.

Lemma datos_paciente_dict_del (items : list (string * json)) (k : string) :
  forallb xml_compatible (datos_paciente_spec items) = true ->
  forallb xml_compatible (datos_paciente_spec (dict_del k items)) = true.
Proof.
  unfold datos_paciente_spec.
  por_clave k "paciente"; [intros _; reflexivity|tauto].
Qed.

(** A report whose texts are accepted stays one when a key is removed. *)
Lemma textos_compatibles_dict_del (items : list (string * json)) (k : string) :
  textos_compatibles items = true -> textos_compatibles (dict_del k items) = true.
Proof.
  unfold textos_compatibles. intros H.
  apply andb_prop in H as [H H4]. apply andb_prop in H as [H H3].
  apply andb_prop in H as [H1 H2].
  destruct (columnas_dict_del items k) as (S2 & S3 & S4).
  rewrite (datos_paciente_dict_del items k H1).
  rewrite (compatibles_sublist _ _ S2 H2), (compatibles_sublist _ _ S3 H3).
  now rewrite (compatibles_sublist _ _ S4 H4).
Qed.

(** Omission: removing any top-level key from a Report whose texts are XML
    compatible only removes runs.  Both reports render (when the document
    can be saved and the line after it printed), and in each of the three
    columns the runs of the smaller report are a subsequence of the runs of
    the full one: what remains keeps its text, its style and its order. *)
Theorem removing_a_field_only_removes_runs
    (items : list (string * json)) (k : string) (nombre : string) (w : world) :
  partial_report (JObj items) ->
  textos_compatibles items = true ->
  io_falla (OpGuardarDocx nombre) = None ->
  io_falla (OpImprimir (aviso_guardado nombre)) = None ->
  exists doc doc',
    generar_docx_desde_json (JObj items) nombre w
    = (Ok tt, write_file nombre (FDocx doc) (EvDocSave nombre) w)
    /\ generar_docx_desde_json (JObj (dict_del k items)) nombre w
       = (Ok tt, write_file nombre (FDocx doc') (EvDocSave nombre) w)
    /\ forall i p p',
         columna doc i = Some p -> columna doc' i = Some p' ->
         sublist (p_runs p') (p_runs p).
Proof.
  intros H Hc Hs Hp.
  rewrite (generar_partial_report items nombre w H Hc Hs Hp).
  rewrite (generar_partial_report _ nombre w (partial_report_dict_del k items H)
             (textos_compatibles_dict_del items k Hc) Hs Hp).
  eexists _, _. split; [reflexivity|]. split; [reflexivity|].
  destruct (columnas_dict_del items k) as (H1 & H2 & H3).
  intros i p p' Hq Hq'.
  destruct i as [|[|[|i]]]; cbn in Hq, Hq'; try (destruct i; discriminate);
    injection Hq as <-; injection Hq' as <-; assumption.
Qed.

End RemovalOrder.


(* ------------------------------------------------------------------ *)
(** ** Nested objects of another type                                   *)
(* ------------------------------------------------------------------ *)

Lemma get_no_dict (v : json) (k : string) (d x : json) :
  no_dict v -> Py.get v k d = Ok x -> False.
Proof. intros Hn. destruct v; try discriminate. now destruct (Hn items). Qed.

Lemma values_no_dict (v : json) (x : list json) :
  no_dict v -> Py.values v = Ok x -> False.
Proof. intros Hn. destruct v; try discriminate. now destruct (Hn items). Qed.

Lemma get_obj_lookup (items : list (string * json)) (k : string) (d v x : json) :
  Py.lookup k items = Some v -> Py.get (JObj items) k d = Ok x -> x = v.
Proof. simpl. intros ->. now intros [= <-]. Qed.

Ltac binds H :=
  repeat match type of H with
         | bind ?m _ = Ok _ =>
             let E := fresh "E" in
             destruct m eqn:E; cbn [bind] in H; [|discriminate H]
         end.

Ltac binds_all :=
  repeat match goal with
         | H : bind ?m _ = Ok _ |- _ =>
             let E := fresh "E" in
             destruct m eqn:E; cbn [bind] in H; [|discriminate H]
         end.

Section NestedObjects.
Context {RT : PyRuntime} {CO : Colaboradores}.

(** The tolerance for missing fields does not extend to [null]: when
    [paciente], [signos_vitales], [evolucion], [ingresos] or [egresos] is
    present but is not a JSON object ([null], a string, a list, a number),
    the renderer raises and no document is produced. *)
Theorem nested_object_of_other_type_raises
    (items : list (string * json)) (k : string) (v : json) :
  In k ["paciente"; "signos_vitales"; "evolucion"; "ingresos"; "egresos"] ->
  Py.lookup k items = Some v ->
  no_dict v ->
  exists e, forall nombre w,
    generar_docx_desde_json (JObj items) nombre w = (Raise e, w).
Proof.
  intros Hk Hv Hn.
  destruct (construir_documento (JObj items)) as [doc|e] eqn:H.
  2:{ exists e. intros. now apply generar_raise. }
  exfalso. unfold construir_documento in H. binds H.
  simpl in Hk. destruct Hk as [<-|[<-|[<-|[<-|[<-|[]]]]]].
  - match goal with E : tabla_paciente _ = Ok _ |- _ =>
      unfold tabla_paciente in E; binds E end.
    match goal with
    | E1 : Py.get (JObj items) "paciente" _ = Ok ?a, E2 : Py.get ?a "apellido_paterno" _ = Ok _ |- _ =>
        apply (get_obj_lookup _ _ _ _ _ Hv) in E1; subst a;
        exact (get_no_dict _ _ _ _ Hn E2)
    end.
  - match goal with E : columna_fecha _ _ = Ok _ |- _ => rename E into Hc end.
    unfold columna_fecha in Hc. binds Hc.
    match type of Hc with
    | context [Py.fromisoformat ?x] => destruct (Py.fromisoformat x)
    end; cbv beta iota zeta in Hc; binds Hc;
      match goal with
      | E1 : Py.get (JObj items) "signos_vitales" _ = Ok ?a |- _ =>
          apply (get_obj_lookup _ _ _ _ _ Hv) in E1; subst a
      end;
      unfold bloque_signos in Hc; cbn [for_each claves_signos] in Hc; binds_all;
      match goal with
      | E2 : Py.get v "PA" _ = Ok _ |- _ => exact (get_no_dict _ _ _ _ Hn E2)
      end.
  - match goal with E : columna_notas _ _ = Ok _ |- _ =>
      unfold columna_notas in E; binds E end.
    match goal with
    | E1 : Py.get (JObj items) "evolucion" _ = Ok ?a, E2 : Py.get ?a "estado_general" _ = Ok _ |- _ =>
        apply (get_obj_lookup _ _ _ _ _ Hv) in E1; subst a;
        exact (get_no_dict _ _ _ _ Hn E2)
    end.
  - match goal with E : columna_ordenes _ _ = Ok _ |- _ => rename E into Hc end.
    unfold columna_ordenes in Hc. binds Hc.
    match goal with
    | E1 : Py.get (JObj items) "ingresos" _ = Ok ?a |- _ =>
        apply (get_obj_lookup _ _ _ _ _ Hv) in E1; subst a
    end.
    unfold bloque_balance in Hc. binds_all.
    match goal with
    | E2 : Py.values v = Ok _ |- _ => exact (values_no_dict _ _ Hn E2)
    end.
  - match goal with E : columna_ordenes _ _ = Ok _ |- _ => rename E into Hc end.
    unfold columna_ordenes in Hc. binds Hc.
    match goal with
    | E1 : Py.get (JObj items) "egresos" _ = Ok ?a |- _ =>
        apply (get_obj_lookup _ _ _ _ _ Hv) in E1; subst a
    end.
    unfold bloque_balance in Hc. binds_all.
    match goal with
    | E6 : (if Py.any ?x then _ else _) = Ok _ |- _ => destruct (Py.any x)
    end.
    + match goal with E6 : Ok true = Ok _ |- _ => injection E6 as <- end.
      binds_all. unfold seccion_balance in *. binds_all.
      match goal with
      | E2 : Py.values v = Ok _ |- _ => exact (values_no_dict _ _ Hn E2)
      end.
    + binds_all.
      match goal with
      | E2 : Py.values v = Ok _ |- _ => exact (values_no_dict _ _ Hn E2)
      end.
Qed.
End NestedObjects.

Section PatientRow.
Context {RT : PyRuntime}.

(** The patient table of a Report whose five patient texts are XML
    compatible pairs each title with its field: paternal surname, maternal
    surname, given names, then the clinical record number under
    [HISTORIA CLÍNICA] and the bed number under [NO CAMA]; a missing field
    gives an empty cell.  Age and sex are not shown. *)
Theorem patient_row_pairs_titles_with_fields (items : list (string * json)) :
  partial_report (JObj items) ->
  let paciente := Py.lookup "paciente" items in
  forallb xml_compatible
    [texto_de (campo_de "apellido_paterno" paciente);
     texto_de (campo_de "apellido_materno" paciente);
     texto_de (campo_de "nombres" paciente);
     texto_de (campo_de "n_historia" paciente);
     texto_de (campo_de "n_cama" paciente)] = true ->
  exists t h d,
    tabla_paciente (JObj items) = Ok t
    /\ t_rows t = [h; d]
    /\ combine (textos (runs_de_fila h)) (textos (runs_de_fila d))
       = [("AP PATERNO", texto_de (campo_de "apellido_paterno" paciente));
          ("AP MATERNO", texto_de (campo_de "apellido_materno" paciente));
          ("NOMBRES", texto_de (campo_de "nombres" paciente));
          ("HISTORIA CLÍNICA", texto_de (campo_de "n_historia" paciente));
          ("NO CAMA", texto_de (campo_de "n_cama" paciente))].
Proof.
  intros H paciente Hc. rewrite (tabla_paciente_report items H).
  unfold datos_paciente_spec. cbn [map]. fold paciente. rewrite Hc.
  eexists _, _, _. split; [reflexivity|]. split; reflexivity.
Qed.

End PatientRow.


(* ------------------------------------------------------------------ *)
(** ** The properties at concrete inputs                                *)
(* ------------------------------------------------------------------ *)

Lemma patient_row_pairs_titles_with_fields_witness :
  exists t h d,
    @tabla_paciente runtime_ascii (JObj informe_ejemplo) = Ok t
    /\ t_rows t = [h; d]
    /\ combine (textos (runs_de_fila h)) (textos (runs_de_fila d))
       = [("AP PATERNO", "Quispe"); ("AP MATERNO", "Mamani"); ("NOMBRES", "Juana");
          ("HISTORIA CLÍNICA", "40213"); ("NO CAMA", "12")].
Proof.
  exact (@patient_row_pairs_titles_with_fields runtime_ascii informe_ejemplo
           (valid_report_partial _ informe_ejemplo_valid) eq_refl).
Defined.

Lemma transcription_failure_keeps_upload_witness :
  fs (snd (@procesar_informe runtime_ascii colaboradores_sin_voz
             peticion_ejemplo mundo_inicial)) !! "uploads/nota.wav"
  = Some (FAudio "RIFF").
Proof.
  pose proof (@transcription_failure_keeps_upload runtime_ascii colaboradores_sin_voz
                peticion_ejemplo mundo_inicial (mkupload "nota.wav" "RIFF")
                "EVOLUCION_GERIATRICA" EVOLUCION_GERIATRICA
                (ExternalError "RuntimeError") eq_refl eq_refl eq_refl eq_refl eq_refl)
    as H.
  cbv zeta in H.
  destruct (@procesar_informe runtime_ascii colaboradores_sin_voz
              peticion_ejemplo mundo_inicial) as [resp w'].
  exact (proj1 (proj2 H)).
Defined.

Lemma unsaved_upload_is_a_server_error_witness :
  fst (@procesar_informe runtime_ascii colaboradores_nombre_vacio
         (mkrequest (Some (mkupload "../.." "RIFF")) (Some "EVOLUCION_GERIATRICA"))
         mundo_inicial)
  = mkresponse 500 CInterno
  /\ snd (@procesar_informe runtime_ascii colaboradores_nombre_vacio
            (mkrequest (Some (mkupload "../.." "RIFF")) (Some "EVOLUCION_GERIATRICA"))
            mundo_inicial)
     = mundo_inicial.
Proof.
  destruct (@unsaved_upload_is_a_server_error runtime_ascii colaboradores_nombre_vacio
              (mkrequest (Some (mkupload "../.." "RIFF")) (Some "EVOLUCION_GERIATRICA"))
              mundo_inicial (mkupload "../.." "RIFF") "EVOLUCION_GERIATRICA"
              EVOLUCION_GERIATRICA eq_refl eq_refl eq_refl (or_introl eq_refl))
    as (Hresp & _ & _ & _ & Hw).
  split; [exact Hresp|exact (Hw eq_refl)].
Defined.

Lemma other_files_untouched_witness :
  fs (snd (@procesar_informe runtime_ascii colaboradores_ejemplo
             peticion_ejemplo mundo_inicial)) !! "uploads/otra.wav"
  = fs mundo_inicial !! "uploads/otra.wav".
Proof.
  apply (@other_files_untouched runtime_ascii colaboradores_ejemplo
           peticion_ejemplo mundo_inicial "uploads/otra.wav").
  - discriminate.
  - intros audio [= <-]. discriminate.
Defined.

(** A request whose document is saved but whose [print] fails: it is
    answered with status 500, and the document an earlier request had left
    in [informe.docx] has been replaced. *)
Lemma failed_request_document_kept_or_replaced_witness :
  exists doc e,
    fst (@procesar_informe runtime_ascii colaboradores_sin_consola
           peticion_ejemplo mundo_con_informe)
    = mkresponse 500
        (CError ("Error al generar respuesta con Gemini: "
                 ++ @str_exn colaboradores_sin_consola e))
    /\ fs (snd (@procesar_informe runtime_ascii colaboradores_sin_consola
                  peticion_ejemplo mundo_con_informe)) !! "informe.docx"
       = Some (FDocx doc)
    /\ fs mundo_con_informe !! "informe.docx" <> Some (FDocx doc).
Proof.
  destruct (@failed_request_document_kept_or_replaced runtime_ascii
              colaboradores_sin_consola peticion_ejemplo mundo_con_informe)
    as [[Hsame|[(text & data & doc & e & _ & _ & Hs & _)
               |(text & data & doc & e & Hj & Hr & _ & _ & Hresp & Hdoc)]] _].
  - discriminate.
  - exfalso. vm_compute in Hsame. discriminate Hsame.
  - exfalso. vm_compute in Hs. discriminate Hs.
  - exists doc, e. split; [exact Hresp|]. split; [exact Hdoc|].
    assert (Hd : doc = @documento_spec runtime_ascii []).
    { vm_compute in Hdoc. injection Hdoc as <-. reflexivity. }
    rewrite Hd. vm_compute. discriminate.
Defined.

(** On a full disk [doc.save] fails after opening its file: the request is
    answered with status 500 and the document an earlier request had left is
    lost. *)
Example full_disk_leaves_incomplete_document :
  status (fst (@procesar_informe runtime_ascii colaboradores_disco_lleno
                 peticion_ejemplo mundo_con_informe)) = 500
  /\ fs (snd (@procesar_informe runtime_ascii colaboradores_disco_lleno
                peticion_ejemplo mundo_con_informe)) !! "informe.docx"
     = Some FParcial.
Proof. split; vm_compute; reflexivity. Qed.

Lemma success_is_consistent_witness :
  exists data_json doc,
    @construir_documento runtime_ascii data_json = Ok doc
    /\ fst (@procesar_informe runtime_ascii colaboradores_ejemplo
              peticion_ejemplo mundo_inicial)
       = mkresponse 200 (CExito data_json (@docx_base64 colaboradores_ejemplo doc))
    /\ fs (snd (@procesar_informe runtime_ascii colaboradores_ejemplo
                  peticion_ejemplo mundo_inicial)) !! "informe.docx"
       = Some (FDocx doc).
Proof.
  destruct (@success_is_consistent runtime_ascii colaboradores_ejemplo
              peticion_ejemplo mundo_inicial eq_refl)
    as (audio & tag & tipo & texto & text & data & doc & _ & _ & _ & _ & _ & _
        & Hr & _ & Hp & Hf & _).
  exists data, doc. auto.
Defined.

Lemma non_object_payload_is_a_server_error_witness :
  status (fst (@procesar_informe runtime_ascii colaboradores_lista
                 peticion_ejemplo mundo_inicial)) = 500
  /\ @generar_docx_desde_json runtime_ascii colaboradores_lista
       (JList []) "informe.docx" mundo_inicial
     = (Raise AttributeError, mundo_inicial).
Proof.
  destruct (@non_object_payload_is_a_server_error runtime_ascii colaboradores_lista
              EVOLUCION_GERIATRICA "paciente estable" "[]" (JList [])
              mundo_inicial eq_refl eq_refl ltac:(discriminate))
    as (Hr & _ & _).
  split; [reflexivity|apply Hr].
Defined.

Lemma page_layout_is_fixed_witness :
  exists doc d1 c1 c2 c3,
    fs (snd (@generar_docx_desde_json runtime_ascii colaboradores_ejemplo
               (JObj informe_ejemplo) "informe.docx" mundo_inicial)) !! "informe.docx"
    = Some (FDocx doc)
    /\ doc = mkdocument (39, 39, 39, 39)
        [BTable (mktable "Table Grid" false anchos_paciente
                   [map celda_encabezado encabezado_paciente; d1]);
         BParagraph new_paragraph;
         BTable (mktable "Table Grid" false anchos_principal
                   [map celda_encabezado encabezados;
                    [mkcell [c1]; mkcell [c2]; mkcell [c3]]])]
    /\ cuerpo8 c1 /\ cuerpo8 c2 /\ cuerpo8 c3.
Proof.
  pose proof (@generar_partial_report runtime_ascii colaboradores_ejemplo
                informe_ejemplo "informe.docx" mundo_inicial
                (valid_report_partial _ informe_ejemplo_valid)
                eq_refl eq_refl eq_refl) as Hg.
  destruct (@page_layout_is_fixed runtime_ascii colaboradores_ejemplo
              (JObj informe_ejemplo) "informe.docx" mundo_inicial _ Hg)
    as (doc & d1 & c1 & c2 & c3 & Hf & Hd & _ & _ & _ & _ & _ & H1 & H2 & H3).
  exists doc, d1, c1, c2, c3. rewrite Hg. auto.
Defined.

Lemma orders_numbered_from_one_witness :
  @bloque_ordenes runtime_ascii (JList [JStr "reposo"; JInt 2; JStr "control"])
    new_paragraph
  = Ok (mkparagraph None
          [texto8 ("1. reposo" ++ LF); texto8 ("2. 2" ++ LF);
           texto8 ("3. control" ++ LF)])
  /\ @bloque_ordenes runtime_ascii (JList [JStr "reposo"; JStr ("dieta" ++ FF)])
       new_paragraph
     = Raise ValueError.
Proof.
  destruct (@orders_numbered_from_one runtime_ascii
              [JStr "reposo"; JInt 2; JStr "control"] new_paragraph) as [Hok _].
  destruct (@orders_numbered_from_one runtime_ascii
              [JStr "reposo"; JStr ("dieta" ++ FF)] new_paragraph) as [_ Hno].
  split.
  - destruct Hok as (p' & Hp & _ & _).
    + intros [|[|[|k]]] o Hk; try (injection Hk as <-; reflexivity).
      destruct k; discriminate.
    + rewrite Hp. vm_compute in Hp. injection Hp as <-. reflexivity.
  - apply (Hno 1%nat (JStr ("dieta" ++ FF))); reflexivity.
Defined.

Lemma renderer_reads_eleven_keys_witness :
  @generar_docx_desde_json runtime_ascii colaboradores_ejemplo
    (JObj [("tipo_informe", JStr "OTRO"); ("BH", JStr "normal"); ("extra", JInt 1)])
    "informe.docx" mundo_inicial
  = @generar_docx_desde_json runtime_ascii colaboradores_ejemplo
      (JObj [("BH", JStr "normal")]) "informe.docx" mundo_inicial.
Proof.
  apply (@renderer_reads_eleven_keys runtime_ascii colaboradores_ejemplo).
  intros k Hk. unfold claves_leidas in Hk. simpl in Hk.
  repeat (destruct Hk as [<-|Hk]; [reflexivity|]). contradiction.
Defined.

Lemma timestamp_of_other_type_is_skipped_witness :
  @columna_fecha runtime_ascii
    (JObj [("fecha_hora", JInt 1710167400);
           ("signos_vitales", JObj [("FC", JInt 80)])]) new_paragraph
  = Ok (mkparagraph None [negrita8 "FC: "; texto8 ("80" ++ LF)]).
Proof.
  apply (@timestamp_of_other_type_is_skipped runtime_ascii
           [("fecha_hora", JInt 1710167400);
            ("signos_vitales", JObj [("FC", JInt 80)])]
           (JInt 1710167400) new_paragraph eq_refl).
  - discriminate.
  - intros x [= <-]. eauto.
Defined.

Lemma string_diagnosis_is_split_in_characters_witness :
  @bloque_diagnosticos runtime_ascii (JStr "tos") new_paragraph
  = Ok (mkparagraph None
          [negrita8 ("DIAGNÓSTICOS:" ++ LF); texto8 ("• T" ++ LF);
           texto8 ("• O" ++ LF); texto8 ("• S" ++ LF); texto8 LF])
  /\ @bloque_diagnosticos runtime_ascii (JStr "año") new_paragraph
     = Ok (mkparagraph None
             [negrita8 ("DIAGNÓSTICOS:" ++ LF); texto8 ("• A" ++ LF);
              texto8 ("• Ñ" ++ LF); texto8 ("• O" ++ LF); texto8 LF]).
Proof.
  split.
  - apply (@string_diagnosis_is_split_in_characters runtime_ascii "tos" new_paragraph).
    discriminate.
  - apply (@string_diagnosis_is_split_in_characters runtime_ascii "año" new_paragraph).
    discriminate.
Defined.

Lemma date_block_shows_timestamp_digits_witness :
  @columna_fecha runtime_ascii
    (JObj [("fecha_hora", JStr "1999-12-31 23:59:58");
           ("signos_vitales", JObj [("FC", JInt 80)])]) new_paragraph
  = Ok (mkparagraph None
          [negrita8 ("Viernes" ++ LF); texto8 ("31/12/99" ++ LF);
           texto8 ("23:59" ++ LF ++ LF); negrita8 "FC: "; texto8 ("80" ++ LF)]).
Proof.
  destruct (@date_block_shows_timestamp_digits runtime_ascii
              [("fecha_hora", JStr "1999-12-31 23:59:58");
               ("signos_vitales", JObj [("FC", JInt 80)])]
              "1999-12-31 23:59:58" (mkdatetime 1999 12 31 23 59 58) new_paragraph
              eq_refl eq_refl)
    as (Hdia & Hcol).
  - intros x [= <-]. eauto.
  - rewrite Hcol. reflexivity.
Defined.

Lemma empty_field_renders_as_missing_witness :
  @generar_docx_desde_json runtime_ascii colaboradores_ejemplo
    (JObj [("diagnosticos", JList [JStr "neumonia"])]) "informe.docx" mundo_inicial
  = @generar_docx_desde_json runtime_ascii colaboradores_ejemplo
      (JObj [("BH", JStr ""); ("diagnosticos", JList [JStr "neumonia"])])
      "informe.docx" mundo_inicial.
Proof.
  exact (@empty_field_renders_as_missing runtime_ascii colaboradores_ejemplo
           [("BH", JStr ""); ("diagnosticos", JList [JStr "neumonia"])]
           "BH" (JStr "") eq_refl eq_refl eq_refl "informe.docx" mundo_inicial).
Defined.

Lemma removing_a_field_only_removes_runs_witness :
  exists doc doc',
    @generar_docx_desde_json runtime_ascii colaboradores_ejemplo
      (JObj informe_ejemplo) "informe.docx" mundo_inicial
    = (Ok tt, write_file "informe.docx" (FDocx doc) (EvDocSave "informe.docx")
                mundo_inicial)
    /\ @generar_docx_desde_json runtime_ascii colaboradores_ejemplo
         (JObj (dict_del "evolucion" informe_ejemplo)) "informe.docx" mundo_inicial
       = (Ok tt, write_file "informe.docx" (FDocx doc') (EvDocSave "informe.docx")
                   mundo_inicial).
Proof.
  destruct (@removing_a_field_only_removes_runs runtime_ascii colaboradores_ejemplo
              informe_ejemplo "evolucion" "informe.docx" mundo_inicial
              (valid_report_partial _ informe_ejemplo_valid) eq_refl eq_refl eq_refl)
    as (doc & doc' & H1 & H2 & _).
  exists doc, doc'. split; [exact H1|exact H2].
Defined.

Lemma nested_object_of_other_type_raises_witness :
  exists e,
    @generar_docx_desde_json runtime_ascii colaboradores_ejemplo
      (JObj [("signos_vitales", JNull)]) "informe.docx" mundo_inicial
    = (Raise e, mundo_inicial).
Proof.
  destruct (@nested_object_of_other_type_raises runtime_ascii colaboradores_ejemplo
              [("signos_vitales", JNull)] "signos_vitales" JNull) as [e He].
  - simpl. tauto.
  - reflexivity.
  - intros kvs. discriminate.
  - exists e. apply He.
Defined.

